(** * plainbox: provider content loading (secure/providers/v1.py) and the
      RFC822-like record grammar exercised by secure/test_rfc822.py

    A shallow embedding of the classifier, the content plug-ins and the
    content loader of [plainbox.impl.secure.providers.v1], together with
    the record parser and writer they rely on.

    Python [str] values are modelled as [list ascii]; dictionaries as
    stdpp [gmap]s; exceptions as an explicit [outcome] type. *)

From Stdlib Require Import Ascii.
From stdpp Require Import base option list gmap strings.

Set Default Proof Using "Type".

(** ** Python strings *)

Abbreviation str := (list ascii).

(** String literals: [$"abc"] is the Python string ['abc']. *)
Definition lit (s : string) : str := String.list_ascii_of_string s.
Notation "$ s" := (lit s) (at level 1, format "$ s").

Module Py.

Definition sep : ascii := "/"%char.
Definition extsep : ascii := "."%char.
Definition newline : ascii := "010"%char.

(** [c.isspace()] on the ASCII range. *)
Definition isspace (c : ascii) : bool :=
  let n := nat_of_ascii c in
  (n =? 32) || ((9 <=? n) && (n <=? 13)) || ((28 <=? n) && (n <=? 31)).

(** [s.startswith(prefix)] *)
Fixpoint startswith (s prefix : str) {struct prefix} : bool :=
  match prefix, s with
  | [], _ => true
  | _ :: _, [] => false
  | c :: prefix', d :: s' => Ascii.eqb d c && startswith s' prefix'
  end.

(** [s.endswith(suffix)] *)
Definition endswith (s suffix : str) : bool :=
  startswith (reverse s) (reverse suffix).

(** [a == b] on strings *)
Definition eqb (a b : str) : bool := bool_decide (a = b).

(** [c in s] for a one-character string [c] *)
Definition contains (c : ascii) (s : str) : bool :=
  existsb (Ascii.eqb c) s.

(** [x in (a, b, ...)] *)
Definition in_tuple (x : str) (t : list str) : bool :=
  existsb (eqb x) t.

(** [s.count(c)] for a one-character string [c] *)
Definition count (c : ascii) (s : str) : nat :=
  length (filter (λ d, d = c) s).

(** [s.lstrip()] *)
Fixpoint lstrip (s : str) : str :=
  match s with
  | [] => []
  | c :: s' => if isspace c then lstrip s' else s
  end.

(** [s.rstrip()] *)
Fixpoint rstrip (s : str) : str :=
  match s with
  | [] => []
  | c :: s' =>
      match rstrip s' with
      | [] => if isspace c then [] else [c]
      | r => c :: r
      end
  end.

(** [s.strip()] *)
Definition strip (s : str) : str := rstrip (lstrip s).

(** [s.rstrip(c)] for a one-character string [c] *)
Fixpoint rstrip_char (c : ascii) (s : str) : str :=
  match s with
  | [] => []
  | d :: s' =>
      match rstrip_char c s' with
      | [] => if Ascii.eqb d c then [] else [d]
      | r => d :: r
      end
  end.

(** [s.rfind(c) + 1]: one past the last occurrence of [c], [0] when
    there is none. *)
Fixpoint rfind1 (c : ascii) (s : str) : nat :=
  match s with
  | [] => 0
  | d :: s' =>
      match rfind1 c s' with
      | 0 => if Ascii.eqb d c then 1 else 0
      | S i => S (S i)
      end
  end.

(** [s.split(c, 1)]: [None] when [c] does not occur in [s]. *)
Fixpoint split_once (c : ascii) (s : str) : option (str * str) :=
  match s with
  | [] => None
  | d :: s' =>
      if Ascii.eqb d c then Some ([], s')
      else match split_once c s' with
           | Some (a, b) => Some (d :: a, b)
           | None => None
           end
  end.

(** [s.split(c)]: always at least one piece. *)
Fixpoint split (c : ascii) (s : str) : list str :=
  match s with
  | [] => [[]]
  | d :: s' =>
      if Ascii.eqb d c then [] :: split c s'
      else match split c s' with
           | piece :: rest => (d :: piece) :: rest
           | [] => [[d]]
           end
  end.

(** [c.join(pieces)] *)
Fixpoint join (c : ascii) (pieces : list str) : str :=
  match pieces with
  | [] => []
  | [p] => p
  | p :: rest => p ++ c :: join c rest
  end.

(** The lines of a text, as produced by iterating over a stream or
    by [splitlines]: pieces between newlines, without a final empty
    piece after a trailing newline. *)
Definition lines (text : str) : list str :=
  match text with
  | [] => []
  | _ =>
      let pieces := split newline text in
      match reverse pieces with
      | [] :: rest => reverse rest
      | _ => pieces
      end
  end.

(** [sep * len(s) == s]: the string consists of separators only. *)
Definition all_sep (s : str) : bool := forallb (Ascii.eqb sep) s.

(** *** posixpath *)

(** [os.path.split(p)] *)
Definition path_split (p : str) : str * str :=
  let i := rfind1 sep p in
  let head := take i p in
  let tail := drop i p in
  let head :=
    if negb (eqb head []) && negb (all_sep head)
    then rstrip_char sep head else head in
  (head, tail).

(** [os.path.basename(p)] *)
Definition basename (p : str) : str := drop (rfind1 sep p) p.

(** [os.path.dirname(p)] *)
Definition dirname (p : str) : str :=
  let head := take (rfind1 sep p) p in
  if negb (eqb head []) && negb (all_sep head)
  then rstrip_char sep head else head.

(** One step of [os.path.join(a, b)]. *)
Definition join2 (path b : str) : str :=
  if startswith b [sep] then b
  else if eqb path [] || endswith path [sep] then path ++ b
  else path ++ sep :: b.

(** [os.path.join(a, *p)] *)
Definition path_join (a : str) (p : list str) : str := foldl join2 a p.

(** The loop of [genericpath._splitext] that skips leading dots of
    the last path component: [k] characters remain to be inspected
    before the last dot. *)
Fixpoint splitext_scan (k : nat) (rest : str) : bool :=
  match k, rest with
  | S k', c :: rest' =>
      if Ascii.eqb c extsep then splitext_scan k' rest' else true
  | _, _ => false
  end.

(** [os.path.splitext(p)] *)
Definition splitext (p : str) : str * str :=
  let sep_index1 := rfind1 sep p in
  let dot_index1 := rfind1 extsep p in
  if (sep_index1 <? dot_index1)
     && splitext_scan (dot_index1 - 1 - sep_index1) (drop sep_index1 p)
  then (take (dot_index1 - 1) p, drop (dot_index1 - 1) p)
  else (p, []).

End Py.

(** ** Origins (plainbox.impl.secure.origin, as used by the loaders and
    checked by OriginTests) *)

Inductive TextSource : Type :=
  | UnknownTextSource
  | FileTextSource (filename : str)
  | PythonFileTextSource (filename : str).

(** [Origin(source, line_start=None, line_end=None)] *)
Record Origin : Type := mkOrigin {
  source : TextSource;
  line_start : option nat;
  line_end : option nat }.

(** ** The record grammar (plainbox.impl.secure.rfc822)

    The module itself is not among the sources at hand, only its test
    suite (secure/test_rfc822.py) and its callers are: the parser and
    the writer below follow the specification, section 4.1, and are
    checked further down against the cases of the test suite. *)

Module rfc822.

Inductive SyntaxMsg : Type :=
  | UnexpectedMultiLineValue
  | UnexpectedNonEmptyLine
  | DuplicateKey (key old_value new_value : str).

(** [RFC822SyntaxError(filename, lineno, msg)] *)
Record RFC822SyntaxError : Type := mkSyntaxError {
  err_source : TextSource;
  err_lineno : nat;
  err_msg : SyntaxMsg }.

(** [RFC822Record(data, origin)] *)
Record RFC822Record : Type := mkRecord {
  data : gmap str str;
  origin : Origin }.

Definition period : ascii := "."%char.
Definition colon : ascii := ":"%char.
Definition space : ascii := " "%char.

Definition all_periods (s : str) : bool := forallb (Ascii.eqb period) s.

(** Modelled from the spec: the decoding of one continuation line
    (its leading space already removed).  The parser module is not
    part of the sources at hand; the rule is section 4.1: a line whose
    stripped content is one or more periods loses one period (a lone
    period becomes an empty line), any other line is taken as it is. *)
Definition unescape (line : str) : str :=
  match Py.strip line with
  | c :: rest => if all_periods (c :: rest) then rest else line
  | [] => line
  end.

(** Modelled from the spec: the inverse escaping that the writer of the
    absent rfc822 module applies to one line of a multi-line value
    (section 4.1): an empty line becomes a single period, a line
    consisting solely of periods gets one more period. *)
Definition escape (line : str) : str :=
  if all_periods line then period :: line else line.

(** Modelled from the spec: the state of the parser of the absent
    rfc822 module: the records produced so far, the committed fields
    of the record under construction, the most recently started field
    (key and the lines of its value), and the line span. *)
Record state : Type := mkState {
  produced : list RFC822Record;
  fields : gmap str str;
  opened : option (str * list str);
  first_line : option nat;
  last_line : option nat }.

Definition initial : state := mkState [] ∅ None None None.

(** Modelled from the spec: the absent parser stores the value of the
    most recently started field as its lines joined with newlines. *)
Definition commit (st : state) : state :=
  match opened st with
  | Some (key, value_lines) =>
      mkState (produced st)
              (<[key := Py.join Py.newline value_lines]> (fields st))
              None (first_line st) (last_line st)
  | None => st
  end.

(** Modelled from the spec: what the absent parser does at a blank
    line (or at the end of the input): the record under construction
    is finished; no record is produced when it has no field. *)
Definition flush (src : TextSource) (st : state) : state :=
  let st := commit st in
  if decide (fields st = ∅)
  then mkState (produced st) ∅ None None None
  else mkState
         (produced st ++
            [mkRecord (fields st)
                      (mkOrigin src (first_line st) (last_line st))])
         ∅ None None None.

(** Modelled from the spec: one line of input to the absent parser,
    section 4.1.  Blank lines separate records; a line beginning with
    a space continues the most recently started field, without that
    one space; a line with a colon starts a new field, whose key must
    be new in the current record; anything else is an error. *)
Definition step (src : TextSource) (st : state) (lineno : nat)
    (line : str) : RFC822SyntaxError + state :=
  if Py.eqb (Py.strip line) [] then inr (flush src st)
  else if Py.startswith line [space] then
    match opened st with
    | None => inl (mkSyntaxError src lineno UnexpectedMultiLineValue)
    | Some (key, value_lines) =>
        inr (mkState (produced st) (fields st)
                     (Some (key, value_lines ++ [unescape (tail line)]))
                     (first_line st) (Some lineno))
    end
  else
    match Py.split_once colon line with
    | Some (k, v) =>
        let key := Py.strip k in
        let value := Py.strip v in
        let st := commit st in
        match fields st !! key with
        | Some old =>
            inl (mkSyntaxError src lineno (DuplicateKey key old value))
        | None =>
            inr (mkState (produced st) (fields st)
                   (Some (key, if Py.eqb value [] then [] else [value]))
                   (match first_line st with
                    | Some n => Some n
                    | None => Some lineno
                    end)
                   (Some lineno))
        end
    | None => inl (mkSyntaxError src lineno UnexpectedNonEmptyLine)
    end.

(** Modelled from the spec: the absent parser processes the lines top
    to bottom, numbered from [lineno]; the first error stops it. *)
Fixpoint run (src : TextSource) (st : state) (lineno : nat)
    (input : list str) : RFC822SyntaxError + state :=
  match input with
  | [] => inr st
  | line :: rest =>
      match step src st lineno line with
      | inl e => inl e
      | inr st' => run src st' (S lineno) rest
      end
  end.

(** Modelled from the spec: [load_rfc822_records(stream, source=None)]
    of the absent rfc822 module, section 4.1: an ordered sequence of
    records, else a syntax error.
    Without an explicit source the name of the stream is used, and the
    unknown placeholder when the stream has no name. *)
Definition load_rfc822_records (text : str) (src : option TextSource)
    (stream_name : option str) : RFC822SyntaxError + list RFC822Record :=
  let src :=
    match src, stream_name with
    | Some s, _ => s
    | None, Some name => FileTextSource name
    | None, None => UnknownTextSource
    end in
  match run src initial 1 (Py.lines text) with
  | inl e => inl e
  | inr st => inr (produced (flush src st))
  end.

(** Modelled from the spec: one field as the writer of the absent
    rfc822 module emits it.  A value with a newline is a [key:] line followed by its lines, each
    escaped and prefixed with a space; any other value stays on the
    key line (RFC822WriterTests.test_single_record). *)
Definition dump_field (kv : str * str) : str :=
  let '(k, v) := kv in
  if Py.contains Py.newline v
  then k ++ [colon; Py.newline] ++
       concat (map (λ l, space :: escape l ++ [Py.newline])
                   (Py.split Py.newline v))
  else k ++ [colon; space] ++ v ++ [Py.newline].

Definition dump_items (items : list (str * str)) : str :=
  concat (map dump_field items) ++ [Py.newline].

(** Modelled from the spec: [RFC822Record.dump(stream)] of the absent
    rfc822 module: the fields in the order the mapping enumerates
    them, then a blank line. *)
Definition dump (r : gmap str str) : str := dump_items (map_to_list r).

(** The records a round trip is stated for. *)
Definition line_ok (l : str) : bool :=
  all_periods l || negb (all_periods (Py.strip l)).

Definition key_ok (k : str) : bool :=
  Py.eqb (Py.strip k) k && negb (Py.contains colon k)
  && negb (Py.contains Py.newline k).

Definition value_ok (v : str) : bool :=
  if Py.contains Py.newline v
  then forallb line_ok (Py.split Py.newline v)
  else Py.eqb (Py.strip v) v.

Definition field_ok (kv : str * str) : bool :=
  key_ok kv.1 && value_ok kv.2.

End rfc822.

(** ** Units, exceptions and outcomes *)

Module FileRole.
(** The role symbols of [plainbox.impl.unit.file.FileRole] that the
    classifier and the plug-ins use. *)
Inductive t : Type :=
  | unit_source | legacy_whitelist | data | script | binary | i18n
  | build | legal | docs | manage_py | src | vcs | unknown.
End FileRole.

(** The directories and the name of a provider, as the classifier and
    the plug-ins read them.  [build_mo_dir], [build_dir] and [po_dir]
    are read by the classifier; [Provider1] stores the others. *)
Record Provider1 : Type := mkProvider1 {
  name : str;
  units_dir : option str;
  jobs_dir : option str;
  whitelists_dir : option str;
  data_dir : option str;
  bin_dir : option str;
  locale_dir : option str;
  base_dir : option str;
  build_mo_dir : option str;
  build_dir : option str;
  po_dir : option str }.

(** [Provider1.build_bin_dir] *)
Definition build_bin_dir (p : Provider1) : option str :=
  match base_dir p with
  | Some b => Some (Py.path_join b [$"build"; $"bin"])
  | None => None
  end.

(** [Provider1.src_dir] *)
Definition src_dir (p : Provider1) : option str :=
  match base_dir p with
  | Some b => Some (Py.path_join b [$"src"])
  | None => None
  end.

(** [Provider1.namespace]: [self._name.split(':', 1)[0]] *)
Definition namespace (p : Provider1) : str :=
  match Py.split_once rfc822.colon (name p) with
  | Some (ns, _) => ns
  | None => name p
  end.

(** Truth value of a directory attribute: [None] and [''] are false. *)
Definition truthy (d : option str) : bool :=
  match d with
  | Some (_ :: _) => true
  | _ => false
  end.

Inductive UnitCls : Type :=
  | FileUnit
  | TestPlanUnit
  | RegisteredUnit (meta_name : str).

Inductive FieldValue : Type :=
  | VStr (s : str)
  | VDir (d : option str)
  | VRole (r : FileRole.t)
  | VMetaName (cls : UnitCls).

Record Unit : Type := mkUnit {
  unit_cls : UnitCls;
  unit_data : gmap str FieldValue;
  unit_origin : Origin;
  unit_provider : option Provider1;
  unit_field_offset_map : option (gmap str nat);
  unit_virtual : bool }.

(** Modelled from the spec: the constructor shared by the unit classes
    (plainbox.impl.unit is not among the sources at hand), called as
    [Cls(data, origin=..., provider=..., field_offset_map=...,
    virtual=...)].  Section 3: a unit is virtual when it is marked so;
    a call that does not pass [virtual] leaves the unit unmarked. *)
Definition new_unit (cls : UnitCls) (data : gmap str FieldValue)
    (origin : Origin) (provider : option Provider1)
    (field_offset_map : option (gmap str nat))
    (virtual : option bool) : Unit :=
  mkUnit cls data origin provider field_offset_map (default false virtual).

Inductive Severity : Type := error | warning | advice.

(** [severity is Severity.error] *)
Definition is_error (s : Severity) : bool :=
  match s with
  | error => true
  | _ => false
  end.

Record Issue : Type := mkIssue {
  severity : Severity;
  issue_message : str }.

Record ValidationError : Type := mkValidationError {
  field : str;
  problem : str }.

Inductive exn : Type :=
  | TypeError
  | AssertionError
  | AttributeError (attr : str)
  | ValueError (msg : str)
  | KeyError (key : str)
  | NameError (name : str)
  | IOError (msg : str)
  | OtherError (msg : str)
  | PlugInError (msg : PlugInMsg)
with PlugInMsg : Type :=
  (** ["Cannot load job definitions from {!r}: {}"] *)
  | CannotLoadJobDefinitions (filename : str) (exc : rfc822.RFC822SyntaxError)
  (** ["Unknown unit type: {!r}"] *)
  | UnknownUnitType (unit_name : str)
  (** ["Cannot define unit from record {!r}: {}"] *)
  | CannotDefineUnit (record : rfc822.RFC822Record) (exc : str)
  (** ["Problem in unit definition, {}"] *)
  | ProblemInUnitDefinition (issue : Issue)
  (** ["Problem in unit definition, field {}: {}"] *)
  | ProblemInField (field problem : str)
  (** ["Cannot load {!r}: {}"] *)
  | CannotLoad (filename : str) (exc : exn)
  (** ["Cannot load whitelist {!r}: {}"] *)
  | CannotLoadWhitelist (filename : str) (exc : exn).

(** Outcome of running a piece of Python code: a value, an exception,
    or no outcome at all (a loop that never exits). *)
Inductive outcome (A : Type) : Type :=
  | Returns (a : A)
  | Raises (e : exn)
  | Diverges.
Arguments Returns {A} a.
Arguments Raises {A} e.
Arguments Diverges {A}.

Definition obind {A B} (k : A → outcome B) (m : outcome A) : outcome B :=
  match m with
  | Returns a => k a
  | Raises e => Raises e
  | Diverges => Diverges
  end.

#[global] Instance outcome_bind : MBind outcome := @obind.
#[global] Instance outcome_ret : MRet outcome := @Returns.

(** ** The file system, as far as the classifier looks at it *)

Record FileSystem : Type := mkFileSystem {
  (** [os.access(filename, os.F_OK | os.X_OK)] *)
  access_x : str → bool;
  (** [open(filename, 'rb').read(2)] *)
  read2 : str → str;
  (** [os.path.isfile(filename)] *)
  isfile : str → bool;
  (** the lines of [open(filename, "rt", encoding='UTF-8')] *)
  read_lines : str → list str }.

(** ** ProviderContentClassifier *)

Inductive PlugInCls : Type :=
  | UnitPlugIn2
  | WhiteListPlugIn2
  | ProviderContentPlugIn.

(** [(file_role, base_dir, plugin_cls)] *)
Definition classification : Type :=
  FileRole.t * option str * option PlugInCls.

Module ProviderContentClassifier.

Definition LEGAL_SET : list str :=
  [$"COPYING"; $"COPYING.LESSER"; $"LICENSE"].
Definition DOC_SET : list str :=
  [$"README"; $"README.md"; $"README.rst"; $"README.txt"].

(** [filename.startswith(d)] for a directory attribute [d]; a [None]
    argument is a [TypeError]. *)
Definition startswith_dir (filename : str) (d : option str)
    : outcome bool :=
  match d with
  | Some d => Returns (Py.startswith filename d)
  | None => Raises TypeError
  end.

Section rules.
Context (provider : Provider1) (fs : FileSystem).

Definition _get_EXECUTABLES : outcome (list str) :=
  match src_dir provider with
  | None => Raises AssertionError
  | Some d =>
      let hint_file := Py.path_join d [$"EXECUTABLES"] in
      if isfile fs hint_file
      then Returns (map Py.strip (read_lines fs hint_file))
      else Returns []
  end.

Definition EXECUTABLES : outcome (list str) := _get_EXECUTABLES.

Definition _classify_pxu_jobs (filename : str)
    : outcome (option classification) :=
  inside ← startswith_dir filename (jobs_dir provider);
  if inside : bool then
    let ext := (Py.splitext filename).2 in
    if Py.in_tuple ext [$".txt"; $".in"; $".pxu"]
    then Returns (Some (FileRole.unit_source, jobs_dir provider,
                        Some UnitPlugIn2))
    else Returns None
  else Returns None.

Definition _classify_pxu_units (filename : str)
    : outcome (option classification) :=
  inside ← startswith_dir filename (units_dir provider);
  if inside : bool then
    let ext := (Py.splitext filename).2 in
    if Py.in_tuple ext [$".txt"; $".txt.in"; $".pxu"]
    then Returns (Some (FileRole.unit_source, units_dir provider,
                        Some UnitPlugIn2))
    else Returns None
  else Returns None.

Definition _classify_whitelist (filename : str)
    : outcome (option classification) :=
  inside ← startswith_dir filename (whitelists_dir provider);
  if (inside : bool) && Py.endswith filename $".whitelist"
  then Returns (Some (FileRole.legacy_whitelist,
                      whitelists_dir provider, Some WhiteListPlugIn2))
  else Returns None.

Definition _classify_data (filename : str)
    : outcome (option classification) :=
  inside ← startswith_dir filename (data_dir provider);
  if inside : bool
  then Returns (Some (FileRole.data, data_dir provider,
                      Some ProviderContentPlugIn))
  else Returns None.

(** [FileRole.script if chunk == b'#!' else FileRole.binary] *)
Definition exec_role (filename : str) : FileRole.t :=
  if Py.eqb (read2 fs filename) $"#!"
  then FileRole.script else FileRole.binary.

Definition _classify_exec (filename : str)
    : outcome (option classification) :=
  inside ← startswith_dir filename (bin_dir provider);
  if (inside : bool) && access_x fs filename
  then Returns (Some (exec_role filename, bin_dir provider,
                      Some ProviderContentPlugIn))
  else Returns None.

Definition _classify_built_exec (filename : str)
    : outcome (option classification) :=
  inside ← startswith_dir filename (build_bin_dir provider);
  if (inside : bool) && access_x fs filename then
    executables ← EXECUTABLES;
    if Py.in_tuple (Py.basename filename) executables
    then Returns (Some (exec_role filename, build_bin_dir provider,
                        Some ProviderContentPlugIn))
    else Returns None
  else Returns None.

Definition _classify_built_i18n (filename : str)
    : outcome (option classification) :=
  inside ← startswith_dir filename (build_mo_dir provider);
  if (inside : bool) && Py.eqb (Py.splitext filename).2 $".mo"
  then Returns (Some (FileRole.i18n, build_bin_dir provider,
                      Some ProviderContentPlugIn))
  else Returns None.

Definition _classify_build (filename : str)
    : outcome (option classification) :=
  inside ← startswith_dir filename (build_dir provider);
  if inside : bool
  then Returns (Some (FileRole.build, build_dir provider, None))
  else Returns None.

Definition _classify_legal (filename : str)
    : outcome (option classification) :=
  if Py.in_tuple (Py.basename filename) LEGAL_SET
  then Returns (Some (FileRole.legal, base_dir provider,
                      Some ProviderContentPlugIn))
  else Returns None.

Definition _classify_docs (filename : str)
    : outcome (option classification) :=
  if Py.in_tuple (Py.basename filename) DOC_SET
  then Returns (Some (FileRole.docs, base_dir provider,
                      Some ProviderContentPlugIn))
  else Returns None.

Definition _classify_manage_py (filename : str)
    : outcome (option classification) :=
  match base_dir provider with
  | None => Raises TypeError
  | Some b =>
      if Py.eqb (Py.path_join b [$"manage.py"]) filename
      then Returns (Some (FileRole.manage_py, base_dir provider, None))
      else Returns None
  end.

Definition _classify_po (filename : str)
    : outcome (option classification) :=
  if bool_decide (Some (Py.dirname filename) = po_dir provider)
     && (Py.in_tuple (Py.splitext filename).2 [$".po"; $".pot"]
         || Py.eqb (Py.basename filename) $"POTFILES.in")
  then Returns (Some (FileRole.src, base_dir provider, None))
  else Returns None.

Definition _classify_src (filename : str)
    : outcome (option classification) :=
  inside ← startswith_dir filename (src_dir provider);
  if inside : bool
  then Returns (Some (FileRole.src, base_dir provider, None))
  else Returns None.

(** The [while] loop of [_classify_vcs], started at [head].  An
    iteration that leaves [head] as it found it repeats for ever;
    any other iteration shortens [head], so [fuel] at least the
    length of [head] is never used up. *)
Fixpoint vcs_walk (fuel : nat) (head : str)
    : outcome (option classification) :=
  if negb (bool_decide (Some head = base_dir provider))
     && negb (Py.eqb head []) && negb (Py.eqb head [Py.sep])
  then
    match fuel with
    | 0 => Diverges
    | S fuel' =>
        let '(head', tail) := Py.path_split head in
        if Py.in_tuple tail [$".git"; $".bzr"]
        then Returns (Some (FileRole.vcs, base_dir provider, None))
        else if Py.eqb head' head then Diverges
        else vcs_walk fuel' head'
    end
  else Returns None.

Definition _classify_vcs (filename : str)
    : outcome (option classification) :=
  if Py.in_tuple (Py.basename filename) [$".gitignore"; $".bzrignore"]
  then Returns (Some (FileRole.vcs, base_dir provider, None))
  else vcs_walk (length filename) filename.

Definition _classify_unknown (filename : str)
    : outcome (option classification) :=
  Returns (Some (FileRole.unknown, base_dir provider, None)).

(** The bound methods that [_get_classify_fn_list] collects. *)
Inductive classify_fn : Type :=
  | pxu_jobs | pxu_units | whitelist | data | exec | built_exec
  | built_i18n | build | po | src | legal | docs | manage_py | vcs
  | unknown.

Definition call (fn : classify_fn) (filename : str)
    : outcome (option classification) :=
  match fn with
  | pxu_jobs => _classify_pxu_jobs filename
  | pxu_units => _classify_pxu_units filename
  | whitelist => _classify_whitelist filename
  | data => _classify_data filename
  | exec => _classify_exec filename
  | built_exec => _classify_built_exec filename
  | built_i18n => _classify_built_i18n filename
  | build => _classify_build filename
  | po => _classify_po filename
  | src => _classify_src filename
  | legal => _classify_legal filename
  | docs => _classify_docs filename
  | manage_py => _classify_manage_py filename
  | vcs => _classify_vcs filename
  | unknown => _classify_unknown filename
  end.

(** [classify_fn_list.append(fn)] under [if d:] *)
Definition when (d : option str) (fns : list classify_fn)
    : list classify_fn :=
  if truthy d then fns else [].

Definition _get_classify_fn_list : list classify_fn :=
  when (jobs_dir provider) [pxu_jobs]
  ++ when (units_dir provider) [pxu_units]
  ++ when (whitelists_dir provider) [whitelist]
  ++ when (data_dir provider) [data]
  ++ when (bin_dir provider) [exec]
  ++ when (build_bin_dir provider) [built_exec]
  ++ when (build_mo_dir provider) [built_i18n]
  ++ when (build_dir provider) [build]
  ++ when (po_dir provider) [po]
  ++ when (src_dir provider) [src]
  ++ when (base_dir provider) [legal; docs; manage_py; vcs]
  ++ [unknown].

Definition classify_fn_list : list classify_fn := _get_classify_fn_list.

(** The fixed order in which [_get_classify_fn_list] considers the
    methods, and the condition under which each is appended. *)
Definition precedence : list classify_fn :=
  [pxu_jobs; pxu_units; whitelist; data; exec; built_exec; built_i18n;
   build; po; src; legal; docs; manage_py; vcs; unknown].

Definition declared (fn : classify_fn) : bool :=
  match fn with
  | pxu_jobs => truthy (jobs_dir provider)
  | pxu_units => truthy (units_dir provider)
  | whitelist => truthy (whitelists_dir provider)
  | data => truthy (data_dir provider)
  | exec => truthy (bin_dir provider)
  | built_exec => truthy (build_bin_dir provider)
  | built_i18n => truthy (build_mo_dir provider)
  | build => truthy (build_dir provider)
  | po => truthy (po_dir provider)
  | src => truthy (src_dir provider)
  | legal | docs | manage_py | vcs => truthy (base_dir provider)
  | unknown => true
  end.

(** The [for ... else] loop of [classify]. *)
Fixpoint classify_loop (fns : list classify_fn) (filename : str)
    : outcome classification :=
  match fns with
  | [] => Raises (ValueError ($"Unable to classify: " ++ filename))
  | fn :: rest =>
      result ← call fn filename;
      match result with
      | Some c => Returns c
      | None => classify_loop rest filename
      end
  end.

Definition classify (filename : str) : outcome classification :=
  classify_loop classify_fn_list filename.

End rules.

End ProviderContentClassifier.

(** ** Collaborators that the plug-ins call but this module does not
    define: white lists, the registry of unit classes and the
    attributes of loaded units. *)

(** The keyword arguments handed on to [unit.validate] with [**kwargs], such
    as [strict] and [deprecated] of [CategoryUnitValidator.validate]. *)
Abbreviation kwargs := (gmap str bool).

Record Env : Type := mkEnv {
  WhiteList : Type;
  (** the checking context of [unit.check(context=..., live=True)] *)
  CheckContext : Type;
  (** [WhiteList.from_string(text, filename=..., origin=...,
      implicit_namespace=...)] *)
  from_string : str → str → option Origin → option str → exn + WhiteList;
  (** [WhiteList(unit.include, name=unit.partial_id, origin=unit.origin,
      implicit_namespace=unit.provider.namespace)] *)
  whitelist_of_test_plan : Unit → WhiteList;
  (** [unit_cls.from_rfc822_record(record, provider)] per registered
      kind: [all_units.get_by_name(kind).plugin_object] *)
  all_units :
    gmap str (rfc822.RFC822Record → option Provider1 → exn + Unit);
  (** [unit.check(context=context, live=True)] *)
  unit_check : Unit → option CheckContext → list Issue;
  (** [unit.validate] with [**validation_kwargs] *)
  unit_validate : Unit → kwargs → option ValidationError;
  (** [hasattr(unit.Meta.fields, name)] *)
  has_field : Unit → str → bool;
  (** [unit.id] and [unit.path] *)
  unit_id : Unit → option str;
  unit_path : Unit → option str }.

(** [validate=True, validation_kwargs=None, check=False, context=None] *)
Record PlugInKwargs (env : Env) : Type := mkKwargs {
  validate : bool;
  validation_kwargs : option kwargs;
  check : bool;
  context : option (CheckContext env) }.
Arguments mkKwargs {env}.
Arguments validate {env}.
Arguments validation_kwargs {env}.
Arguments check {env}.
Arguments context {env}.

Definition default_kwargs {env : Env} : PlugInKwargs env :=
  mkKwargs true None false None.

(** The text of an enumerated file is read on demand; reading may fail. *)
Definition LazyText : Type := exn + str.

(** [unit.Meta.name == 'test plan'] *)
Definition is_test_plan (u : Unit) : bool :=
  match unit_cls u with
  | TestPlanUnit => true
  | RegisteredUnit n => Py.eqb n $"test plan"
  | FileUnit => false
  end.

(** ** Defining units from records (the loop shared, line for line, by
    [UnitPlugIn.__init__] and [UnitPlugIn2.inspect]) *)

Section units.
Context (env : Env).

(** [_get_unit_cls(unit_name)] *)
Definition _get_unit_cls (unit_name : str) :=
  match all_units env !! unit_name with
  | Some unit_cls => Returns unit_cls
  | None => Raises (KeyError unit_name)
  end.

(** One iteration of [for record in records:] *)
Definition define_unit (provider : option Provider1)
    (validate : bool) (validation_kwargs : kwargs) (check : bool)
    (context : option (CheckContext env))
    (record : rfc822.RFC822Record) : outcome Unit :=
  let unit_name := default $"job" (rfc822.data record !! $"unit") in
  match _get_unit_cls unit_name with
  | Raises (KeyError _) => Raises (PlugInError (UnknownUnitType unit_name))
  | Raises e => Raises e
  | Diverges => Diverges
  | Returns from_rfc822_record =>
      match from_rfc822_record record provider with
      | inl (ValueError exc) =>
          Raises (PlugInError (CannotDefineUnit record exc))
      | inl e => Raises e
      | inr unit =>
          match
            (if check
             then find (λ issue, is_error (severity issue))
                       (unit_check env unit context)
             else None)
          with
          | Some issue => Raises (PlugInError (ProblemInUnitDefinition issue))
          | None =>
              match
                (if validate
                 then unit_validate env unit validation_kwargs
                 else None)
              with
              | Some exc =>
                  Raises (PlugInError
                            (ProblemInField (field exc) (problem exc)))
              | None => Returns unit
              end
          end
      end
  end.

Fixpoint define_units (provider : option Provider1)
    (validate : bool) (validation_kwargs : kwargs) (check : bool)
    (context : option (CheckContext env))
    (records : list rfc822.RFC822Record) : outcome (list Unit) :=
  match records with
  | [] => Returns []
  | record :: rest =>
      unit ← define_unit provider validate validation_kwargs check
               context record;
      units ← define_units provider validate validation_kwargs check
                context rest;
      Returns (unit :: units)
  end.

(** [load_rfc822_records(text, source=FileTextSource(filename))]
    under [except RFC822SyntaxError] *)
Definition load_records (filename text : str)
    : outcome (list rfc822.RFC822Record) :=
  match rfc822.load_rfc822_records text
          (Some (FileTextSource filename)) None with
  | inl exc => Raises (PlugInError (CannotLoadJobDefinitions filename exc))
  | inr records => Returns records
  end.

End units.

(** ** The legacy plug-ins [WhiteListPlugIn] and [UnitPlugIn] *)

(** The test plan that stands for a legacy whitelist file
    ([_make_test_plan_unit] and [make_test_plan_unit] are the same). *)
Definition make_test_plan_unit (filename text : str)
    (provider : option Provider1) : Unit :=
  let name := Py.basename (Py.splitext filename).1 in
  let origin :=
    mkOrigin (FileTextSource filename) (Some 1)
             (Some (Py.count Py.newline text)) in
  let field_offset_map : gmap str nat := {[ $"include" := 0 ]} in
  new_unit TestPlanUnit
    (<[ $"unit" := VMetaName TestPlanUnit ]>
       (<[ $"id" := VStr name ]>
          (<[ $"name" := VStr name ]>
             {[ $"include" := VStr text ]})))
    origin provider (Some field_offset_map) (Some true).

Module WhiteListPlugIn.

Record t (env : Env) : Type := mk {
  _whitelist : WhiteList env;
  _unit_list : list Unit }.
Arguments mk {env}.
Arguments _whitelist {env}.
Arguments _unit_list {env}.

Definition _make_file_unit (filename : str)
    (provider : option Provider1) : Unit :=
  new_unit FileUnit
    (<[ $"unit" := VMetaName FileUnit ]>
       (<[ $"path" := VStr filename ]>
          {[ $"role" := VRole FileRole.legacy_whitelist ]}))
    (mkOrigin (FileTextSource filename) None None) provider None
    (Some true).

Definition _make_test_plan_unit := make_test_plan_unit.

(** The units appended by [synthetize_virtual_units], in order. *)
Definition synthetize_virtual_units (filename text : str)
    (provider : option Provider1) : list Unit :=
  [_make_file_unit filename provider;
   _make_test_plan_unit filename text provider].

(** [WhiteListPlugIn(filename, text, load_time, provider=None)] *)
Definition init (env : Env) (filename text : str)
    (provider : option Provider1) : outcome (t env) :=
  match from_string env text filename None (namespace <$> provider) with
  | inl exc => Raises (PlugInError (CannotLoadWhitelist filename exc))
  | inr whitelist =>
      Returns (mk whitelist
                  (synthetize_virtual_units filename text provider))
  end.

End WhiteListPlugIn.

Module UnitPlugIn.

Record t : Type := mk {
  _filename : str;
  _unit_list : list Unit }.

Definition _make_file_unit (filename : str)
    (provider : option Provider1) : Unit :=
  new_unit FileUnit
    (<[ $"unit" := VMetaName FileUnit ]>
       (<[ $"path" := VStr filename ]>
          {[ $"role" := VRole FileRole.unit_source ]}))
    (mkOrigin (FileTextSource filename) None None) provider None None.

(** The units appended by [synthetize_virtual_units]. *)
Definition synthetize_virtual_units (filename text : str)
    (provider : option Provider1) : list Unit :=
  [_make_file_unit filename provider].

(** [UnitPlugIn(filename, text, load_time, provider, *, validate=True,
    validation_kwargs=None, check=False, context=None)] *)
Definition init (env : Env) (filename text : str)
    (provider : option Provider1) (kw : PlugInKwargs env)
    : outcome t :=
  records ← load_records filename text;
  units ← define_units env provider (validate kw)
            (default ∅ (validation_kwargs kw)) (check kw) (context kw)
            records;
  Returns (mk filename
              (units ++ synthetize_virtual_units filename text provider)).

End UnitPlugIn.

(** ** ProviderContentPlugIn and its subclasses *)

(** What [inspect] returns, per class: nothing, a white list, or the
    list of units. *)
Definition inspect_result (env : Env) (cls : PlugInCls) : Type :=
  match cls with
  | UnitPlugIn2 => list Unit
  | WhiteListPlugIn2 => WhiteList env
  | ProviderContentPlugIn => ()
  end.

Module ContentPlugIn.

Record t (env : Env) : Type := mk {
  cls : PlugInCls;
  plugin_name : str;
  plugin_object : inspect_result env cls;
  unit_list : list Unit;
  whitelist_list : list (WhiteList env) }.
Arguments mk {env}.
Arguments cls {env}.
Arguments plugin_name {env}.
Arguments plugin_object {env}.
Arguments unit_list {env}.
Arguments whitelist_list {env}.

Section methods.
Context (env : Env) (fs : FileSystem).

(** [provider.classify(filename)]: the classifier of the provider *)
Definition provider_classify (provider : option Provider1)
    (filename : str) : outcome classification :=
  match provider with
  | None => Raises (AttributeError $"classify")
  | Some p => ProviderContentClassifier.classify p fs filename
  end.

(** [make_file_unit(filename, provider, role=None, base=None)] *)
Definition make_file_unit (filename : str)
    (provider : option Provider1) (role : option FileRole.t)
    (base : option str) : outcome Unit :=
  role_base ←
    match role, base with
    | Some r, Some b => Returns (r, Some b)
    | _, _ =>
        c ← provider_classify provider filename;
        Returns (c.1.1, c.1.2)
    end;
  Returns
    (new_unit FileUnit
       (<[ $"unit" := VMetaName FileUnit ]>
          (<[ $"path" := VStr filename ]>
             (<[ $"base" := VDir role_base.2 ]>
                {[ $"role" := VRole role_base.1 ]})))
       (mkOrigin (FileTextSource filename) None None) provider None
       (Some true)).

(** [inspect] of the three classes *)
Definition inspect (cls : PlugInCls) (filename : str)
    (text : LazyText) (provider : option Provider1)
    (kw : PlugInKwargs env) : outcome (inspect_result env cls) :=
  match cls with
  | ProviderContentPlugIn => Returns ()
  | WhiteListPlugIn2 =>
      let implicit_namespace := namespace <$> provider in
      match text with
      | inl e => Raises e
      | inr text =>
          let origin :=
            mkOrigin (FileTextSource filename) (Some 1)
                     (Some (Py.count Py.newline text)) in
          match from_string env text filename (Some origin)
                  implicit_namespace with
          | inl e => Raises e
          | inr whitelist => Returns whitelist
          end
      end
  | UnitPlugIn2 =>
      match text with
      | inl e => Raises e
      | inr text =>
          records ← load_records filename text;
          define_units env provider (validate kw)
            (default ∅ (validation_kwargs kw)) (check kw) (context kw)
            records
      end
  end.

(** [discover_units] of the three classes *)
Definition discover_units (cls : PlugInCls)
    : inspect_result env cls → str → LazyText → option Provider1 →
      outcome (list Unit) :=
  match cls with
  | ProviderContentPlugIn => λ _ filename text provider,
      file_unit ← make_file_unit filename provider None None;
      Returns [file_unit]
  | WhiteListPlugIn2 => λ _ filename text provider,
      match provider with
      | Some p =>
          file_unit ← make_file_unit filename provider
                        (Some FileRole.legacy_whitelist)
                        (whitelists_dir p);
          match text with
          | inl e => Raises e
          | inr text =>
              Returns [file_unit;
                       make_test_plan_unit filename text provider]
          end
      | None => Returns []
      end
  | UnitPlugIn2 => λ units filename text provider,
      file_unit ← make_file_unit filename provider None None;
      Returns (units ++ [file_unit])
  end.

(** [discover_whitelists] of the three classes *)
Definition discover_whitelists (cls : PlugInCls)
    : inspect_result env cls → list (WhiteList env) :=
  match cls with
  | ProviderContentPlugIn => λ _, []
  | WhiteListPlugIn2 => λ whitelist, [whitelist]
  | UnitPlugIn2 => λ units,
      map (whitelist_of_test_plan env) (filter is_test_plan units)
  end.

(** [ProviderContentPlugIn.__init__], inherited by the subclasses:
    a [PlugInError] of [inspect] is raised again, any other
    exception is wrapped into one. *)
Definition init (cls : PlugInCls) (filename : str) (text : LazyText)
    (provider : option Provider1) (kw : PlugInKwargs env)
    : outcome (t env) :=
  match inspect cls filename text provider kw with
  | Raises (PlugInError msg) => Raises (PlugInError msg)
  | Raises exc => Raises (PlugInError (CannotLoad filename exc))
  | Diverges => Diverges
  | Returns inspect_result =>
      units ← discover_units cls inspect_result filename text provider;
      Returns (mk cls filename inspect_result units
                  (discover_whitelists cls inspect_result))
  end.

End methods.

End ContentPlugIn.

(** ** ProviderContentLoader *)

(** The names bound at the top level of the module, by its [import]
    statements (lines 24 to 53), its assignments and its [class] and
    [def] statements. *)
Definition module_globals : list str :=
    [$"abc"; $"errno"; $"gettext"; $"logging"; $"os"; $"IProvider1";
     $"_"; $"Config"; $"Variable"; $"IValidator"; $"NotEmptyValidator";
     $"NotUnsetValidator"; $"PatternValidator"; $"Unset"; $"Origin";
     $"FsPlugInCollection"; $"IPlugIn"; $"PlugIn"; $"PlugInError";
     $"now"; $"WhiteList"; $"FileTextSource"; $"load_rfc822_records";
     $"RFC822SyntaxError"; $"all_units"; $"FileRole"; $"FileUnit";
     $"TestPlanUnit"; $"Severity"; $"ValidationError"; $"logger";
     $"IVirtualUnitSynthethizer"; $"WhiteListPlugIn"; $"UnitPlugIn";
     $"ProviderContentPlugIn"; $"WhiteListPlugIn2"; $"UnitPlugIn2";
     $"ProviderContentEnumerator"; $"ProviderContentClassifier";
     $"ProviderContentLoader"; $"Provider1"; $"IQNValidator";
     $"VersionValidator"; $"ExistingDirectoryValidator";
     $"AbsolutePathValidator"; $"Provider1Definition";
     $"Provider1PlugIn"; $"get_secure_PROVIDERPATH_list";
     $"SecureProvider1PlugInCollection"; $"all_providers"].

Definition builtins : list str :=
    [$"ArithmeticError"; $"AssertionError"; $"AttributeError";
     $"BaseException"; $"BaseExceptionGroup"; $"BlockingIOError";
     $"BrokenPipeError"; $"BufferError"; $"BytesWarning";
     $"ChildProcessError"; $"ConnectionAbortedError";
     $"ConnectionError"; $"ConnectionRefusedError";
     $"ConnectionResetError"; $"DeprecationWarning"; $"EOFError";
     $"Ellipsis"; $"EncodingWarning"; $"EnvironmentError"; $"Exception";
     $"ExceptionGroup"; $"False"; $"FileExistsError";
     $"FileNotFoundError"; $"FloatingPointError"; $"FutureWarning";
     $"GeneratorExit"; $"IOError"; $"ImportError"; $"ImportWarning";
     $"IndentationError"; $"IndexError"; $"InterruptedError";
     $"IsADirectoryError"; $"KeyError"; $"KeyboardInterrupt";
     $"LookupError"; $"MemoryError"; $"ModuleNotFoundError";
     $"NameError"; $"None"; $"NotADirectoryError"; $"NotImplemented";
     $"NotImplementedError"; $"OSError"; $"OverflowError";
     $"PendingDeprecationWarning"; $"PermissionError";
     $"ProcessLookupError"; $"RecursionError"; $"ReferenceError";
     $"ResourceWarning"; $"RuntimeError"; $"RuntimeWarning";
     $"StopAsyncIteration"; $"StopIteration"; $"SyntaxError";
     $"SyntaxWarning"; $"SystemError"; $"SystemExit"; $"TabError";
     $"TimeoutError"; $"True"; $"TypeError"; $"UnboundLocalError";
     $"UnicodeDecodeError"; $"UnicodeEncodeError"; $"UnicodeError";
     $"UnicodeTranslateError"; $"UnicodeWarning"; $"UserWarning";
     $"ValueError"; $"Warning"; $"ZeroDivisionError";
     $"__build_class__"; $"__debug__"; $"__doc__"; $"__import__";
     $"__loader__"; $"__name__"; $"__package__"; $"__spec__"; $"abs";
     $"aiter"; $"all"; $"anext"; $"any"; $"ascii"; $"bin"; $"bool";
     $"breakpoint"; $"bytearray"; $"bytes"; $"callable"; $"chr";
     $"classmethod"; $"compile"; $"complex"; $"copyright"; $"credits";
     $"delattr"; $"dict"; $"dir"; $"divmod"; $"enumerate"; $"eval";
     $"exec"; $"exit"; $"filter"; $"float"; $"format"; $"frozenset";
     $"getattr"; $"globals"; $"hasattr"; $"hash"; $"help"; $"hex";
     $"id"; $"input"; $"int"; $"isinstance"; $"issubclass"; $"iter";
     $"len"; $"license"; $"list"; $"locals"; $"map"; $"max";
     $"memoryview"; $"min"; $"next"; $"object"; $"oct"; $"open"; $"ord";
     $"pow"; $"print"; $"property"; $"quit"; $"range"; $"repr";
     $"reversed"; $"round"; $"set"; $"setattr"; $"slice"; $"sorted";
     $"staticmethod"; $"str"; $"sum"; $"super"; $"tuple"; $"type";
     $"vars"; $"zip"].

(** Evaluating a global name: the module, then the builtins. *)
Definition load_global (name : str) : outcome () :=
  if bool_decide (name ∈ module_globals) || bool_decide (name ∈ builtins)
  then Returns ()
  else Raises (NameError name).

Module ProviderContentLoader.

Record t (env : Env) : Type := mk {
  provider : Provider1;
  is_loaded : bool;
  unit_list : list Unit;
  whitelist_list : list (WhiteList env);
  problem_list : list exn;
  path_map : gmap (option str) (list Unit);
  id_map : gmap (option str) (list Unit) }.
Arguments mk {env}.
Arguments provider {env}.
Arguments is_loaded {env}.
Arguments unit_list {env}.
Arguments whitelist_list {env}.
Arguments problem_list {env}.
Arguments path_map {env}.
Arguments id_map {env}.

(** [ProviderContentLoader(provider)]: the attributes are assigned in
    order; [collections.defaultdict(list)] evaluates the global name
    [collections] first. *)
Definition init (env : Env) (provider : Provider1) : outcome (t env) :=
  let unit_list := [] in
  let whitelist_list := [] in
  let problem_list := [] in
  _ ← load_global $"collections";
  _ ← load_global $"list";
  let path_map := ∅ in
  _ ← load_global $"collections";
  _ ← load_global $"list";
  let id_map := ∅ in
  Returns (mk provider false unit_list whitelist_list problem_list
              path_map id_map).

(** [d[key].append(unit)] on a [defaultdict(list)] *)
Definition dd_append (key : option str) (unit : Unit)
    (d : gmap (option str) (list Unit)) : gmap (option str) (list Unit) :=
  <[ key := default [] (d !! key) ++ [unit] ]> d.

Section methods.
Context (env : Env) (fs : FileSystem).

(** The body of [for unit in plugin.unit_list:] *)
Definition index_unit (maps : gmap (option str) (list Unit) *
                              gmap (option str) (list Unit))
    (unit : Unit) :=
  let '(id_map, path_map) := maps in
  let id_map :=
    if has_field env unit $"id"
    then dd_append (unit_id env unit) unit id_map else id_map in
  let path_map :=
    if has_field env unit $"path"
    then dd_append (unit_path env unit) unit path_map else path_map in
  (id_map, path_map).

Definition _load_file (self : t env) (filename : str)
    (text : LazyText) (plugin_kwargs : PlugInKwargs env)
    : outcome (t env) :=
  classification ←
    ProviderContentClassifier.classify (provider self) fs filename;
  let '(role, base_dir, plugin_cls) := classification in
  match plugin_cls with
  | None => Returns self
  | Some plugin_cls =>
      match ContentPlugIn.init env fs plugin_cls filename text
              (Some (provider self)) plugin_kwargs with
      | Raises (PlugInError msg) =>
          Returns (mk (provider self) (is_loaded self)
                      (unit_list self) (whitelist_list self)
                      (problem_list self ++ [PlugInError msg])
                      (path_map self) (id_map self))
      | Raises exc => Raises exc
      | Diverges => Diverges
      | Returns plugin =>
          let maps :=
            foldl index_unit (id_map self, path_map self)
                  (ContentPlugIn.unit_list plugin) in
          Returns (mk (provider self) (is_loaded self)
                      (unit_list self ++ ContentPlugIn.unit_list plugin)
                      (whitelist_list self ++
                         ContentPlugIn.whitelist_list plugin)
                      (problem_list self) maps.2 maps.1)
      end
  end.

(** The [for file_plugin in ...get_all_plugins():] loop of [load] *)
Fixpoint load_files (self : t env) (content : list (str * LazyText))
    (plugin_kwargs : PlugInKwargs env) : outcome (t env) :=
  match content with
  | [] => Returns self
  | (filename, text) :: rest =>
      self ← _load_file self filename text plugin_kwargs;
      load_files self rest plugin_kwargs
  end.

(** [load(plugin_kwargs)].  [content] and [content_problems] are
    what the provider's content collection holds once loaded: the
    enumerated files and the problems of the enumeration. *)
Definition load (self : t env) (content : list (str * LazyText))
    (content_problems : list exn) (plugin_kwargs : PlugInKwargs env)
    : outcome (t env) :=
  self ← load_files self content plugin_kwargs;
  Returns (mk (provider self) true (unit_list self)
              (whitelist_list self)
              (problem_list self ++ content_problems)
              (path_map self) (id_map self)).

(** What one enumerated file contributes to a load: the problem
    its plug-in raises, if any, and the units and white lists of a
    plug-in that loads. *)
Definition plugin_of (p : Provider1) (plugin_kwargs : PlugInKwargs env)
    (file : str * LazyText) : option (outcome (ContentPlugIn.t env)) :=
  match ProviderContentClassifier.classify p fs file.1 with
  | Returns (_, _, Some plugin_cls) =>
      Some (ContentPlugIn.init env fs plugin_cls file.1 file.2 (Some p)
              plugin_kwargs)
  | _ => None
  end.

Definition problem_of (p : Provider1) (plugin_kwargs : PlugInKwargs env)
    (file : str * LazyText) : option exn :=
  match plugin_of p plugin_kwargs file with
  | Some (Raises exc) => Some exc
  | _ => None
  end.

Definition units_of (p : Provider1) (plugin_kwargs : PlugInKwargs env)
    (file : str * LazyText) : list Unit :=
  match plugin_of p plugin_kwargs file with
  | Some (Returns plugin) => ContentPlugIn.unit_list plugin
  | _ => []
  end.

Definition whitelists_of (p : Provider1)
    (plugin_kwargs : PlugInKwargs env) (file : str * LazyText)
    : list (WhiteList env) :=
  match plugin_of p plugin_kwargs file with
  | Some (Returns plugin) => ContentPlugIn.whitelist_list plugin
  | _ => []
  end.

End methods.

End ProviderContentLoader.

(** ** Values used in examples *)

(** A text given by its lines, each ended by a newline. *)
Definition text_of_lines (ls : list str) : str :=
  concat (map (λ l, l ++ [Py.newline]) ls).

(** An environment for examples: a white list is the list of its
    lines; the registry knows the kinds [job] and [category]; a
    category without a name does not validate
    ([CategoryUnitValidator.validate]); a record with a [broken] field
    cannot be turned into a unit. *)
Definition example_from_record (kind : str)
    (record : rfc822.RFC822Record) (provider : option Provider1)
    : exn + Unit :=
  match rfc822.data record !! $"broken" with
  | Some why => inl (ValueError why)
  | None =>
      inr (new_unit (RegisteredUnit kind) (VStr <$> rfc822.data record)
             (rfc822.origin record) provider None None)
  end.

Definition example_field (name : str) (u : Unit) : option str :=
  match unit_data u !! name with
  | Some (VStr s) => Some s
  | _ => None
  end.

Definition example_env : Env := {|
  WhiteList := list str;
  CheckContext := ();
  from_string := λ text _ _ _, inr (Py.lines text);
  whitelist_of_test_plan := λ u,
    Py.lines (default [] (example_field $"include" u));
  all_units :=
    <[ $"job" := example_from_record $"job" ]>
      {[ $"category" := example_from_record $"category" ]};
  unit_check := λ _ _, [];
  unit_validate := λ u _,
    match unit_cls u, unit_data u !! $"name" with
    | RegisteredUnit kind, None =>
        if Py.eqb kind $"category"
        then Some (mkValidationError $"name" $"missing") else None
    | _, _ => None
    end;
  has_field := λ u name, bool_decide (is_Some (unit_data u !! name));
  unit_id := example_field $"id";
  unit_path := example_field $"path" |}.

Definition example_fs : FileSystem :=
  mkFileSystem (λ _, true) (λ _, $"#!") (λ _, false) (λ _, []).

(** A provider in the flat source layout under [/p]. *)
Definition example_provider : Provider1 := {|
  name := $"2013.com.canonical:example";
  units_dir := Some $"/p/units";
  jobs_dir := Some $"/p/jobs";
  whitelists_dir := Some $"/p/whitelists";
  data_dir := Some $"/p/data";
  bin_dir := Some $"/p/bin";
  locale_dir := None;
  base_dir := Some $"/p";
  build_mo_dir := Some $"/p/build/mo";
  build_dir := Some $"/p/build";
  po_dir := Some $"/p/po" |}.

(** A provider that only declares a units directory. *)
Definition units_only_provider : Provider1 := {|
  name := $"2013.com.canonical:units";
  units_dir := Some $"/p/units";
  jobs_dir := None;
  whitelists_dir := None;
  data_dir := None;
  bin_dir := None;
  locale_dir := None;
  base_dir := None;
  build_mo_dir := None;
  build_dir := None;
  po_dir := None |}.

(** ** Statements about the record grammar *)

(** The lines the writer emits for one field. *)
Definition field_lines (kv : str * str) : list str :=
  if Py.contains Py.newline kv.2
  then (kv.1 ++ [rfc822.colon]) ::
       map (λ l, rfc822.space :: rfc822.escape l) (Py.split Py.newline kv.2)
  else [kv.1 ++ [rfc822.colon; rfc822.space] ++ kv.2].

(** The field mappings of parsed records, origins left out. *)
Definition records_data
    (res : rfc822.RFC822SyntaxError + list rfc822.RFC822Record)
    : rfc822.RFC822SyntaxError + list (gmap str str) :=
  match res with
  | inl e => inl e
  | inr records => inr (rfc822.data <$> records)
  end.

(** The field mappings of the records of a text. *)
Definition parsed (text : str)
    : rfc822.RFC822SyntaxError + list (gmap str str) :=
  records_data (rfc822.load_rfc822_records text None None).

(** A value with an empty line in it: two newlines in a row. *)
Fixpoint has_blank_line (v : str) : bool :=
  match v with
  | c :: (d :: _) as v' =>
      (Ascii.eqb c Py.newline && Ascii.eqb d Py.newline) || has_blank_line v'
  | _ => false
  end.

(** The records that are read back as they were written: at least one
    field; keys without colon, newline or surrounding whitespace;
    one-line values without surrounding whitespace; the lines of a
    longer value either periods only (possibly none) or with content
    that is neither blank nor periods only. *)
Definition roundtrippable (r : gmap str str) : bool :=
  bool_decide (r ≠ ∅) && forallb rfc822.field_ok (map_to_list r).

(** A provider whose base directory is written [//p/]. *)
Definition double_slash_provider : Provider1 := {|
  name := $"2013.com.canonical:slashes";
  units_dir := None;
  jobs_dir := None;
  whitelists_dir := None;
  data_dir := None;
  bin_dir := None;
  locale_dir := None;
  base_dir := Some $"//p/";
  build_mo_dir := None;
  build_dir := None;
  po_dir := None |}.

(** A loader as its constructor would leave it, and three enumerated
    files: a unit source with one job, a unit source with a syntax
    error, and a data file whose text cannot be read. *)
Definition example_loader : ProviderContentLoader.t example_env :=
  ProviderContentLoader.mk example_provider false [] [] [] ∅ ∅.

Definition good_file : str * LazyText :=
  ($"/p/jobs/a.txt", inr (text_of_lines [$"id: a"])).
Definition bad_file : str * LazyText :=
  ($"/p/jobs/b.txt", inr (text_of_lines [$"garbage"])).
Definition data_file : str * LazyText :=
  ($"/p/data/blob", inl (IOError $"cannot decode")).

Definition bad_file_problem : exn :=
  PlugInError
    (CannotLoadJobDefinitions $"/p/jobs/b.txt"
       (rfc822.mkSyntaxError (FileTextSource $"/p/jobs/b.txt") 1
          rfc822.UnexpectedNonEmptyLine)).

(** ** Roles, plug-in classes and file units *)

(** The plug-in class that [classify] names for each role. *)
Definition plugin_cls_of_role (role : FileRole.t) : option PlugInCls :=
  match role with
  | FileRole.unit_source => Some UnitPlugIn2
  | FileRole.legacy_whitelist => Some WhiteListPlugIn2
  | FileRole.data | FileRole.script | FileRole.binary | FileRole.i18n
  | FileRole.legal | FileRole.docs => Some ProviderContentPlugIn
  | FileRole.build | FileRole.manage_py | FileRole.src | FileRole.vcs
  | FileRole.unknown => None
  end.

(** The directory attributes that [classify] returns as the base of a
    file of each role. *)
Definition base_dirs_of_role (p : Provider1) (role : FileRole.t)
    : list (option str) :=
  match role with
  | FileRole.unit_source => [jobs_dir p; units_dir p]
  | FileRole.legacy_whitelist => [whitelists_dir p]
  | FileRole.data => [data_dir p]
  | FileRole.script | FileRole.binary => [bin_dir p; build_bin_dir p]
  | FileRole.i18n => [build_bin_dir p]
  | FileRole.build => [build_dir p]
  | FileRole.legal | FileRole.docs | FileRole.manage_py | FileRole.src
  | FileRole.vcs | FileRole.unknown => [base_dir p]
  end.

(** The file unit that [ProviderContentPlugIn.make_file_unit] builds
    for a file of the given role and base. *)
Definition file_unit_of (filename : str) (provider : option Provider1)
    (role : FileRole.t) (base : option str) : Unit :=
  new_unit FileUnit
    (<[ $"unit" := VMetaName FileUnit ]>
       (<[ $"path" := VStr filename ]>
          (<[ $"base" := VDir base ]>
             {[ $"role" := VRole role ]})))
    (mkOrigin (FileTextSource filename) None None) provider None
    (Some true).

(** A directory prefix of a path: empty, or ending in a slash. *)
Definition dir_prefix (pre : str) : Prop :=
  pre = [] ∨ ∃ d, pre = d ++ [Py.sep].

(** ** Provider1PlugIn and the secure part of PROVIDERPATH *)

(** [get_secure_PROVIDERPATH_list()] *)
Definition get_secure_PROVIDERPATH_list : list str :=
  [$"/usr/local/share/plainbox-providers-1";
   $"/usr/share/plainbox-providers-1"].

Module Provider1PlugIn.

(** The secure flag that [Provider1PlugIn.__init__] computes for a
    definition file:
    [os.path.dirname(filename) in get_secure_PROVIDERPATH_list()] *)
Definition secure (filename : str) : bool :=
  Py.in_tuple (Py.dirname filename) get_secure_PROVIDERPATH_list.

End Provider1PlugIn.

(** ** ProviderContentEnumerator *)

Module ProviderContentEnumerator.

(** [if d: dir_list.append(d)] *)
Definition append_if (d : option str) : list str :=
  match d with
  | Some (c :: s) => [c :: s]
  | _ => []
  end.

(** The [dir_list] that [__init__] hands to the collection of the
    files of the provider: the base directory and what lies below it
    in the source layout, the separate directories otherwise. *)
Definition dir_list (provider : Provider1) : list str :=
  match base_dir provider with
  | Some (c :: s) =>
      [c :: s]
      ++ append_if (src_dir provider)
      ++ append_if (build_bin_dir provider)
      ++ append_if (build_mo_dir provider)
  | _ =>
      append_if (units_dir provider)
      ++ append_if (jobs_dir provider)
      ++ append_if (data_dir provider)
      ++ append_if (bin_dir provider)
      ++ append_if (locale_dir provider)
      ++ append_if (whitelists_dir provider)
  end.

End ProviderContentEnumerator.

(** ** Provider1Definition *)

Module Provider1Definition.

(** The value of a [Variable] of the definition: [Unset], or the
    string read from the definition file. *)
Inductive value : Type :=
  | Unset
  | Value (v : str).

Record t : Type := mk {
  location : value;
  name : value;
  version : value;
  description : value;
  gettext_domain : value;
  units_dir : value;
  jobs_dir : value;
  whitelists_dir : value;
  data_dir : value;
  bin_dir : value;
  locale_dir : value }.

Section properties.
(** [os.path.isdir] *)
Context (isdir : str → bool) (self : t).

Definition effective_gettext_domain : option str :=
  match gettext_domain self with
  | Value v => Some v
  | Unset => None
  end.

(** [if self.location is not Unset:
       return os.path.join(self.location, ...)], the body shared by
    the [implicit_..._dir] properties. *)
Definition implicit (sub : list str) : option str :=
  match location self with
  | Value l => Some (Py.path_join l sub)
  | Unset => None
  end.

(** [if implicit is not None and os.path.isdir(implicit):
       return implicit], the test shared by the [effective_..._dir]
    properties. *)
Definition if_isdir (implicit : option str) : option str :=
  match implicit with
  | Some d => if isdir d then Some d else None
  | None => None
  end.

Definition implicit_units_dir : option str := implicit [$"units"].

Definition effective_units_dir : option str :=
  match units_dir self with
  | Value v => Some v
  | Unset => if_isdir implicit_units_dir
  end.

Definition implicit_jobs_dir : option str := implicit [$"jobs"].

Definition effective_jobs_dir : option str :=
  match jobs_dir self with
  | Value v => Some v
  | Unset => if_isdir implicit_jobs_dir
  end.

Definition implicit_whitelists_dir : option str := implicit [$"whitelists"].

Definition effective_whitelists_dir : option str :=
  match whitelists_dir self with
  | Value v => Some v
  | Unset => if_isdir implicit_whitelists_dir
  end.

Definition implicit_data_dir : option str := implicit [$"data"].

Definition effective_data_dir : option str :=
  match data_dir self with
  | Value v => Some v
  | Unset => if_isdir implicit_data_dir
  end.

Definition implicit_bin_dir : option str := implicit [$"bin"].

Definition effective_bin_dir : option str :=
  match bin_dir self with
  | Value v => Some v
  | Unset => if_isdir implicit_bin_dir
  end.

Definition implicit_locale_dir : option str := implicit [$"locale"].

Definition implicit_build_locale_dir : option str :=
  implicit [$"build"; $"mo"].

Definition effective_locale_dir : option str :=
  match locale_dir self with
  | Value v => Some v
  | Unset =>
      match if_isdir implicit_locale_dir with
      | Some implicit1 => Some implicit1
      | None => if_isdir implicit_build_locale_dir
      end
  end.

(** The directory variables, each with its effective value. *)
Definition effective_dirs : list (value * option str) :=
  [(units_dir self, effective_units_dir);
   (jobs_dir self, effective_jobs_dir);
   (whitelists_dir self, effective_whitelists_dir);
   (data_dir self, effective_data_dir);
   (bin_dir self, effective_bin_dir);
   (locale_dir self, effective_locale_dir)].

End properties.

End Provider1Definition.

(** ** The executables of a provider *)

(** [errno.ENOENT] *)
Definition ENOENT : nat := 2.

Section executables.
(** [os.listdir(dirname)]: the names in the directory, or the [errno]
    and the message of the [OSError] it raises. *)
Context (fs : FileSystem) (listdir : str → (nat * str) + list str).

(** [Provider1._get_executables(dirname)] *)
Definition _get_executables (dirname : option str) : outcome (list str) :=
  match dirname with
  | None => Returns []
  | Some dirname =>
      items ←
        match listdir dirname with
        | inr items => Returns items
        | inl (errno, msg) =>
            if errno =? ENOENT then Returns [] else Raises (IOError msg)
        end;
      Returns (filter (λ filename, access_x fs filename = true)
                 (map (λ name, Py.path_join dirname [name]) items))
  end.

(** [Provider1._get_build_bin_executable_list()]; joining a name to a
    [build_bin_dir] that is [None] would be a [TypeError]. *)
Definition _get_build_bin_executable_list (provider : Provider1)
    : outcome (list str) :=
  let otherwise := _get_executables (build_bin_dir provider) in
  match src_dir provider with
  | Some src_dir =>
      let hint_file := Py.path_join src_dir [$"EXECUTABLES"] in
      if isfile fs hint_file then
        let names :=
          filter (λ name, name ≠ [])
            (map Py.strip (read_lines fs hint_file)) in
        match names, build_bin_dir provider with
        | [], _ => Returns []
        | _, Some build_bin_dir =>
            Returns (map (λ name, Py.path_join build_bin_dir [name]) names)
        | _, None => Raises TypeError
        end
      else otherwise
  | None => otherwise
  end.

End executables.

(** ** Further values used in examples *)

(** A file system in which [/p/src/EXECUTABLES] exists and names one
    executable, followed by an empty line. *)
Definition hint_fs : FileSystem :=
  mkFileSystem (λ _, true) (λ _, $"#!")
    (λ filename, Py.eqb filename $"/p/src/EXECUTABLES")
    (λ _, [$"tool" ++ [Py.newline]; [Py.newline]]).

(** A directory listing in which no directory exists. *)
Definition example_listdir (dirname : str) : (nat * str) + list str :=
  inl (ENOENT, $"No such file or directory").

(** The example environment with a check that reports a warning and
    then two errors. *)
Definition checking_env : Env := {|
  WhiteList := WhiteList example_env;
  CheckContext := CheckContext example_env;
  from_string := from_string example_env;
  whitelist_of_test_plan := whitelist_of_test_plan example_env;
  all_units := all_units example_env;
  unit_check := λ _ _,
    [mkIssue warning $"no summary"; mkIssue error $"no plugin";
     mkIssue error $"no command"];
  unit_validate := unit_validate example_env;
  has_field := has_field example_env;
  unit_id := unit_id example_env;
  unit_path := unit_path example_env |}.

(** A loader for the provider that only declares a units directory. *)
Definition units_only_loader : ProviderContentLoader.t example_env :=
  ProviderContentLoader.mk units_only_provider false [] [] [] ∅ ∅.

(** The example loader after one load and after two loads of the three
    example files. *)
Definition loaded_once : ProviderContentLoader.t example_env :=
  match ProviderContentLoader.load example_env example_fs example_loader
          [good_file; bad_file; data_file] [] default_kwargs with
  | Returns self => self
  | _ => example_loader
  end.

Definition loaded_twice : ProviderContentLoader.t example_env :=
  match ProviderContentLoader.load example_env example_fs loaded_once
          [good_file; bad_file; data_file] [] default_kwargs with
  | Returns self => self
  | _ => loaded_once
  end.

(** A definition that sets a location and a jobs directory, and a file
    system in which [/p/units] and [/p/build/mo] are directories. *)
Definition example_definition : Provider1Definition.t := {|
  Provider1Definition.location := Provider1Definition.Value $"/p";
  Provider1Definition.name :=
    Provider1Definition.Value $"2013.com.canonical:example";
  Provider1Definition.version := Provider1Definition.Value $"1.0";
  Provider1Definition.description := Provider1Definition.Unset;
  Provider1Definition.gettext_domain := Provider1Definition.Unset;
  Provider1Definition.units_dir := Provider1Definition.Unset;
  Provider1Definition.jobs_dir := Provider1Definition.Value $"/srv/jobs";
  Provider1Definition.whitelists_dir := Provider1Definition.Unset;
  Provider1Definition.data_dir := Provider1Definition.Unset;
  Provider1Definition.bin_dir := Provider1Definition.Unset;
  Provider1Definition.locale_dir := Provider1Definition.Unset |}.

Definition example_isdir (dirname : str) : bool :=
  Py.in_tuple dirname [$"/p/units"; $"/p/build/mo"].

(** * Facts *)

(** Equations between closed terms are settled by evaluation. *)
Ltac by_vm :=
  lazymatch goal with
  | |- ?a = ?b => vm_cast_no_check (@eq_refl _ b)
  end.

(** ** The test cases of secure/test_rfc822.py on the record grammar *)

Section rfc822_tests.
Import rfc822.

Example test_empty : parsed [] = inr [].
Proof. by_vm. Qed.

Example test_single_record :
  parsed $"key:value" = inr [{[ $"key" := $"value" ]}].
Proof. by_vm. Qed.

Example test_many_newlines :
  parsed (text_of_lines
            [[]; []; $"key1:value1"; []; []; []; $"key2:value2"; []; [];
             $"key3:value3"; []; []])
  = inr [{[ $"key1" := $"value1" ]}; {[ $"key2" := $"value2" ]};
         {[ $"key3" := $"value3" ]}].
Proof. by_vm. Qed.

Example test_many_multiline_values :
  parsed (text_of_lines
            [$"key1:initial"; $" longer"; $" value 1"; [];
             $"key2:"; $" longer"; $" value 2"])
  = inr [{[ $"key1" :=
              Py.join Py.newline [$"initial"; $"longer"; $"value 1"] ]};
         {[ $"key2" := Py.join Py.newline [$"longer"; $"value 2"] ]}].
Proof. by_vm. Qed.

Example test_irrelevant_whitespace :
  parsed $"key :  value  " = inr [{[ $"key" := $"value" ]}].
Proof. by_vm. Qed.

Example test_bad_multiline :
  parsed $" extra value"
  = inl (mkSyntaxError UnknownTextSource 1 UnexpectedMultiLineValue).
Proof. by_vm. Qed.

Example test_garbage :
  parsed $"garbage"
  = inl (mkSyntaxError UnknownTextSource 1 UnexpectedNonEmptyLine).
Proof. by_vm. Qed.

Example test_syntax_error :
  parsed $"key1 = value1"
  = inl (mkSyntaxError UnknownTextSource 1 UnexpectedNonEmptyLine).
Proof. by_vm. Qed.

Example test_origin_from_stream_is_Unknown :
  load_rfc822_records $"key:value" None None
  = inr [mkRecord {[ $"key" := $"value" ]}
                  (mkOrigin UnknownTextSource (Some 1) (Some 1))].
Proof. by_vm. Qed.

Example test_origin_from_filename_is_filename :
  load_rfc822_records $"key:value" None (Some $"file.txt")
  = inr [mkRecord {[ $"key" := $"value" ]}
                  (mkOrigin (FileTextSource $"file.txt") (Some 1) (Some 1))].
Proof. by_vm. Qed.

Example test_writer_single_record :
  dump {[ $"key" := $"value" ]} = text_of_lines [$"key: value"; []].
Proof. by_vm. Qed.

Example test_writer_multiline_value_with_space :
  dump {[ $"key" := Py.join Py.newline [$"longer"; []; $"value"] ]}
  = text_of_lines [$"key:"; $" longer"; $" ."; $" value"; []].
Proof. by_vm. Qed.

Example test_writer_multiline_value_with_period :
  dump {[ $"key" := Py.join Py.newline [$"longer"; $"."; $"value"] ]}
  = text_of_lines [$"key:"; $" longer"; $" .."; $" value"; []].
Proof. by_vm. Qed.

End rfc822_tests.

(** ** Python strings: comparison, stripping, splitting *)

Section strings.
Implicit Types (s t : str) (c d : ascii).

Lemma ascii_eqb_true c d : Ascii.eqb c d = true ↔ c = d.
Proof. apply Ascii.eqb_eq. Qed.

Lemma ascii_eqb_false c d : Ascii.eqb c d = false ↔ c ≠ d.
Proof. apply Ascii.eqb_neq. Qed.

Lemma eqb_true s t : Py.eqb s t = true ↔ s = t.
Proof. unfold Py.eqb. apply bool_decide_eq_true. Qed.

Lemma eqb_false s t : Py.eqb s t = false ↔ s ≠ t.
Proof. unfold Py.eqb. apply bool_decide_eq_false. Qed.

Lemma eqb_refl s : Py.eqb s s = true.
Proof. by apply eqb_true. Qed.

Lemma contains_false c s : Py.contains c s = false ↔ c ∉ s.
Proof.
  unfold Py.contains. induction s as [|d s IH]; simpl.
  - split; [intros _; apply not_elem_of_nil | done].
  - rewrite not_elem_of_cons, orb_false_iff, IH, ascii_eqb_false. tauto.
Qed.

Lemma contains_true c s : Py.contains c s = true ↔ c ∈ s.
Proof.
  destruct (Py.contains c s) eqn:E.
  - split; [intros _ | done].
    destruct (decide (c ∈ s)) as [|Hn]; [done|].
    apply contains_false in Hn. congruence.
  - apply contains_false in E. split; [done | tauto].
Qed.

Lemma startswith_prefix s t : Py.startswith s t = true ↔ t `prefix_of` s.
Proof.
  revert s. induction t as [|c t IH]; intros s; simpl.
  - split; [intros _; apply prefix_nil | done].
  - destruct s as [|d s].
    + split; [done | intros H; by destruct (prefix_nil_not _ _ H)].
    + rewrite andb_true_iff, IH, ascii_eqb_true. split.
      * intros [-> H]. by apply prefix_cons.
      * intros H. split; [by apply prefix_cons_inv_1 in H
                         | by apply prefix_cons_inv_2 in H].
Qed.

Lemma startswith_app s t : Py.startswith (s ++ t) s = true.
Proof. apply startswith_prefix. by apply prefix_app_r. Qed.

(** *** stripping *)

Lemma lstrip_nil_iff s : Py.lstrip s = [] ↔ forallb Py.isspace s = true.
Proof.
  induction s as [|c s IH]; simpl; [done|].
  destruct (Py.isspace c); simpl; [done|]. split; done.
Qed.

Lemma rstrip_nil_iff s : Py.rstrip s = [] ↔ forallb Py.isspace s = true.
Proof.
  induction s as [|c s IH]; simpl; [done|].
  destruct (Py.rstrip s) eqn:E.
  - destruct (Py.isspace c); simpl; [tauto|]. split; done.
  - split; [done|]. rewrite andb_true_iff. intros [_ H].
    apply IH in H. done.
Qed.

Lemma lstrip_suffix s : Py.lstrip s `suffix_of` s.
Proof.
  induction s as [|c s IH]; simpl; [done|].
  destruct (Py.isspace c); [by apply suffix_cons_r | done].
Qed.

Lemma forallb_suffix (f : ascii → bool) s t :
  s `suffix_of` t → forallb f t = true → forallb f s = true.
Proof.
  intros [k ->]. rewrite forallb_app, andb_true_iff. tauto.
Qed.

Lemma strip_nil_iff s : Py.strip s = [] ↔ forallb Py.isspace s = true.
Proof.
  unfold Py.strip. rewrite rstrip_nil_iff. split.
  - induction s as [|c s IH]; simpl; [done|].
    destruct (Py.isspace c) eqn:E; simpl; [done|].
    rewrite E. done.
  - apply forallb_suffix, lstrip_suffix.
Qed.

(** A string with a character that is no space is not blank. *)
Lemma strip_not_nil s c :
  c ∈ s → Py.isspace c = false → Py.strip s ≠ [].
Proof.
  intros Hin Hc Hs. apply strip_nil_iff in Hs.
  rewrite forallb_forall in Hs. apply list_elem_of_In, Hs in Hin.
  congruence.
Qed.

Lemma strip_cons_space c s :
  Py.isspace c = true → Py.strip (c :: s) = Py.strip s.
Proof. intros H. unfold Py.strip. simpl. by rewrite H. Qed.

Lemma rstrip_length s : length (Py.rstrip s) ≤ length s.
Proof.
  induction s as [|c s IH]; simpl; [done|].
  destruct (Py.rstrip s); [destruct (Py.isspace c)|]; simpl in *; lia.
Qed.

(** A string that [strip] leaves alone does not start with a space. *)
Lemma strip_fixed_head c s :
  Py.strip (c :: s) = c :: s → Py.isspace c = false.
Proof.
  unfold Py.strip. simpl. destruct (Py.isspace c) eqn:E; [|done].
  intros H. pose proof (rstrip_length (Py.lstrip s)) as H1.
  pose proof (suffix_length _ _ (lstrip_suffix s)) as H2.
  rewrite H in H1. simpl in H1. lia.
Qed.

Lemma strip_fixed_startswith s :
  Py.strip s = s → Py.startswith s [rfc822.space] = false.
Proof.
  destruct s as [|c s]; [done|]. intros H%strip_fixed_head. simpl.
  destruct (Ascii.eqb c rfc822.space) eqn:E; [|done].
  apply ascii_eqb_true in E. subst c. done.
Qed.

(** *** splitting and joining *)

Lemma split_once_app c s t :
  c ∉ s → Py.split_once c (s ++ c :: t) = Some (s, t).
Proof.
  induction s as [|d s IH]; simpl; intros H.
  - by rewrite Ascii.eqb_refl.
  - apply not_elem_of_cons in H as [Hd Hs].
    replace (Ascii.eqb d c) with false
      by (symmetry; apply ascii_eqb_false; congruence).
    by rewrite IH.
Qed.

Lemma split_not_nil c s : Py.split c s ≠ [].
Proof.
  destruct s as [|d s]; simpl; [done|].
  destruct (Ascii.eqb d c); [done|]. by destruct (Py.split c s).
Qed.

Lemma split_app c s t :
  c ∉ s → Py.split c (s ++ c :: t) = s :: Py.split c t.
Proof.
  induction s as [|d s IH]; simpl; intros H.
  - by rewrite Ascii.eqb_refl.
  - apply not_elem_of_cons in H as [Hd Hs].
    replace (Ascii.eqb d c) with false
      by (symmetry; apply ascii_eqb_false; congruence).
    by rewrite IH.
Qed.

Lemma split_no_sep c s : c ∉ s → Py.split c s = [s].
Proof.
  induction s as [|d s IH]; simpl; intros H; [done|].
  apply not_elem_of_cons in H as [Hd Hs].
  replace (Ascii.eqb d c) with false
    by (symmetry; apply ascii_eqb_false; congruence).
  by rewrite IH.
Qed.

Lemma join_split c s : Py.join c (Py.split c s) = s.
Proof.
  induction s as [|d s IH]; simpl; [done|].
  destruct (Ascii.eqb d c) eqn:E.
  - apply ascii_eqb_true in E. subst d.
    pose proof (split_not_nil c s) as Hne.
    simpl. destruct (Py.split c s) eqn:Es; [done|]. by rewrite IH.
  - pose proof (split_not_nil c s) as Hne.
    destruct (Py.split c s) as [|piece rest] eqn:Es; [done|].
    simpl in *. destruct rest; simpl in *; by rewrite <- IH.
Qed.

Lemma split_pieces c s : Forall (λ piece, c ∉ piece) (Py.split c s).
Proof.
  induction s as [|d s IH]; simpl.
  - constructor; [apply not_elem_of_nil | constructor].
  - destruct (Ascii.eqb d c) eqn:E.
    + constructor; [apply not_elem_of_nil | done].
    + apply ascii_eqb_false in E.
      destruct (Py.split c s) as [|piece rest].
      * constructor; [|done]. rewrite not_elem_of_cons.
        split; [congruence | apply not_elem_of_nil].
      * inversion IH; subst. constructor; [|done].
        rewrite not_elem_of_cons. split; [congruence | done].
Qed.

(** The lines of a text written line by line are those lines. *)
Lemma split_text_of_lines (ls : list str) :
  Forall (λ l, Py.newline ∉ l) ls →
  Py.split Py.newline (text_of_lines ls) = ls ++ [[]].
Proof.
  induction 1 as [|l ls Hl _ IH]; [done|].
  unfold text_of_lines in *. simpl. rewrite <- app_assoc. simpl.
  rewrite split_app by done. by rewrite IH.
Qed.

Lemma lines_text_of_lines (ls : list str) :
  Forall (λ l, Py.newline ∉ l) ls → Py.lines (text_of_lines ls) = ls.
Proof.
  intros H. unfold Py.lines.
  rewrite (split_text_of_lines ls H).
  destruct (text_of_lines ls) eqn:E.
  - destruct ls as [|l ls]; [done|].
    unfold text_of_lines in E. simpl in E. by destruct l.
  - rewrite reverse_app. simpl. by rewrite reverse_involutive.
Qed.

End strings.

(** ** The writer and the parser, line by line *)

Section roundtrip.
Import rfc822.
Context (src : TextSource).
Implicit Types (st : state) (k v l : str) (items : list (str * str)).

Lemma text_of_lines_app (a b : list str) :
  text_of_lines (a ++ b) = text_of_lines a ++ text_of_lines b.
Proof. unfold text_of_lines. by rewrite map_app, concat_app. Qed.

Lemma dump_field_lines kv : dump_field kv = text_of_lines (field_lines kv).
Proof.
  destruct kv as [k v]. unfold dump_field, field_lines. simpl.
  destruct (Py.contains Py.newline v).
  - unfold text_of_lines. simpl. rewrite <- !app_assoc. simpl.
    do 3 f_equal.
    induction (Py.split Py.newline v) as [|l ls IH]; [done|].
    simpl. by rewrite <- IH.
  - unfold text_of_lines. simpl. rewrite app_nil_r.
    by rewrite <- !app_assoc.
Qed.

Lemma dump_items_lines items :
  dump_items items = text_of_lines (flat_map field_lines items ++ [[]]).
Proof.
  unfold dump_items. rewrite text_of_lines_app. f_equal.
  induction items as [|kv items IH]; [done|].
  simpl. by rewrite text_of_lines_app, IH, dump_field_lines.
Qed.

Lemma all_periods_no_newline l : all_periods l = true → Py.newline ∉ l.
Proof.
  unfold all_periods. rewrite forallb_forall. intros H Hin.
  apply list_elem_of_In, H in Hin. done.
Qed.

Lemma key_ok_inv k :
  key_ok k = true → Py.strip k = k ∧ (colon ∉ k) ∧ (Py.newline ∉ k).
Proof.
  unfold key_ok. rewrite !andb_true_iff, !negb_true_iff.
  rewrite eqb_true, !contains_false. tauto.
Qed.

Lemma field_lines_no_newline kv :
  field_ok kv = true → Forall (λ l, Py.newline ∉ l) (field_lines kv).
Proof.
  destruct kv as [k v]. unfold field_ok, field_lines. simpl.
  rewrite andb_true_iff. intros [Hk Hv].
  apply key_ok_inv in Hk as (_ & _ & Hk).
  destruct (Py.contains Py.newline v) eqn:E.
  - constructor.
    + rewrite elem_of_app, list_elem_of_singleton. intros [?|?]; done.
    + apply Forall_map. eapply Forall_impl; [apply split_pieces|].
      intros l Hl. simpl. unfold escape.
      destruct (all_periods l); rewrite !not_elem_of_cons; done.
  - apply contains_false in E. constructor; [|constructor].
    rewrite elem_of_app, !elem_of_cons. intros [?|[?|[?|?]]]; done.
Qed.

Lemma lines_dump_items items :
  forallb field_ok items = true →
  Py.lines (dump_items items) = flat_map field_lines items ++ [[]].
Proof.
  intros H. rewrite dump_items_lines. apply lines_text_of_lines.
  apply Forall_app. split;
    [|constructor; [apply not_elem_of_nil | constructor]].
  rewrite forallb_forall in H.
  induction items as [|kv items IH]; simpl; [constructor|].
  apply Forall_app. split.
  - apply field_lines_no_newline, H. by left.
  - apply IH. intros x Hx. apply H. by right.
Qed.


(** *** the parser on the lines of a written field *)

Lemma produced_commit st : produced (commit st) = produced st.
Proof. unfold commit. by destruct (opened st) as [[??]|]. Qed.

Lemma first_line_commit st : first_line (commit st) = first_line st.
Proof. unfold commit. by destruct (opened st) as [[??]|]. Qed.

Lemma all_periods_strip l : all_periods l = true → Py.strip l = l.
Proof.
  intros H. assert (Hns : forallb (λ c, negb (Py.isspace c)) l = true).
  { unfold all_periods in H. rewrite forallb_forall in *.
    intros c Hc. apply H, ascii_eqb_true in Hc. by subst c. }
  clear H. unfold Py.strip.
  assert (Py.lstrip l = l) as ->.
  { destruct l as [|c l]; [done|]. simpl in *.
    by destruct (Py.isspace c). }
  induction l as [|c l IH]; [done|]. simpl in *.
  apply andb_true_iff in Hns as [Hc Hl]. rewrite (IH Hl).
  destruct l; [|done]. by destruct (Py.isspace c).
Qed.

Lemma escape_not_blank l : line_ok l = true → Py.strip (escape l) ≠ [].
Proof.
  unfold line_ok, escape. destruct (all_periods l) eqn:E; simpl.
  - intros _. rewrite all_periods_strip; [done|]. simpl. by rewrite E.
  - intros H Hs. by rewrite Hs in H.
Qed.

Lemma unescape_escape l : line_ok l = true → unescape (escape l) = l.
Proof.
  unfold line_ok, escape, unescape.
  destruct (all_periods l) eqn:E.
  - intros _. rewrite all_periods_strip by (simpl; by rewrite E).
    simpl. by rewrite E.
  - rewrite orb_false_l, negb_true_iff.
    destruct (Py.strip l) as [|c rest]; [done|]. by intros ->.
Qed.

Lemma step_blank st n : step src st n [] = inr (flush src st).
Proof. done. Qed.

Lemma step_key st n k rest :
  key_ok k = true → fields (commit st) !! k = None →
  step src st n (k ++ colon :: rest)
  = inr (mkState (produced st) (fields (commit st))
           (Some (k, if Py.eqb (Py.strip rest) [] then []
                     else [Py.strip rest]))
           (match first_line st with
            | Some m => Some m
            | None => Some n
            end)
           (Some n)).
Proof.
  intros (Hstrip & Hcolon & _)%key_ok_inv Hnew. unfold step.
  assert (Py.eqb (Py.strip (k ++ colon :: rest)) [] = false) as ->.
  { apply eqb_false, (strip_not_nil _ colon); [|done].
    rewrite elem_of_app, elem_of_cons. tauto. }
  assert (Py.startswith (k ++ colon :: rest) [space] = false) as ->.
  { destruct k as [|c k]; [done|].
    apply strip_fixed_head in Hstrip. simpl.
    destruct (Ascii.eqb c space) eqn:E; [|done].
    apply ascii_eqb_true in E. by subst c. }
  rewrite split_once_app by done. simpl. rewrite Hstrip, Hnew.
  by rewrite produced_commit, first_line_commit.
Qed.

Lemma step_continuation st n k ls l :
  opened st = Some (k, ls) → line_ok l = true →
  step src st n (space :: escape l)
  = inr (mkState (produced st) (fields st) (Some (k, ls ++ [l]))
           (first_line st) (Some n)).
Proof.
  intros Hopen Hl. unfold step.
  rewrite strip_cons_space by done.
  assert (Py.eqb (Py.strip (escape l)) [] = false) as ->
    by by apply eqb_false, escape_not_blank.
  change (Py.startswith (space :: escape l) [space]) with true.
  cbv iota. rewrite Hopen. simpl. by rewrite unescape_escape.
Qed.

Lemma run_app st n (a b : list str) :
  run src st n (a ++ b)
  = match run src st n a with
    | inl e => inl e
    | inr st' => run src st' (n + length a) b
    end.
Proof.
  revert st n. induction a as [|l a IH]; intros st n; simpl.
  - by rewrite Nat.add_0_r.
  - destruct (step src st n l); [done|].
    rewrite IH. by rewrite Nat.add_succ_comm.
Qed.

Lemma run_continuations st n k ls0 ls :
  opened st = Some (k, ls0) → forallb line_ok ls = true →
  ∃ ll, run src st n (map (λ l, space :: escape l) ls)
        = inr (mkState (produced st) (fields st) (Some (k, ls0 ++ ls))
                 (first_line st) ll)
        ∧ (ls = [] → ll = last_line st).
Proof.
  revert st n ls0. induction ls as [|l ls IH]; intros st n ls0 Hopen Hls.
  - exists (last_line st). rewrite app_nil_r. simpl.
    rewrite <- Hopen. by destruct st.
  - simpl in *. apply andb_true_iff in Hls as [Hl Hls].
    rewrite (step_continuation _ _ _ _ _ Hopen Hl).
    edestruct (IH (mkState (produced st) (fields st)
                     (Some (k, ls0 ++ [l])) (first_line st) (Some n))
                  (S n) (ls0 ++ [l])) as (ll & Hrun & _); [done..|].
    exists ll. rewrite Hrun. simpl. by rewrite <- app_assoc.
Qed.

(** One written field, read back: the field is opened with its
    value, and the fields before it are committed. *)
Lemma run_field st n k v :
  field_ok (k, v) = true → fields (commit st) !! k = None →
  ∃ st', run src st n (field_lines (k, v)) = inr st'
         ∧ produced st' = produced st
         ∧ fields (commit st') = <[k := v]> (fields (commit st)).
Proof.
  unfold field_ok, value_ok, field_lines. simpl.
  intros [Hk Hv]%andb_true_iff Hnew.
  destruct (Py.contains Py.newline v) eqn:E.
  - simpl. rewrite (step_key _ _ _ [] Hk Hnew). simpl.
    edestruct (run_continuations
                 (mkState (produced st) (fields (commit st))
                    (Some (k, []))
                    (match first_line st with
                     | Some m => Some m
                     | None => Some n
                     end) (Some n))
                 (S n) k [] (Py.split Py.newline v))
      as (ll & Hrun & _); [done..|].
    rewrite Hrun. eexists. split; [done|]. simpl. split; [done|].
    unfold commit. simpl. by rewrite join_split.
  - apply eqb_true in Hv. simpl.
    rewrite (step_key _ _ _ (space :: v) Hk Hnew).
    rewrite strip_cons_space by done. rewrite Hv.
    eexists. split; [done|]. simpl. split; [done|].
    unfold commit at 1. simpl.
    destruct (Py.eqb v []) eqn:Ev; [|done].
    apply eqb_true in Ev. by subst v.
Qed.

Lemma run_items st n items :
  forallb field_ok items = true → NoDup items.*1 →
  (∀ k, k ∈ items.*1 → fields (commit st) !! k = None) →
  ∃ st', run src st n (flat_map field_lines items) = inr st'
         ∧ produced st' = produced st
         ∧ fields (commit st')
           = foldl (λ m kv, <[kv.1 := kv.2]> m) (fields (commit st)) items.
Proof.
  revert st n. induction items as [|[k v] items IH]; intros st n Hok Hnd Hnew.
  - by exists st.
  - simpl in *. apply andb_true_iff in Hok as [Hkv Hok].
    apply NoDup_cons in Hnd as [Hk Hnd].
    destruct (run_field st n k v Hkv) as (st1 & Hrun1 & Hp1 & Hf1).
    { apply Hnew. by left. }
    rewrite run_app, Hrun1.
    destruct (IH st1 (n + length (field_lines (k, v))) Hok Hnd)
      as (st2 & Hrun2 & Hp2 & Hf2).
    { intros k' Hk'. rewrite Hf1, lookup_insert_ne.
      - apply Hnew. by right.
      - intros ->. done. }
    exists st2. rewrite Hrun2, Hp2, Hp1, Hf2, Hf1. done.
Qed.

Lemma foldl_insert_list_to_map (m : gmap str str) items :
  NoDup items.*1 →
  foldl (λ m kv, <[kv.1 := kv.2]> m) m items = list_to_map items ∪ m.
Proof.
  revert m. induction items as [|[k v] items IH]; intros m Hnd; simpl.
  - by rewrite (left_id_L ∅ (∪)).
  - apply NoDup_cons in Hnd as [Hk Hnd]. rewrite IH by done.
    rewrite <- insert_union_l. apply symmetry, insert_union_r.
    by apply not_elem_of_list_to_map_1.
Qed.

Lemma flush_flush st :
  produced (flush src (flush src st)) = produced (flush src st).
Proof.
  unfold flush at 2 3. destruct (decide (fields (commit st) = ∅)); done.
Qed.

(** The writer's text for the items of a record parses to that one
    record. *)
Lemma load_dump_items items :
  items ≠ [] → forallb field_ok items = true → NoDup items.*1 →
  ∃ st, run src initial 1 (Py.lines (dump_items items)) = inr st
        ∧ data <$> produced (flush src st) = [list_to_map items].
Proof.
  intros Hne Hok Hnd. rewrite lines_dump_items by done.
  destruct (run_items initial 1 items Hok Hnd) as (st & Hrun & Hp & Hf).
  { intros k _. apply lookup_empty. }
  rewrite run_app, Hrun. simpl. eexists. split; [done|].
  rewrite flush_flush. unfold flush.
  rewrite foldl_insert_list_to_map in Hf by done.
  change (fields (commit initial)) with (∅ : gmap str str) in Hf.
  rewrite (right_id_L ∅ (∪)) in Hf.
  destruct (decide (fields (commit st) = ∅)) as [He|_].
  - rewrite Hf in He. destruct items as [|[k v] items]; [done|].
    simpl in He. by apply insert_non_empty in He.
  - simpl. rewrite produced_commit, Hp, Hf. done.
Qed.

End roundtrip.

(** ** Claims on the record grammar *)

(** C3, as stated, does not hold of the grammar: the value [" value"]
    has no newline at all, yet the record [{key: " value"}] is written
    as [key:  value] and read back as [{key: "value"}]. *)
Lemma roundtrip_counterexample :
  has_blank_line $" value" = false
  ∧ Py.contains Py.newline $" value" = false
  ∧ parsed (rfc822.dump {[ $"key" := $" value" ]})
    = inr [{[ $"key" := $"value" ]}]
  ∧ parsed (rfc822.dump {[ $"key" := $" value" ]})
    ≠ inr [{[ $"key" := $" value" ]}].
Proof.
  assert (parsed (rfc822.dump {[ $"key" := $" value" ]})
          = inr [{[ $"key" := $"value" ]}]) as H by by_vm.
  split; [by_vm|]. split; [by_vm|]. split; [exact H|].
  rewrite H. intros Heq.
  apply (f_equal (λ res : rfc822.RFC822SyntaxError + list (gmap str str),
                    match res with
                    | inr [m] => m !! $"key"
                    | _ => None
                    end)) in Heq.
  rewrite !lookup_singleton_eq in Heq. discriminate.
Qed.

(** Each condition of the amended statement is needed: a record
    without fields is written as a blank line and read back as no
    record; a colon in a key moves the rest of the key into the value;
    a whitespace-only line in a longer value ends the record; a period
    surrounded by whitespace is read back as an empty line. *)
Example roundtrip_needs_a_field : parsed (rfc822.dump ∅) = inr [].
Proof. by_vm. Qed.

Example roundtrip_needs_colon_free_keys :
  parsed (rfc822.dump {[ $"a:b" := $"c" ]}) = inr [{[ $"a" := $"b: c" ]}].
Proof. by_vm. Qed.

Example roundtrip_needs_no_blank_line :
  parsed (rfc822.dump {[ $"k" := Py.join Py.newline [$"a"; $" "; $"b"] ]})
  = inl (rfc822.mkSyntaxError UnknownTextSource 4
           rfc822.UnexpectedMultiLineValue).
Proof. by_vm. Qed.

Example roundtrip_needs_bare_periods :
  parsed (rfc822.dump {[ $"k" := Py.join Py.newline [$"a"; $" ."] ]})
  = inr [{[ $"k" := Py.join Py.newline [$"a"; []] ]}].
Proof. by_vm. Qed.

(** C3 (amended): a record with at least one field, whose keys have no
    colon, newline or surrounding whitespace, whose one-line values
    have no surrounding whitespace, and whose longer values have only
    lines that are periods only or have content that is neither blank
    nor periods only, is read back from the writer's text as exactly
    that one record (origins aside), whatever the source given. *)
Theorem roundtrip (r : gmap str str) (src : option TextSource)
    (name : option str) :
  roundtrippable r = true →
  records_data (rfc822.load_rfc822_records (rfc822.dump r) src name)
  = inr [r].
Proof.
  unfold roundtrippable. rewrite andb_true_iff, bool_decide_eq_true.
  intros [Hne Hok]. unfold rfc822.load_rfc822_records, rfc822.dump.
  set (source := match src, name with
                 | Some s, _ => s
                 | None, Some n => FileTextSource n
                 | None, None => UnknownTextSource
                 end).
  destruct (load_dump_items source (map_to_list r)) as (st & Hrun & Hdata).
  - by rewrite map_to_list_empty_iff.
  - done.
  - apply NoDup_fst_map_to_list.
  - rewrite Hrun. simpl. rewrite Hdata. by rewrite list_to_map_to_list.
Qed.

(** A record with a value of several lines, one of them empty and one
    of periods, and a one-line value. *)
Lemma roundtrip_witness :
  roundtrippable
    (<[ $"id" := $"job 1" ]>
       {[ $"description" :=
            Py.join Py.newline [$"longer"; []; $".."; $" indented: x"] ]})
  = true
  ∧ parsed (rfc822.dump
              (<[ $"id" := $"job 1" ]>
                 {[ $"description" :=
                      Py.join Py.newline
                        [$"longer"; []; $".."; $" indented: x"] ]}))
    = inr [<[ $"id" := $"job 1" ]>
             {[ $"description" :=
                  Py.join Py.newline
                    [$"longer"; []; $".."; $" indented: x"] ]}].
Proof.
  split; [by_vm|]. apply (roundtrip _ None None). by_vm.
Defined.

Lemma all_periods_replicate n :
  rfc822.all_periods (replicate n rfc822.period) = true.
Proof. induction n; [done|]. simpl. by rewrite IHn. Qed.

(** C4: in continuation lines a lone period stands for an empty line
    and a line of N+1 periods for N periods; the lines of a value are
    joined with newlines.  Parsing [key:], [ longer], [ .], [ value]
    gives the one record [{key: "longer\n\nvalue"}], and with [ ..] in
    place of [ .] the record [{key: "longer\n.\nvalue"}]. *)
Theorem period_escape_decoding :
  parsed (text_of_lines [$"key:"; $" longer"; $" ."; $" value"])
  = inr [{[ $"key" := Py.join Py.newline [$"longer"; []; $"value"] ]}]
  ∧ parsed (text_of_lines [$"key:"; $" longer"; $" .."; $" value"])
    = inr [{[ $"key" := Py.join Py.newline [$"longer"; $"."; $"value"] ]}]
  ∧ (∀ n, rfc822.unescape (replicate (S n) rfc822.period)
          = replicate n rfc822.period)
  ∧ (∀ produced fields key value_lines first last,
       rfc822.fields
         (rfc822.commit
            (rfc822.mkState produced fields (Some (key, value_lines))
               first last)) !! key
       = Some (Py.join Py.newline value_lines)).
Proof.
  split; [by_vm|]. split; [by_vm|]. split.
  - intros n. unfold rfc822.unescape.
    rewrite all_periods_strip by apply all_periods_replicate.
    pose proof (all_periods_replicate (S n)) as H.
    simpl in *. by rewrite H.
  - intros. unfold rfc822.commit. simpl. apply lookup_insert_eq.
Qed.

(** C5: a key line whose key is already a field of the record under
    construction stops the parse with a duplicate-key error that
    carries the key, the old value and the new value; parsing
    [key1: value1], [key1: value2] fails so at line 2. *)
Theorem duplicate_key_error :
  rfc822.load_rfc822_records
    (text_of_lines [$"key1: value1"; $"key1: value2"]) None None
  = inl (rfc822.mkSyntaxError UnknownTextSource 2
           (rfc822.DuplicateKey $"key1" $"value1" $"value2"))
  ∧ (∀ src st n line rest k v old,
       Py.strip line ≠ [] →
       Py.startswith line [rfc822.space] = false →
       Py.split_once rfc822.colon line = Some (k, v) →
       rfc822.fields (rfc822.commit st) !! Py.strip k = Some old →
       rfc822.run src st n (line :: rest)
       = inl (rfc822.mkSyntaxError src n
                (rfc822.DuplicateKey (Py.strip k) old (Py.strip v)))).
Proof.
  split; [by_vm|].
  intros src st n line rest k v old Hblank Hspace Hsplit Hold.
  simpl. unfold rfc822.step.
  apply eqb_false in Hblank. rewrite Hblank, Hspace, Hsplit. simpl.
  by rewrite Hold.
Qed.

(** A record with the committed field [a] and the open field [key1];
    the next line sets [key1] again. *)
Lemma duplicate_key_error_witness :
  rfc822.run UnknownTextSource
    (rfc822.mkState [] {[ $"a" := $"b" ]} (Some ($"key1", [$"value1"]))
       (Some 1) (Some 2))
    3 [$"key1 : value2 "; $"more: fields"]
  = inl (rfc822.mkSyntaxError UnknownTextSource 3
           (rfc822.DuplicateKey $"key1" $"value1" $"value2")).
Proof.
  apply (proj2 duplicate_key_error UnknownTextSource _ 3 _ _
           $"key1 " $" value2 " $"value1"); by_vm || done.
Defined.

(** ** Claims on the content loader's constructor *)

(** C9: [ProviderContentLoader(provider)] raises [NameError] for every
    provider: [collections] is bound neither by the module nor by the
    builtins, so no loader is ever returned by the constructor. *)
Theorem loader_constructor_raises_NameError (env : Env)
    (provider : Provider1) :
  ProviderContentLoader.init env provider = Raises (NameError $"collections")
  ∧ ($"collections" ∉ module_globals)
  ∧ ($"collections" ∉ builtins)
  ∧ (∀ self, ProviderContentLoader.init env provider ≠ Returns self).
Proof.
  assert (load_global $"collections" = Raises (NameError $"collections"))
    as H by by_vm.
  assert (ProviderContentLoader.init env provider
          = Raises (NameError $"collections")) as Hinit.
  { unfold ProviderContentLoader.init. by rewrite H. }
  split; [done|]. split; [|split].
  - apply (bool_decide_eq_false_1 ($"collections" ∈ module_globals)). by_vm.
  - apply (bool_decide_eq_false_1 ($"collections" ∈ builtins)). by_vm.
  - intros self. by rewrite Hinit.
Qed.

(** ** Claims on the plug-ins *)

(** C10: a [WhiteListPlugIn2] built without a provider discovers no
    unit at all and still discovers the parsed white list; with a
    provider (that declares its whitelists directory) it discovers the
    two virtual units: the file unit of role [legacy_whitelist] and the
    test plan. *)
Theorem whitelist_plugin_without_provider (env : Env) (fs : FileSystem)
    (filename text : str) (kw : PlugInKwargs env) (wl : WhiteList env) :
  ContentPlugIn.discover_units env fs WhiteListPlugIn2 wl filename
    (inr text) None = Returns []
  ∧ ContentPlugIn.discover_whitelists env WhiteListPlugIn2 wl = [wl]
  ∧ (from_string env text filename
       (Some (mkOrigin (FileTextSource filename) (Some 1)
                (Some (Py.count Py.newline text)))) None = inr wl →
     ContentPlugIn.init env fs WhiteListPlugIn2 filename (inr text) None kw
     = Returns (ContentPlugIn.mk WhiteListPlugIn2 filename wl [] [wl]))
  ∧ (∀ p d, whitelists_dir p = Some d →
       ContentPlugIn.discover_units env fs WhiteListPlugIn2 wl filename
         (inr text) (Some p)
       = Returns
           [new_unit FileUnit
              (<[ $"unit" := VMetaName FileUnit ]>
                 (<[ $"path" := VStr filename ]>
                    (<[ $"base" := VDir (Some d) ]>
                       {[ $"role" := VRole FileRole.legacy_whitelist ]})))
              (mkOrigin (FileTextSource filename) None None) (Some p) None
              (Some true);
            make_test_plan_unit filename text (Some p)]).
Proof.
  split; [done|]. split; [done|]. split.
  - intros H. unfold ContentPlugIn.init. simpl. by rewrite H.
  - intros p d Hd. simpl. unfold ContentPlugIn.make_file_unit.
    by rewrite Hd.
Qed.

(** The white list [a], [b] in the example environment. *)
Lemma whitelist_plugin_without_provider_witness :
  ContentPlugIn.init example_env example_fs WhiteListPlugIn2
    $"/p/whitelists/smoke.whitelist" (inr (text_of_lines [$"a"; $"b"]))
    None default_kwargs
  = Returns (ContentPlugIn.mk (env := example_env) WhiteListPlugIn2
               $"/p/whitelists/smoke.whitelist" [$"a"; $"b"] []
               [[$"a"; $"b"]])
  ∧ ∃ file_unit,
      ContentPlugIn.discover_units example_env example_fs WhiteListPlugIn2
        [$"a"; $"b"] $"/p/whitelists/smoke.whitelist"
        (inr (text_of_lines [$"a"; $"b"])) (Some example_provider)
      = Returns
          [file_unit;
           make_test_plan_unit $"/p/whitelists/smoke.whitelist"
             (text_of_lines [$"a"; $"b"]) (Some example_provider)].
Proof.
  pose proof (whitelist_plugin_without_provider example_env example_fs
                $"/p/whitelists/smoke.whitelist"
                (text_of_lines [$"a"; $"b"]) default_kwargs
                [$"a"; $"b"]) as (_ & _ & Hinit & Hunits).
  split.
  - apply Hinit. by_vm.
  - eexists. apply (Hunits example_provider $"/p/whitelists"). reflexivity.
Defined.

(** C7 (the code departs from it): the two units that [WhiteListPlugIn]
    synthesizes for a legacy whitelist file are virtual, the file unit
    of role [legacy_whitelist] and the test plan whose [include] is the
    text and whose [id] and [name] are the base name of the file
    without its extension; the file unit of [ProviderContentPlugIn] is
    virtual too; but the file unit that [UnitPlugIn] appends after the
    units of a file is built without [virtual=True] and is not marked
    virtual.  All of them carry an origin for the file as a whole. *)
Theorem synthesized_units_virtual (filename text : str)
    (provider : option Provider1) :
  (∃ file_unit test_plan,
     WhiteListPlugIn.synthetize_virtual_units filename text provider
     = [file_unit; test_plan]
     ∧ unit_cls file_unit = FileUnit
     ∧ unit_data file_unit !! $"role"
       = Some (VRole FileRole.legacy_whitelist)
     ∧ unit_origin file_unit = mkOrigin (FileTextSource filename) None None
     ∧ unit_virtual file_unit = true
     ∧ unit_cls test_plan = TestPlanUnit
     ∧ unit_data test_plan !! $"include" = Some (VStr text)
     ∧ unit_data test_plan !! $"id"
       = Some (VStr (Py.basename (Py.splitext filename).1))
     ∧ unit_data test_plan !! $"name"
       = Some (VStr (Py.basename (Py.splitext filename).1))
     ∧ unit_origin test_plan
       = mkOrigin (FileTextSource filename) (Some 1)
           (Some (Py.count Py.newline text))
     ∧ unit_virtual test_plan = true)
  ∧ (∀ fs role base,
       match ContentPlugIn.make_file_unit fs filename provider role base
       with
       | Returns file_unit => unit_virtual file_unit = true
       | _ => True
       end)
  ∧ (∃ file_unit,
       UnitPlugIn.synthetize_virtual_units filename text provider
       = [file_unit]
       ∧ unit_data file_unit !! $"role" = Some (VRole FileRole.unit_source)
       ∧ unit_origin file_unit = mkOrigin (FileTextSource filename) None None
       ∧ unit_virtual file_unit = false)
  ∧ (∀ env kw,
       UnitPlugIn.init env filename [] provider kw
       = Returns (UnitPlugIn.mk filename
                    [UnitPlugIn._make_file_unit filename provider])).
Proof.
  split; [|split; [|split]].
  - eexists _, _. split; [reflexivity|]. simpl.
    repeat split; done.
  - intros fs role base. unfold ContentPlugIn.make_file_unit.
    destruct role as [r|]; [destruct base as [b|]|]; simpl; try done;
      by destruct (ContentPlugIn.provider_classify fs provider filename).
  - eexists. split; [reflexivity|]. by repeat split.
  - done.
Qed.

Lemma define_units_app (env : Env) provider v vk c ctx before after :
  define_units env provider v vk c ctx (before ++ after)
  = (units ← define_units env provider v vk c ctx before;
     rest ← define_units env provider v vk c ctx after;
     Returns (units ++ rest)).
Proof.
  induction before as [|r before IH]; simpl.
  - by destruct (define_units env provider v vk c ctx after).
  - destruct (define_unit env provider v vk c ctx r); simpl; [|done..].
    rewrite IH.
    destruct (define_units env provider v vk c ctx before); simpl; [|done..].
    by destruct (define_units env provider v vk c ctx after).
Qed.

(** C8: the kind of a record is its [unit] field, [job] when there is
    none; the registry entry of that kind builds the unit.  A kind
    that is not registered is a [PlugInError] naming the kind, a
    [ValueError] of the constructor is a [PlugInError] naming the
    record, and either error is the outcome of loading the file, with
    [UnitPlugIn2] as with [UnitPlugIn]. *)
Theorem unit_kind_dispatch (env : Env) (fs : FileSystem)
    (provider : option Provider1) (kw : PlugInKwargs env)
    (record : rfc822.RFC822Record) :
  let kind := default $"job" (rfc822.data record !! $"unit") in
  let define :=
    define_unit env provider (validate kw)
      (default ∅ (validation_kwargs kw)) (check kw) (context kw) in
  (all_units env !! kind = None →
   define record = Raises (PlugInError (UnknownUnitType kind)))
  ∧ (∀ from_rfc822_record msg,
       all_units env !! kind = Some from_rfc822_record →
       from_rfc822_record record provider = inl (ValueError msg) →
       define record = Raises (PlugInError (CannotDefineUnit record msg)))
  ∧ (∀ from_rfc822_record unit,
       all_units env !! kind = Some from_rfc822_record →
       from_rfc822_record record provider = inr unit →
       (check kw = true →
        find (λ issue, is_error (severity issue))
             (unit_check env unit (context kw)) = None) →
       (validate kw = true →
        unit_validate env unit (default ∅ (validation_kwargs kw)) = None) →
       define record = Returns unit)
  ∧ (∀ filename text before after units msg,
       rfc822.load_rfc822_records text (Some (FileTextSource filename)) None
       = inr (before ++ record :: after) →
       define_units env provider (validate kw)
         (default ∅ (validation_kwargs kw)) (check kw) (context kw) before
       = Returns units →
       define record = Raises (PlugInError msg) →
       ContentPlugIn.init env fs UnitPlugIn2 filename (inr text) provider kw
       = Raises (PlugInError msg)
       ∧ UnitPlugIn.init env filename text provider kw
         = Raises (PlugInError msg)).
Proof.
  intros kind define. subst define. unfold define_unit, _get_unit_cls.
  fold kind. split; [|split; [|split]].
  - by intros ->.
  - intros ctor msg -> Hctor. by rewrite Hctor.
  - intros ctor unit -> Hctor Hcheck Hvalidate. rewrite Hctor.
    destruct (check kw); [rewrite Hcheck by done|];
      (destruct (validate kw); [by rewrite Hvalidate|done]).
  - intros filename text before after units msg Hload Hbefore Hrecord.
    assert (define_units env provider (validate kw)
              (default ∅ (validation_kwargs kw)) (check kw) (context kw)
              (before ++ record :: after) = Raises (PlugInError msg)) as Hall.
    { rewrite define_units_app, Hbefore. simpl.
      unfold define_unit, _get_unit_cls. fold kind.
      by rewrite Hrecord. }
    split.
    + unfold ContentPlugIn.init. simpl. unfold load_records.
      rewrite Hload. simpl. by rewrite Hall.
    + unfold UnitPlugIn.init, load_records. rewrite Hload. simpl.
      by rewrite Hall.
Qed.

(** In the example environment: a record of the unregistered kind
    [bogus], a job record that cannot be turned into a unit, and a file
    whose second record is of kind [bogus]. *)
Lemma unit_kind_dispatch_witness :
  define_unit example_env (Some example_provider) true ∅ false None
    (rfc822.mkRecord (<[ $"unit" := $"bogus" ]> {[ $"id" := $"x" ]})
       (mkOrigin UnknownTextSource (Some 1) (Some 2)))
  = Raises (PlugInError (UnknownUnitType $"bogus"))
  ∧ define_unit example_env (Some example_provider) true ∅ false None
      (rfc822.mkRecord (<[ $"id" := $"x" ]> {[ $"broken" := $"why" ]})
         (mkOrigin UnknownTextSource (Some 1) (Some 2)))
    = Raises (PlugInError
                (CannotDefineUnit
                   (rfc822.mkRecord
                      (<[ $"id" := $"x" ]> {[ $"broken" := $"why" ]})
                      (mkOrigin UnknownTextSource (Some 1) (Some 2)))
                   $"why"))
  ∧ ContentPlugIn.init example_env example_fs UnitPlugIn2 $"/p/jobs/a.txt"
      (inr (text_of_lines [$"id: a"; []; $"unit: bogus"; $"id: b"]))
      (Some example_provider) default_kwargs
    = Raises (PlugInError (UnknownUnitType $"bogus")).
Proof.
  split; [|split].
  - refine (eq_trans
              (proj1 (unit_kind_dispatch example_env example_fs
                        (Some example_provider) default_kwargs
                        (rfc822.mkRecord
                           (<[ $"unit" := $"bogus" ]> {[ $"id" := $"x" ]})
                           (mkOrigin UnknownTextSource (Some 1) (Some 2))))
                 _) _); by_vm.
  - refine (proj1 (proj2 (unit_kind_dispatch example_env example_fs
                            (Some example_provider) default_kwargs
                            (rfc822.mkRecord
                               (<[ $"id" := $"x" ]> {[ $"broken" := $"why" ]})
                               (mkOrigin UnknownTextSource (Some 1) (Some 2)))))
              (example_from_record $"job") $"why" _ _); by_vm.
  - refine (proj1
              (proj2 (proj2 (proj2
                 (unit_kind_dispatch example_env example_fs
                    (Some example_provider) default_kwargs
                    (rfc822.mkRecord
                       (<[ $"unit" := $"bogus" ]> {[ $"id" := $"b" ]})
                       (mkOrigin (FileTextSource $"/p/jobs/a.txt")
                          (Some 3) (Some 4))))))
                 $"/p/jobs/a.txt"
                 (text_of_lines [$"id: a"; []; $"unit: bogus"; $"id: b"])
                 [rfc822.mkRecord {[ $"id" := $"a" ]}
                    (mkOrigin (FileTextSource $"/p/jobs/a.txt")
                       (Some 1) (Some 1))]
                 []
                 [new_unit (RegisteredUnit $"job") {[ $"id" := VStr $"a" ]}
                    (mkOrigin (FileTextSource $"/p/jobs/a.txt")
                       (Some 1) (Some 1))
                    (Some example_provider) None None]
                 (UnknownUnitType $"bogus") _ _ _)); by_vm.
Defined.

(** ** Paths: [rfind], [splitext] and [os.path.split] *)

Section paths.
Implicit Types (s t p : str) (c d : ascii).
#[local] Arguments Ascii.eqb : simpl never.

(** [rfind1] finds the last occurrence. *)
Lemma rfind1_spec c s :
  match Py.rfind1 c s with
  | 0 => c ∉ s
  | S i => ∃ a t, s = a ++ c :: t ∧ length a = i ∧ c ∉ t
  end.
Proof.
  induction s as [|d s IH]; simpl; [apply not_elem_of_nil|].
  destruct (Py.rfind1 c s) as [|i].
  - destruct (Ascii.eqb d c) eqn:E.
    + apply ascii_eqb_true in E. subst d. by exists [], s.
    + apply ascii_eqb_false in E. rewrite not_elem_of_cons.
      split; [congruence | done].
  - destruct IH as (a & t & -> & Ha & Ht).
    exists (d :: a), t. simpl. by rewrite Ha.
Qed.

(** The extension found by [splitext] is empty or one dot followed
    by characters other than dots. *)
Lemma splitext_ext p :
  (Py.splitext p).2 = []
  ∨ ∃ t, (Py.splitext p).2 = Py.extsep :: t ∧ Py.extsep ∉ t.
Proof.
  unfold Py.splitext.
  destruct (_ && _) eqn:E; [|by left]. right.
  apply andb_true_iff in E as [Hlt _]. apply Nat.ltb_lt in Hlt.
  pose proof (rfind1_spec Py.extsep p) as H.
  destruct (Py.rfind1 Py.extsep p) as [|i]; [lia|].
  destruct H as (a & t & -> & Ha & Ht). exists t. simpl.
  rewrite Nat.sub_0_r, <- Ha, drop_app_length. done.
Qed.

Lemma splitext_never_txt_in p : (Py.splitext p).2 ≠ $".txt.in".
Proof.
  destruct (splitext_ext p) as [->|(t & -> & Ht)]; [done|].
  intros [= ->]. apply Ht. apply (bool_decide_eq_true_1 (_ ∈ _)). by_vm.
Qed.

(** *** [os.path.split] shortens *)

Lemma rstrip_char_prefix c s : Py.rstrip_char c s `prefix_of` s.
Proof.
  induction s as [|d s IH]; simpl; [done|].
  destruct (Py.rstrip_char c s) eqn:E.
  - destruct (Ascii.eqb d c); [apply prefix_nil|].
    apply prefix_cons, prefix_nil.
  - by apply prefix_cons.
Qed.

Lemma rstrip_char_snoc c s : Py.rstrip_char c (s ++ [c]) = Py.rstrip_char c s.
Proof.
  induction s as [|d s IH]; simpl.
  - by rewrite Ascii.eqb_refl.
  - by rewrite IH.
Qed.

Lemma path_split_prefix p : (Py.path_split p).1 `prefix_of` p.
Proof.
  unfold Py.path_split. simpl.
  destruct (_ && _).
  - etrans; [apply rstrip_char_prefix | apply prefix_take].
  - apply prefix_take.
Qed.

Lemma all_sep_no_double p :
  Py.all_sep p = true → Py.startswith p $"//" = false →
  p = [] ∨ p = [Py.sep].
Proof.
  destruct p as [|c [|d p]]; simpl; [by left| |].
  - rewrite andb_true_r. intros ->%ascii_eqb_true. by right.
  - rewrite !andb_true_iff.
    intros (Hc%ascii_eqb_true & Hd%ascii_eqb_true & _). by subst.
Qed.

(** Away from paths that begin with two slashes, an iteration of the
    loop of [_classify_vcs] that does not exit shortens [head]. *)
Lemma path_split_shortens p :
  Py.startswith p $"//" = false → p ≠ [] → p ≠ [Py.sep] →
  (Py.path_split p).1 ≠ p.
Proof.
  intros Hdouble Hnil Hroot Heq.
  unfold Py.path_split in Heq. simpl in Heq.
  pose proof (rfind1_spec Py.sep p) as Hfind.
  destruct (Py.rfind1 Py.sep p) as [|i].
  { simpl in Heq. done. }
  destruct Hfind as (a & t & -> & Ha & Ht).
  assert (take (S i) (a ++ Py.sep :: t) = a ++ [Py.sep]) as Htake.
  { rewrite <- Ha. rewrite (cons_middle Py.sep a t), app_assoc.
    replace (S (length a)) with (length (a ++ [Py.sep]))
      by (rewrite length_app; simpl; lia).
    apply take_app_length. }
  rewrite Htake in Heq.
  destruct (negb (Py.eqb (a ++ [Py.sep]) [])
            && negb (Py.all_sep (a ++ [Py.sep]))) eqn:E.
  - rewrite rstrip_char_snoc in Heq.
    pose proof (prefix_length _ _ (rstrip_char_prefix Py.sep a)) as Hlen.
    rewrite Heq, length_app in Hlen. simpl in Hlen. lia.
  - apply andb_false_iff in E as [E|E]; apply negb_false_iff in E.
    + apply eqb_true in E. by destruct a.
    + rewrite <- Heq in Hdouble, Hnil, Hroot.
      destruct (all_sep_no_double _ E Hdouble); done.
Qed.

Lemma startswith_prefix_false s t u :
  t `prefix_of` s → Py.startswith s u = false → Py.startswith t u = false.
Proof.
  intros Hts Hs. destruct (Py.startswith t u) eqn:E; [|done].
  apply startswith_prefix in E.
  assert (u `prefix_of` s) as H%startswith_prefix by by etrans.
  congruence.
Qed.

Lemma prefix_shorter s t : s `prefix_of` t → s ≠ t → length s < length t.
Proof.
  intros Hp Hne. pose proof (prefix_length _ _ Hp).
  destruct (decide (length t ≤ length s)) as [Hle|]; [|lia].
  by apply (prefix_length_eq _ _ Hp) in Hle.
Qed.

End paths.

(** ** The classifier: its list of methods and its loop *)

Section classifier.
Import ProviderContentClassifier.
Context (p : Provider1) (fs : FileSystem).
Implicit Types (filename head : str) (fn : classify_fn).

Lemma vcs_walk_S fuel head :
  vcs_walk p (S fuel) head
  = if negb (bool_decide (Some head = base_dir p))
       && negb (Py.eqb head []) && negb (Py.eqb head [Py.sep])
    then
      if Py.in_tuple (Py.path_split head).2 [$".git"; $".bzr"]
      then Returns (Some (FileRole.vcs, base_dir p, None))
      else if Py.eqb (Py.path_split head).1 head then Diverges
           else vcs_walk p fuel (Py.path_split head).1
    else Returns None.
Proof. simpl. by destruct (Py.path_split head). Qed.

(** The loop of [_classify_vcs] comes to an end on every path that
    does not begin with two slashes. *)
Lemma vcs_walk_returns fuel head :
  length head ≤ fuel → Py.startswith head $"//" = false →
  ∃ r, vcs_walk p fuel head = Returns r.
Proof.
  revert head. induction fuel as [|fuel IH]; intros head Hlen Hdouble.
  - destruct head; [|simpl in Hlen; lia]. simpl.
    rewrite andb_false_r. by eexists.
  - rewrite vcs_walk_S.
    destruct (negb (bool_decide (Some head = base_dir p))
              && negb (Py.eqb head []) && negb (Py.eqb head [Py.sep])) eqn:E;
      [|by eexists].
    apply andb_true_iff in E as [[_ Hnil]%andb_true_iff Hroot].
    apply negb_true_iff, eqb_false in Hnil, Hroot.
    pose proof (path_split_prefix head) as Hpre.
    pose proof (path_split_shortens head Hdouble Hnil Hroot) as Hne.
    destruct (Py.in_tuple _ _); [by eexists|].
    pose proof Hne as ->%eqb_false.
    apply IH.
    + pose proof (prefix_shorter _ _ Hpre Hne). lia.
    + by eapply startswith_prefix_false.
Qed.


Lemma vcs_walk_nil fuel : vcs_walk p fuel [] = Returns None.
Proof. destruct fuel; simpl; by rewrite andb_false_r. Qed.

(** The fuel is never what ends the loop: more of it changes nothing. *)
Lemma vcs_walk_fuel fuel fuel' head :
  length head ≤ fuel → length head ≤ fuel' →
  vcs_walk p fuel head = vcs_walk p fuel' head.
Proof.
  revert fuel' head.
  induction fuel as [|fuel IH]; intros fuel' head Hlen Hlen'.
  { destruct head; [|simpl in Hlen; lia]. by rewrite !vcs_walk_nil. }
  destruct fuel' as [|fuel'].
  { destruct head; [|simpl in Hlen'; lia]. by rewrite !vcs_walk_nil. }
  rewrite !vcs_walk_S.
  destruct (_ && _); [|done].
  destruct (Py.in_tuple _ _); [done|].
  destruct (Py.eqb _ head) eqn:E; [done|]. apply eqb_false in E.
  pose proof (prefix_shorter _ _ (path_split_prefix head) E).
  apply IH; lia.
Qed.

Lemma vcs_walk_no_raise fuel head e : vcs_walk p fuel head ≠ Raises e.
Proof.
  revert head. induction fuel as [|fuel IH]; intros head.
  - simpl. by destruct (_ && _).
  - rewrite vcs_walk_S. repeat case_match; done.
Qed.

(** *** the list of methods *)

Lemma filter_declared_one fn d :
  declared p fn = truthy d →
  filter (λ fn, declared p fn = true) [fn] = when d [fn].
Proof.
  intros H. rewrite filter_cons, filter_nil. unfold when. rewrite <- H.
  destruct (declared p fn); by case_decide.
Qed.

Lemma filter_declared_root :
  filter (λ fn, declared p fn = true) [legal; docs; manage_py; vcs]
  = when (base_dir p) [legal; docs; manage_py; vcs].
Proof.
  rewrite !filter_cons, filter_nil. unfold when. simpl.
  destruct (truthy (base_dir p)); by repeat case_decide.
Qed.

(** The list of methods is the fixed order, restricted to the
    methods whose directory the provider declares. *)
Lemma classify_fn_list_filter :
  classify_fn_list p = filter (λ fn, declared p fn = true) precedence.
Proof.
  change precedence
    with ([pxu_jobs] ++ [pxu_units] ++ [whitelist] ++ [data] ++ [exec]
          ++ [built_exec] ++ [built_i18n] ++ [build] ++ [po] ++ [src]
          ++ [legal; docs; manage_py; vcs] ++ [unknown]).
  rewrite !filter_app, filter_declared_root.
  rewrite (filter_declared_one pxu_jobs (jobs_dir p)) by done.
  rewrite (filter_declared_one pxu_units (units_dir p)) by done.
  rewrite (filter_declared_one whitelist (whitelists_dir p)) by done.
  rewrite (filter_declared_one data (data_dir p)) by done.
  rewrite (filter_declared_one exec (bin_dir p)) by done.
  rewrite (filter_declared_one built_exec (build_bin_dir p)) by done.
  rewrite (filter_declared_one built_i18n (build_mo_dir p)) by done.
  rewrite (filter_declared_one build (build_dir p)) by done.
  rewrite (filter_declared_one po (po_dir p)) by done.
  rewrite (filter_declared_one src (src_dir p)) by done.
  done.
Qed.

Lemma elem_of_classify_fn_list fn :
  fn ∈ classify_fn_list p ↔ declared p fn = true.
Proof.
  rewrite classify_fn_list_filter, list_elem_of_filter.
  split; [tauto|]. intros H. split; [done|].
  unfold precedence. destruct fn; set_solver.
Qed.

Lemma classify_fn_list_sublist : classify_fn_list p `sublist_of` precedence.
Proof. rewrite classify_fn_list_filter. apply sublist_filter. Qed.

Lemma classify_fn_list_last :
  ∃ fns, classify_fn_list p = fns ++ [unknown].
Proof.
  unfold classify_fn_list, _get_classify_fn_list.
  rewrite !app_assoc. by eexists.
Qed.

(** *** the methods *)

Lemma truthy_Some d : truthy d = true → ∃ s, d = Some s.
Proof. destruct d; [by eexists | done]. Qed.

Lemma build_bin_dir_src_dir :
  truthy (build_bin_dir p) = true → ∃ s, src_dir p = Some s.
Proof.
  unfold build_bin_dir, src_dir. destruct (base_dir p); [by eexists|done].
Qed.

(** A method that is in the list raises nothing. *)
Lemma call_no_raise fn filename e :
  declared p fn = true → call p fs fn filename ≠ Raises e.
Proof.
  destruct fn; simpl; intros Hd;
    try (apply truthy_Some in Hd as [d Hd]);
    unfold _classify_pxu_jobs, _classify_pxu_units, _classify_whitelist,
      _classify_data, _classify_exec, _classify_built_exec,
      _classify_built_i18n, _classify_build, _classify_po, _classify_src,
      _classify_legal, _classify_docs, _classify_manage_py, _classify_vcs,
      _classify_unknown, startswith_dir;
    try rewrite Hd; simpl; try (repeat case_match; done).
  - (* built_exec *)
    assert (∃ s, src_dir p = Some s) as [s Hs].
    { unfold build_bin_dir, src_dir in *.
      destruct (base_dir p); [by eexists|done]. }
    unfold EXECUTABLES, _get_EXECUTABLES. rewrite Hs.
    repeat case_match; simpl; repeat case_match; done.
  - (* vcs *)
    case_match; [done | apply vcs_walk_no_raise].
Qed.

(** Only the loop of [_classify_vcs] can fail to return. *)
Lemma call_no_diverge fn filename :
  call p fs fn filename = Diverges →
  fn = vcs ∧ vcs_walk p (length filename) filename = Diverges.
Proof.
  destruct fn; simpl;
    unfold _classify_pxu_jobs, _classify_pxu_units, _classify_whitelist,
      _classify_data, _classify_exec, _classify_built_exec,
      _classify_built_i18n, _classify_build, _classify_po, _classify_src,
      _classify_legal, _classify_docs, _classify_manage_py, _classify_vcs,
      _classify_unknown, startswith_dir, EXECUTABLES, _get_EXECUTABLES;
    simpl; repeat case_match; simpl; repeat case_match; done.
Qed.

(** *** the loop of [classify] *)

Lemma classify_loop_first fns fn fns' filename c :
  Forall (λ g, call p fs g filename = Returns None) fns →
  call p fs fn filename = Returns (Some c) →
  classify_loop p fs (fns ++ fn :: fns') filename = Returns c.
Proof.
  intros Hbefore Hfn. induction Hbefore as [|g fns Hg _ IH]; simpl.
  - by rewrite Hfn.
  - by rewrite Hg.
Qed.

Lemma classify_loop_inv fns filename c :
  classify_loop p fs fns filename = Returns c →
  ∃ before fn after,
    fns = before ++ fn :: after
    ∧ Forall (λ g, call p fs g filename = Returns None) before
    ∧ call p fs fn filename = Returns (Some c).
Proof.
  induction fns as [|g fns IH]; simpl; [done|].
  destruct (call p fs g filename) as [[c'|]| |] eqn:E; simpl; [|..|done|done].
  - intros [= ->]. by exists [], g, fns.
  - intros (before & fn & after & -> & Hb & Hfn)%IH.
    exists (g :: before), fn, after. by repeat constructor.
Qed.

Lemma classify_loop_no_raise fns filename e :
  Forall (λ g, declared p g = true) fns → unknown ∈ fns →
  classify_loop p fs fns filename ≠ Raises e.
Proof.
  induction 1 as [|g fns Hg _ IH]; intros Hin.
  { by apply elem_of_nil in Hin. }
  simpl. destruct (call p fs g filename) as [[c'|]| |] eqn:E; simpl;
    [done| |by intros [= ->]; eapply call_no_raise|done].
  apply IH. apply elem_of_cons in Hin as [<-|]; [done|done].
Qed.
End classifier.

Section classify_facts.
Import ProviderContentClassifier.
Context (p : Provider1) (fs : FileSystem).
Implicit Types (filename : str) (fn : classify_fn).

Lemma classify_no_raise filename e : classify p fs filename ≠ Raises e.
Proof.
  apply classify_loop_no_raise.
  - apply Forall_forall. intros fn. by rewrite elem_of_classify_fn_list.
  - by apply elem_of_classify_fn_list.
Qed.

Lemma classify_loop_diverges fns filename :
  classify_loop p fs fns filename = Diverges →
  ∃ fn, fn ∈ fns ∧ call p fs fn filename = Diverges.
Proof.
  induction fns as [|g fns IH]; simpl; [done|].
  destruct (call p fs g filename) as [[c'|]| |] eqn:E; simpl; [done| |done|].
  - intros (fn & Hin & Hfn)%IH. exists fn. split; [by right|done].
  - intros _. exists g. split; [by left|done].
Qed.

Lemma classify_diverges filename :
  classify p fs filename = Diverges →
  vcs_walk p (length filename) filename = Diverges.
Proof.
  intros (fn & _ & Hfn)%classify_loop_diverges.
  by apply call_no_diverge in Hfn as [_ ?].
Qed.

(** Every path that does not begin with two slashes is classified. *)
Lemma classify_returns filename :
  Py.startswith filename $"//" = false →
  ∃ c, classify p fs filename = Returns c.
Proof.
  intros Hdouble.
  destruct (classify p fs filename) as [c|e|] eqn:E; [by eexists|..].
  - by apply classify_no_raise in E.
  - apply classify_diverges in E.
    destruct (vcs_walk_returns p (length filename) filename) as [r Hr];
      [done..|]. congruence.
Qed.

End classify_facts.


(** The proviso is needed: under the base directory [//p/] the loop
    of [_classify_vcs] on [//p/x] reaches the head [//], which
    [os.path.split] leaves as it is, and never exits. *)
Example classify_double_slash (fs : FileSystem) :
  Py.path_split $"//" = ($"//", [])
  ∧ ProviderContentClassifier.classify double_slash_provider fs $"//p/x"
    = Diverges.
Proof. split; by_vm. Qed.

(** ** Claims on the classifier *)

Import ProviderContentClassifier.

(** C2, as stated, does not hold of the classifier: [/p/jobs/README]
    lies inside the jobs directory [/p/jobs] and inside the base
    directory [/p], the rule of the jobs directory does not match it
    (it only matches the extensions [.txt], [.in] and [.pxu]), and the
    root-level rule for documents decides its classification. *)
Lemma classify_counterexample :
  jobs_dir example_provider = Some $"/p/jobs"
  ∧ base_dir example_provider = Some $"/p"
  ∧ Py.startswith $"/p/jobs/README" $"/p/jobs" = true
  ∧ Py.startswith $"/p/jobs/README" $"/p" = true
  ∧ _classify_pxu_jobs example_provider $"/p/jobs/README" = Returns None
  ∧ _classify_docs example_provider $"/p/jobs/README"
    = Returns (Some (FileRole.docs, Some $"/p", Some ProviderContentPlugIn))
  ∧ classify example_provider example_fs $"/p/jobs/README"
    = Returns (FileRole.docs, Some $"/p", Some ProviderContentPlugIn).
Proof. repeat split; by_vm. Qed.

(** C2 (amended): the list of methods is the fixed precedence order
    restricted to the directories the provider declares, with the
    catch-all last; [classify] returns the result of the first method
    of the list that matches, so the method of a specific directory
    (the jobs directory comes first) decides whenever it matches the
    path, and a later, root-level method decides only when every
    method before it did not match; the catch-all always matches, so
    [classify] never raises, and it returns on every path that does not
    begin with two slashes. *)
Theorem classify_first_match (p : Provider1) (fs : FileSystem)
    (filename : str) :
  classify_fn_list p `sublist_of` precedence
  ∧ (∃ fns, classify_fn_list p = fns ++ [unknown])
  ∧ (∀ fn, fn ∈ classify_fn_list p ↔ declared p fn = true)
  ∧ (∀ before fn after c,
       classify_fn_list p = before ++ fn :: after →
       Forall (λ g, call p fs g filename = Returns None) before →
       call p fs fn filename = Returns (Some c) →
       classify p fs filename = Returns c)
  ∧ (∀ c, truthy (jobs_dir p) = true →
          _classify_pxu_jobs p filename = Returns (Some c) →
          classify p fs filename = Returns c)
  ∧ (∀ c, classify p fs filename = Returns c →
          ∃ before fn after,
            classify_fn_list p = before ++ fn :: after
            ∧ Forall (λ g, call p fs g filename = Returns None) before
            ∧ call p fs fn filename = Returns (Some c))
  ∧ call p fs unknown filename
    = Returns (Some (FileRole.unknown, base_dir p, None))
  ∧ (∀ e, classify p fs filename ≠ Raises e)
  ∧ (Py.startswith filename $"//" = false →
     ∃ c, classify p fs filename = Returns c).
Proof.
  split; [apply classify_fn_list_sublist|].
  split; [apply classify_fn_list_last|].
  split; [apply elem_of_classify_fn_list|].
  split; [|split; [|split; [|split; [|split]]]].
  - intros before fn after c Hlist Hbefore Hfn. unfold classify.
    rewrite Hlist. by apply classify_loop_first.
  - intros c Hjobs Hfn. unfold classify, classify_fn_list,
      _get_classify_fn_list, when. rewrite Hjobs.
    by apply (classify_loop_first p fs [] pxu_jobs).
  - intros c. apply classify_loop_inv.
  - done.
  - intros e. apply classify_no_raise.
  - apply classify_returns.
Qed.

(** In the example provider [/p/jobs/a.txt] is decided by the method
    of the jobs directory, and [/p/COPYING] by the root-level method
    for legal documents after the ten methods before it did not
    match. *)
Lemma classify_first_match_witness :
  ProviderContentClassifier.classify example_provider example_fs
    $"/p/jobs/a.txt"
  = Returns (FileRole.unit_source, Some $"/p/jobs", Some UnitPlugIn2)
  ∧ ProviderContentClassifier.classify example_provider example_fs
      $"/p/COPYING"
    = Returns (FileRole.legal, Some $"/p", Some ProviderContentPlugIn)
  ∧ ∃ c, ProviderContentClassifier.classify example_provider example_fs
           $"/p/.git/config" = Returns c.
Proof.
  split; [|split].
  - apply (proj1 (proj2 (proj2 (proj2 (proj2
             (classify_first_match example_provider example_fs
                $"/p/jobs/a.txt")))))); by_vm.
  - apply (proj1 (proj2 (proj2 (proj2
             (classify_first_match example_provider example_fs
                $"/p/COPYING"))))
             [pxu_jobs; pxu_units; whitelist; data; exec; built_exec;
              built_i18n; build; po; src]
             legal [docs; manage_py; vcs; unknown]).
    + by_vm.
    + repeat constructor; by_vm.
    + by_vm.
  - apply (proj2 (proj2 (proj2 (proj2 (proj2 (proj2 (proj2 (proj2
             (classify_first_match example_provider example_fs
                $"/p/.git/config"))))))))). by_vm.
Defined.

(** ** The content loader *)

Section loader.
Import ProviderContentLoader.
Context (env : Env) (fs : FileSystem).
Implicit Types (self : t env) (kw : PlugInKwargs env) (file : str * LazyText).

Lemma define_unit_no_diverge provider v vk c ctx record :
  define_unit env provider v vk c ctx record ≠ Diverges.
Proof.
  unfold define_unit, _get_unit_cls. repeat case_match; done.
Qed.

Lemma define_units_no_diverge provider v vk c ctx records :
  define_units env provider v vk c ctx records ≠ Diverges.
Proof.
  induction records as [|r records IH]; simpl; [done|].
  pose proof (define_unit_no_diverge provider v vk c ctx r).
  destruct (define_unit env provider v vk c ctx r); simpl; [|done..].
  destruct (define_units env provider v vk c ctx records); done.
Qed.

Lemma inspect_no_diverge cls filename text provider kw :
  ContentPlugIn.inspect env cls filename text provider kw ≠ Diverges.
Proof.
  destruct cls; simpl.
  - destruct text as [e|text]; [done|]. unfold load_records.
    case_match; [done|]. simpl. apply define_units_no_diverge.
  - repeat case_match; done.
  - done.
Qed.

(** Under a provider that classifies the file, the constructor of a
    content plug-in returns the plug-in or raises a [PlugInError]. *)
Lemma init_outcome p cls filename text kw c :
  ProviderContentClassifier.classify p fs filename = Returns c →
  (∃ plugin, ContentPlugIn.init env fs cls filename text (Some p) kw
             = Returns plugin)
  ∨ (∃ msg, ContentPlugIn.init env fs cls filename text (Some p) kw
            = Raises (PlugInError msg)).
Proof.
  intros Hc. unfold ContentPlugIn.init.
  pose proof (inspect_no_diverge cls filename text (Some p) kw) as Hnd.
  destruct (ContentPlugIn.inspect env cls filename text (Some p) kw)
    as [r|e|] eqn:E; [|right|done].
  - left. destruct cls; simpl in *;
      unfold ContentPlugIn.make_file_unit, ContentPlugIn.provider_classify.
    + rewrite Hc. simpl. by eexists.
    + destruct text as [e|text]; [done|].
      destruct (whitelists_dir p); [|rewrite Hc]; simpl; by eexists.
    + rewrite Hc. simpl. by eexists.
  - destruct e; by eexists.
Qed.

Lemma load_file_spec self filename text kw c :
  ProviderContentClassifier.classify (provider self) fs filename = Returns c →
  ∃ self',
    _load_file env fs self filename text kw = Returns self'
    ∧ provider self' = provider self
    ∧ is_loaded self' = is_loaded self
    ∧ unit_list self'
      = unit_list self ++ units_of env fs (provider self) kw (filename, text)
    ∧ whitelist_list self'
      = whitelist_list self
        ++ whitelists_of env fs (provider self) kw (filename, text)
    ∧ problem_list self'
      = problem_list self
        ++ option_list (problem_of env fs (provider self) kw (filename, text)).
Proof.
  intros Hc. unfold _load_file, units_of, whitelists_of, problem_of, plugin_of.
  simpl. rewrite Hc. simpl. destruct c as [[role base] [cls|]].
  - destruct (init_outcome (provider self) cls filename text kw _ Hc)
      as [[plugin ->]|[msg ->]].
    + eexists. split; [done|]. simpl. by rewrite app_nil_r.
    + eexists. split; [done|]. simpl. by rewrite !app_nil_r.
  - exists self. by rewrite !app_nil_r.
Qed.

Lemma load_files_spec self content kw :
  Forall (λ file, Py.startswith file.1 $"//" = false) content →
  ∃ self',
    load_files env fs self content kw = Returns self'
    ∧ provider self' = provider self
    ∧ is_loaded self' = is_loaded self
    ∧ unit_list self'
      = unit_list self
        ++ concat (units_of env fs (provider self) kw <$> content)
    ∧ whitelist_list self'
      = whitelist_list self
        ++ concat (whitelists_of env fs (provider self) kw <$> content)
    ∧ problem_list self'
      = problem_list self
        ++ omap (problem_of env fs (provider self) kw) content.
Proof.
  intros Hcontent. revert self.
  induction Hcontent as [|[filename text] content Hfile _ IH]; intros self.
  - exists self. by rewrite !app_nil_r.
  - simpl in Hfile.
    destruct (classify_returns (provider self) fs filename Hfile) as [c Hc].
    destruct (load_file_spec self filename text kw c Hc)
      as (self1 & Hload & Hp & Hl & Hu & Hw & Hpr).
    destruct (IH self1) as (self2 & Hload2 & Hp2 & Hl2 & Hu2 & Hw2 & Hpr2).
    exists self2. simpl. rewrite Hload. simpl. split; [done|].
    rewrite Hp2, Hl2, Hu2, Hw2, Hpr2, Hp, Hl, Hu, Hw, Hpr.
    rewrite <- !app_assoc. repeat split; try done.
    f_equal.
    by destruct (problem_of env fs (provider self) kw (filename, text)).
Qed.

Lemma load_file_no_raise self filename text kw e :
  _load_file env fs self filename text kw ≠ Raises e.
Proof.
  destruct (ProviderContentClassifier.classify (provider self) fs filename)
    as [c|e'|] eqn:Hc.
  - destruct (load_file_spec self filename text kw c Hc) as (? & -> & _).
    done.
  - by apply classify_no_raise in Hc.
  - unfold _load_file. by rewrite Hc.
Qed.

Lemma load_files_no_raise self content kw e :
  load_files env fs self content kw ≠ Raises e.
Proof.
  revert self. induction content as [|[filename text] content IH];
    intros self; simpl; [done|].
  pose proof (load_file_no_raise self filename text kw) as H.
  destruct (_load_file env fs self filename text kw); simpl; [apply IH| |done].
  by destruct (H e0).
Qed.

Lemma load_no_raise self content content_problems kw e :
  load env fs self content content_problems kw ≠ Raises e.
Proof.
  unfold load. pose proof (load_files_no_raise self content kw) as H.
  destruct (load_files env fs self content kw); simpl; [done| |done].
  by destruct (H e0).
Qed.

(** A load that does not return has met a file on which the
    classifier does not return; its path begins with two slashes. *)
Lemma load_files_diverges self content kw :
  load_files env fs self content kw = Diverges →
  Exists (λ file,
            ProviderContentClassifier.classify (provider self) fs file.1
            = Diverges
            ∧ Py.startswith file.1 $"//" = true) content.
Proof.
  revert self. induction content as [|[filename text] content IH];
    intros self; simpl; [done|].
  destruct (ProviderContentClassifier.classify (provider self) fs filename)
    as [c|e|] eqn:Hc.
  - destruct (load_file_spec self filename text kw c Hc)
      as (self1 & -> & Hp & _).
    simpl. intros H%IH. rewrite Hp in H. by apply Exists_cons_tl.
  - by apply classify_no_raise in Hc.
  - intros _. apply Exists_cons_hd. split; [done|]. simpl.
    destruct (Py.startswith filename $"//") eqn:E; [done|].
    destruct (classify_returns (provider self) fs filename E) as [c Hc'].
    congruence.
Qed.

Lemma load_diverges self content content_problems kw :
  load env fs self content content_problems kw = Diverges →
  Exists (λ file,
            ProviderContentClassifier.classify (provider self) fs file.1
            = Diverges
            ∧ Py.startswith file.1 $"//" = true) content.
Proof.
  unfold load. intros H. apply (load_files_diverges self content kw).
  by destruct (load_files env fs self content kw).
Qed.

(** Whenever the loop over the files returns, it has accumulated the
    contributions of the files in order. *)
Lemma load_files_returns self content kw self' :
  load_files env fs self content kw = Returns self' →
  provider self' = provider self
  ∧ is_loaded self' = is_loaded self
  ∧ unit_list self'
    = unit_list self
      ++ concat (units_of env fs (provider self) kw <$> content)
  ∧ whitelist_list self'
    = whitelist_list self
      ++ concat (whitelists_of env fs (provider self) kw <$> content)
  ∧ problem_list self'
    = problem_list self
      ++ omap (problem_of env fs (provider self) kw) content.
Proof.
  revert self. induction content as [|[filename text] content IH];
    intros self; simpl.
  { intros [= <-]. by rewrite !app_nil_r. }
  destruct (ProviderContentClassifier.classify (provider self) fs filename)
    as [c|e|] eqn:Hc.
  - destruct (load_file_spec self filename text kw c Hc)
      as (self1 & -> & Hp & Hl & Hu & Hw & Hpr).
    simpl. intros (Hp2 & Hl2 & Hu2 & Hw2 & Hpr2)%IH.
    rewrite Hp2, Hl2, Hu2, Hw2, Hpr2, Hp, Hl, Hu, Hw, Hpr.
    rewrite <- !app_assoc. repeat split; try done.
    f_equal.
    by destruct (problem_of env fs (provider self) kw (filename, text)).
  - by apply classify_no_raise in Hc.
  - unfold _load_file. by rewrite Hc.
Qed.

Lemma load_returns self content content_problems kw self' :
  load env fs self content content_problems kw = Returns self' →
  provider self' = provider self
  ∧ is_loaded self' = true
  ∧ unit_list self'
    = unit_list self
      ++ concat (units_of env fs (provider self) kw <$> content)
  ∧ whitelist_list self'
    = whitelist_list self
      ++ concat (whitelists_of env fs (provider self) kw <$> content)
  ∧ problem_list self'
    = problem_list self
      ++ omap (problem_of env fs (provider self) kw) content
      ++ content_problems.
Proof.
  unfold load.
  destruct (load_files env fs self content kw) as [self1| |] eqn:E;
    [|done..].
  apply load_files_returns in E as (Hp & _ & Hu & Hw & Hpr).
  simpl. intros [= <-]. simpl. rewrite Hpr, <- app_assoc. done.
Qed.

Lemma load_spec self content content_problems kw :
  Forall (λ file, Py.startswith file.1 $"//" = false) content →
  ∃ self',
    load env fs self content content_problems kw = Returns self'
    ∧ provider self' = provider self
    ∧ is_loaded self' = true
    ∧ unit_list self'
      = unit_list self
        ++ concat (units_of env fs (provider self) kw <$> content)
    ∧ whitelist_list self'
      = whitelist_list self
        ++ concat (whitelists_of env fs (provider self) kw <$> content)
    ∧ problem_list self'
      = problem_list self
        ++ omap (problem_of env fs (provider self) kw) content
        ++ content_problems.
Proof.
  intros Hcontent.
  destruct (load_files_spec self content kw Hcontent)
    as (self1 & Hload & Hp & Hl & Hu & Hw & Hpr).
  unfold load. rewrite Hload. simpl. eexists. split; [done|]. simpl.
  rewrite Hpr, <- app_assoc. done.
Qed.

(** A problem of a file is a [PlugInError], and a file with a problem
    contributes no unit and no white list. *)
Lemma problem_of_PlugInError p kw file e :
  problem_of env fs p kw file = Some e →
  (∃ msg, e = PlugInError msg)
  ∧ units_of env fs p kw file = []
  ∧ whitelists_of env fs p kw file = [].
Proof.
  unfold problem_of, units_of, whitelists_of, plugin_of.
  destruct (ProviderContentClassifier.classify p fs file.1)
    as [[[role base] [cls|]]| |] eqn:Hc; try done.
  destruct (init_outcome p cls file.1 file.2 kw _ Hc)
    as [[plugin ->]|[msg ->]]; [done|].
  intros [= <-]. split; [by eexists|done].
Qed.

(** The problem of a unit file that does not parse. *)
Lemma problem_of_syntax_error p kw filename text role base exc :
  ProviderContentClassifier.classify p fs filename
  = Returns (role, base, Some UnitPlugIn2) →
  rfc822.load_rfc822_records text (Some (FileTextSource filename)) None
  = inl exc →
  problem_of env fs p kw (filename, inr text)
  = Some (PlugInError (CannotLoadJobDefinitions filename exc)).
Proof.
  intros Hc Hparse. unfold problem_of, plugin_of. simpl. rewrite Hc.
  unfold ContentPlugIn.init. simpl. unfold load_records.
  by rewrite Hparse.
Qed.

End loader.

(** ** Extensions and the methods for unit sources and whitelists *)

Section extensions.
Implicit Types (s t filename dir : str) (c : ascii) (p : Provider1).
#[local] Arguments Ascii.eqb : simpl never.

Lemma bind_Returns {A B} (a : A) (k : A → outcome B) :
  (Returns a ≫= k) = k a.
Proof. done. Qed.

Lemma rfind1_not_in c s : c ∉ s → Py.rfind1 c s = 0.
Proof.
  intros H. pose proof (rfind1_spec c s) as Hs.
  destruct (Py.rfind1 c s); [done|].
  destruct Hs as (a & t & -> & _). exfalso. apply H.
  rewrite elem_of_app, elem_of_cons. tauto.
Qed.

Lemma rfind1_app c s t : c ∉ t → Py.rfind1 c (s ++ c :: t) = S (length s).
Proof.
  intros H. induction s as [|c0 s IH]; simpl.
  - by rewrite rfind1_not_in, Ascii.eqb_refl.
  - by rewrite IH.
Qed.

Lemma endswith_suffix s t : Py.endswith s t = true ↔ t `suffix_of` s.
Proof.
  unfold Py.endswith. rewrite startswith_prefix.
  symmetry. apply suffix_prefix_reverse.
Qed.

(** The extension of a file name that ends in [.whitelist] is empty
    or [.whitelist]. *)
Lemma splitext_whitelist filename :
  Py.endswith filename $".whitelist" = true →
  (Py.splitext filename).2 = [] ∨ (Py.splitext filename).2 = $".whitelist".
Proof.
  intros [stem ->]%endswith_suffix. unfold Py.splitext.
  change $".whitelist" with (Py.extsep :: $"whitelist").
  rewrite (rfind1_app Py.extsep stem $"whitelist")
    by (apply (bool_decide_eq_false_1 (_ ∈ _)); by_vm).
  destruct (_ && _); [right|by left]. simpl.
  by rewrite Nat.sub_0_r, drop_app_length.
Qed.

Lemma unit_rules_skip_whitelist p fs filename fn :
  Py.endswith filename $".whitelist" = true →
  declared p fn = true → fn = pxu_jobs ∨ fn = pxu_units →
  call p fs fn filename = Returns None.
Proof.
  intros Hext Hd [-> | ->]; simpl in *;
    apply truthy_Some in Hd as [dir Hd];
    unfold _classify_pxu_jobs, _classify_pxu_units, startswith_dir;
    rewrite Hd; simpl; destruct (Py.startswith filename dir); try done;
    destruct (splitext_whitelist filename Hext) as [-> | ->]; done.
Qed.

(** A file under the whitelists directory whose name ends in
    [.whitelist] is a legacy whitelist. *)
Lemma classify_whitelist p fs filename dir :
  whitelists_dir p = Some dir → truthy (whitelists_dir p) = true →
  Py.startswith filename dir = true →
  Py.endswith filename $".whitelist" = true →
  classify p fs filename
  = Returns (FileRole.legacy_whitelist, Some dir, Some WhiteListPlugIn2).
Proof.
  intros Hd Ht Hin Hext. unfold classify, classify_fn_list,
    _get_classify_fn_list. rewrite app_assoc.
  replace (when (whitelists_dir p) [whitelist]) with [whitelist]
    by (unfold when; by rewrite Ht).
  apply classify_loop_first.
  - apply Forall_app. unfold when. split.
    + destruct (truthy (jobs_dir p)) eqn:E; constructor; [|done].
      apply unit_rules_skip_whitelist; auto.
    + destruct (truthy (units_dir p)) eqn:E; constructor; [|done].
      apply unit_rules_skip_whitelist; auto.
  - unfold call, _classify_whitelist, startswith_dir.
    rewrite Hd, bind_Returns, Hin, Hext. done.
Qed.

(** The method of the units directory never matches a name whose
    extension, as [splitext] sees it, is not [.txt] or [.pxu]; under
    the units directory a name that ends in [.txt.in] is not a unit
    source for it. *)
Lemma classify_pxu_units_ext p filename (result : classification) :
  _classify_pxu_units p filename = Returns (Some result) →
  (Py.splitext filename).2 = $".txt" ∨ (Py.splitext filename).2 = $".pxu".
Proof.
  unfold _classify_pxu_units, startswith_dir.
  destruct (units_dir p) as [dir|]; [|done]. rewrite bind_Returns.
  destruct (Py.startswith filename dir); [|done].
  destruct (Py.in_tuple _ _) eqn:E; [|done]. intros _.
  unfold Py.in_tuple in E. cbn [existsb] in E.
  rewrite !orb_true_iff, !eqb_true in E.
  destruct E as [E|[E|[E|E]]]; [by left| |by right|done].
  by apply splitext_never_txt_in in E.
Qed.
End extensions.

(** C6 (the code departs from it): the method of the units directory
    compares the extension that [splitext] returns, which holds one
    dot at most, with [.txt.in]: a file [a.txt.in] under the units
    directory is classified as unknown, not as a unit source, while
    [a.txt] there and [a.txt.in] under the jobs directory are unit
    sources; the method of the jobs directory tests for [.in] and so
    takes [Makefile.in] for a unit source as well.  A file under the
    whitelists directory whose name ends in [.whitelist] is a legacy
    whitelist for [WhiteListPlugIn2]. *)
Theorem txt_in_under_units_dir (fs : FileSystem) :
  classify units_only_provider fs $"/p/units/a.txt.in"
  = Returns (FileRole.unknown, None, None)
  ∧ classify example_provider fs $"/p/units/a.txt.in"
    = Returns (FileRole.unknown, Some $"/p", None)
  ∧ classify example_provider fs $"/p/units/a.txt"
    = Returns (FileRole.unit_source, Some $"/p/units", Some UnitPlugIn2)
  ∧ classify example_provider fs $"/p/jobs/a.txt.in"
    = Returns (FileRole.unit_source, Some $"/p/jobs", Some UnitPlugIn2)
  ∧ classify example_provider fs $"/p/jobs/Makefile.in"
    = Returns (FileRole.unit_source, Some $"/p/jobs", Some UnitPlugIn2)
  ∧ (∀ filename, (Py.splitext filename).2 ≠ $".txt.in")
  ∧ (∀ p filename result,
       _classify_pxu_units p filename = Returns (Some result) →
       (Py.splitext filename).2 = $".txt"
       ∨ (Py.splitext filename).2 = $".pxu")
  ∧ (∀ p filename dir,
       whitelists_dir p = Some dir → truthy (whitelists_dir p) = true →
       Py.startswith filename dir = true →
       Py.endswith filename $".whitelist" = true →
       classify p fs filename
       = Returns (FileRole.legacy_whitelist, Some dir, Some WhiteListPlugIn2)).
Proof.
  do 5 (split; [by_vm|]).
  split; [apply splitext_never_txt_in|].
  split; [apply classify_pxu_units_ext|].
  intros p filename dir. apply classify_whitelist.
Qed.

(** A whitelist of the example provider. *)
Lemma txt_in_under_units_dir_witness :
  classify example_provider example_fs $"/p/whitelists/smoke.whitelist"
  = Returns (FileRole.legacy_whitelist, Some $"/p/whitelists",
             Some WhiteListPlugIn2).
Proof.
  apply (proj2 (proj2 (proj2 (proj2 (proj2 (proj2 (proj2
           (txt_in_under_units_dir example_fs)))))))); by_vm.
Defined.

(** ** Claims on the content loader *)

Lemma omap_all_None {A B} (f : A → option B) (l : list A) :
  Forall (λ x, f x = None) l → omap f l = [].
Proof. induction 1 as [|x l Hx _ IH]; simpl; [done|]. by rewrite Hx. Qed.

(** C1: [load] never raises.  Every enumerated file is classified and,
    when the classification names a plug-in class, loaded with it: a
    plug-in that fails does so with a [PlugInError], which is appended
    to [problem_list] as the one entry of that file, while the units
    and white lists of all other files are accumulated in order; the
    problems of the enumeration are appended last.  With exactly one
    failing file, for instance a unit source with a syntax error, the
    result holds the units of the other files and that one problem.
    The load returns whenever no path begins with two slashes; a load
    that does not return has met such a path, on which the loop of
    [_classify_vcs] does not exit. *)
Theorem load_contains_plugin_failures (env : Env) (fs : FileSystem)
    (self : ProviderContentLoader.t env) (content : list (str * LazyText))
    (content_problems : list exn) (kw : PlugInKwargs env) :
  let p := ProviderContentLoader.provider self in
  let load := ProviderContentLoader.load env fs self content
                content_problems kw in
  let problem_of := ProviderContentLoader.problem_of env fs p kw in
  let units_of := ProviderContentLoader.units_of env fs p kw in
  let whitelists_of := ProviderContentLoader.whitelists_of env fs p kw in
  (∀ e, load ≠ Raises e)
  ∧ (∀ self',
       load = Returns self' →
       ProviderContentLoader.is_loaded self' = true
       ∧ ProviderContentLoader.unit_list self'
         = ProviderContentLoader.unit_list self
           ++ concat (units_of <$> content)
       ∧ ProviderContentLoader.whitelist_list self'
         = ProviderContentLoader.whitelist_list self
           ++ concat (whitelists_of <$> content)
       ∧ ProviderContentLoader.problem_list self'
         = ProviderContentLoader.problem_list self
           ++ omap problem_of content ++ content_problems)
  ∧ (Forall (λ file, Py.startswith file.1 $"//" = false) content →
     ∃ self', load = Returns self')
  ∧ (load = Diverges →
     Exists (λ file, classify p fs file.1 = Diverges
                     ∧ Py.startswith file.1 $"//" = true) content)
  ∧ (∀ file e,
       problem_of file = Some e →
       (∃ msg, e = PlugInError msg)
       ∧ units_of file = [] ∧ whitelists_of file = [])
  ∧ (∀ filename text role base exc,
       classify p fs filename = Returns (role, base, Some UnitPlugIn2) →
       rfc822.load_rfc822_records text (Some (FileTextSource filename)) None
       = inl exc →
       problem_of (filename, inr text)
       = Some (PlugInError (CannotLoadJobDefinitions filename exc)))
  ∧ (∀ before bad after e,
       content = before ++ bad :: after →
       Forall (λ file, Py.startswith file.1 $"//" = false) content →
       problem_of bad = Some e →
       Forall (λ file, problem_of file = None) (before ++ after) →
       ∃ self',
         load = Returns self'
         ∧ ProviderContentLoader.unit_list self'
           = ProviderContentLoader.unit_list self
             ++ concat (units_of <$> before ++ after)
         ∧ ProviderContentLoader.problem_list self'
           = ProviderContentLoader.problem_list self
             ++ [e] ++ content_problems).
Proof.
  intros p load problem_of units_of whitelists_of.
  subst load problem_of units_of whitelists_of p.
  split; [intros e; apply load_no_raise|].
  split.
  { intros self' (_ & Hrest)%load_returns. done. }
  split.
  { intros Hcontent.
    destruct (load_spec env fs self content content_problems kw Hcontent)
      as (self' & Hload & _).
    by exists self'. }
  split; [apply load_diverges|].
  split; [apply problem_of_PlugInError|].
  split; [apply problem_of_syntax_error|].
  intros before bad after e -> Hcontent Hbad Hothers.
  destruct (load_spec env fs self _ content_problems kw Hcontent)
    as (self' & Hload & _ & _ & Hunits & _ & Hproblems).
  exists self'. split; [done|].
  apply Forall_app in Hothers as [Hbefore Hafter].
  destruct (problem_of_PlugInError env fs _ kw bad e Hbad) as (_ & Hnone & _).
  split.
  - rewrite Hunits. f_equal. rewrite !fmap_app, !concat_app. simpl.
    by rewrite Hnone.
  - rewrite Hproblems. f_equal. rewrite omap_app.
    rewrite (omap_all_None _ _ Hbefore). cbn. rewrite Hbad.
    by rewrite (omap_all_None _ _ Hafter).
Qed.

(** One file of three has a syntax error: the load returns, the units
    of the two other files are there (the job, its file unit, and the
    file unit of the data file, whose text is never read), and the
    problem list holds the problem of the bad file followed by the
    problem of the enumeration. *)
Lemma load_contains_plugin_failures_witness :
  ∃ self',
    ProviderContentLoader.load example_env example_fs example_loader
      [good_file; bad_file; data_file] [IOError $"No such directory"]
      default_kwargs
    = Returns self'
    ∧ ProviderContentLoader.unit_list self'
      = [] ++ concat
                (ProviderContentLoader.units_of example_env example_fs
                   example_provider default_kwargs
                 <$> [good_file] ++ [data_file])
    ∧ ProviderContentLoader.problem_list self'
      = [] ++ [bad_file_problem] ++ [IOError $"No such directory"].
Proof.
  apply (proj2 (proj2 (proj2 (proj2 (proj2 (proj2
           (load_contains_plugin_failures example_env example_fs
              example_loader [good_file; bad_file; data_file]
              [IOError $"No such directory"] default_kwargs))))))
           [good_file] bad_file [data_file] bad_file_problem).
  - reflexivity.
  - repeat constructor; by_vm.
  - by_vm.
  - repeat constructor; by_vm.
Defined.

Example load_example :
  match ProviderContentLoader.load example_env example_fs example_loader
          [good_file; bad_file; data_file] [IOError $"No such directory"]
          default_kwargs
  with
  | Returns self' =>
      Some (ProviderContentLoader.is_loaded self',
            unit_cls <$> ProviderContentLoader.unit_list self',
            unit_virtual <$> ProviderContentLoader.unit_list self',
            ProviderContentLoader.problem_list self')
  | _ => None
  end
  = Some (true,
          [RegisteredUnit $"job"; FileUnit; FileUnit],
          [false; true; true],
          [bad_file_problem; IOError $"No such directory"]).
Proof. by_vm. Qed.

(** * Further facts about the code *)

(** ** The classifier: what a method that matches has tested *)

Lemma in_tuple_elem_of (x : str) (t : list str) :
  Py.in_tuple x t = true ↔ x ∈ t.
Proof.
  unfold Py.in_tuple. induction t as [|y t IH]; simpl.
  - by rewrite elem_of_nil.
  - rewrite orb_true_iff, IH, elem_of_cons, eqb_true. done.
Qed.

Lemma vcs_walk_inv p fuel (head : str) c :
  vcs_walk p fuel head = Returns (Some c) →
  c = (FileRole.vcs, base_dir p, None).
Proof.
  revert head. induction fuel as [|fuel IH]; intros head.
  - simpl. by destruct (_ && _).
  - rewrite vcs_walk_S. destruct (_ && _); [|done].
    destruct (Py.in_tuple _ _); [by intros [= <-]|].
    destruct (Py.eqb _ _); [done|]. apply IH.
Qed.

Section classifier_more.
Context (p : Provider1) (fs : FileSystem).
Implicit Types (filename dir : str) (fn : classify_fn).

Lemma startswith_dir_true filename d :
  startswith_dir filename d = Returns true →
  ∃ dir, d = Some dir ∧ dir `prefix_of` filename.
Proof.
  destruct d as [dir|]; simpl; [|done]. intros [= H].
  exists dir. split; [done|]. by apply startswith_prefix.
Qed.

(** Each method, when it matches, returns its own role, base and
    plug-in class, and has tested what its [if] tests. *)
Lemma call_inv fn filename role base cls :
  call p fs fn filename = Returns (Some (role, base, cls)) →
  match fn with
  | pxu_jobs =>
      role = FileRole.unit_source ∧ base = jobs_dir p ∧ cls = Some UnitPlugIn2
      ∧ startswith_dir filename (jobs_dir p) = Returns true
      ∧ Py.in_tuple (Py.splitext filename).2 [$".txt"; $".in"; $".pxu"] = true
  | pxu_units =>
      role = FileRole.unit_source ∧ base = units_dir p ∧ cls = Some UnitPlugIn2
      ∧ startswith_dir filename (units_dir p) = Returns true
      ∧ Py.in_tuple (Py.splitext filename).2 [$".txt"; $".txt.in"; $".pxu"]
        = true
  | whitelist =>
      role = FileRole.legacy_whitelist ∧ base = whitelists_dir p
      ∧ cls = Some WhiteListPlugIn2
      ∧ startswith_dir filename (whitelists_dir p) = Returns true
      ∧ Py.endswith filename $".whitelist" = true
  | data =>
      role = FileRole.data ∧ base = data_dir p
      ∧ cls = Some ProviderContentPlugIn
      ∧ startswith_dir filename (data_dir p) = Returns true
  | exec =>
      role = exec_role fs filename ∧ base = bin_dir p
      ∧ cls = Some ProviderContentPlugIn
      ∧ startswith_dir filename (bin_dir p) = Returns true
      ∧ access_x fs filename = true
  | built_exec =>
      role = exec_role fs filename ∧ base = build_bin_dir p
      ∧ cls = Some ProviderContentPlugIn
      ∧ startswith_dir filename (build_bin_dir p) = Returns true
      ∧ access_x fs filename = true
      ∧ ∃ executables,
          EXECUTABLES p fs = Returns executables
          ∧ Py.in_tuple (Py.basename filename) executables = true
  | built_i18n =>
      role = FileRole.i18n ∧ base = build_bin_dir p
      ∧ cls = Some ProviderContentPlugIn
      ∧ startswith_dir filename (build_mo_dir p) = Returns true
      ∧ (Py.splitext filename).2 = $".mo"
  | build =>
      role = FileRole.build ∧ base = build_dir p ∧ cls = None
      ∧ startswith_dir filename (build_dir p) = Returns true
  | po =>
      role = FileRole.src ∧ base = base_dir p ∧ cls = None
      ∧ Some (Py.dirname filename) = po_dir p
  | src =>
      role = FileRole.src ∧ base = base_dir p ∧ cls = None
      ∧ startswith_dir filename (src_dir p) = Returns true
  | legal =>
      role = FileRole.legal ∧ base = base_dir p
      ∧ cls = Some ProviderContentPlugIn
      ∧ Py.basename filename ∈ LEGAL_SET
  | docs =>
      role = FileRole.docs ∧ base = base_dir p
      ∧ cls = Some ProviderContentPlugIn
      ∧ Py.basename filename ∈ DOC_SET
  | manage_py =>
      role = FileRole.manage_py ∧ base = base_dir p ∧ cls = None
      ∧ ∃ b, base_dir p = Some b ∧ Py.path_join b [$"manage.py"] = filename
  | vcs => role = FileRole.vcs ∧ base = base_dir p ∧ cls = None ∧ True
  | unknown =>
      role = FileRole.unknown ∧ base = base_dir p ∧ cls = None ∧ True
  end.
Proof.
  destruct fn; simpl;
    unfold _classify_pxu_jobs, _classify_pxu_units, _classify_whitelist,
      _classify_data, _classify_exec, _classify_built_exec,
      _classify_built_i18n, _classify_build, _classify_po, _classify_src,
      _classify_legal, _classify_docs, _classify_manage_py, _classify_vcs,
      _classify_unknown.
  - destruct (startswith_dir filename (jobs_dir p)) as [[]| |]; simpl;
      [|done..]. case_match; [|done]. by intros [= <- <- <-].
  - destruct (startswith_dir filename (units_dir p)) as [[]| |]; simpl;
      [|done..]. case_match; [|done]. by intros [= <- <- <-].
  - destruct (startswith_dir filename (whitelists_dir p)) as [[]| |]; simpl;
      [|done..]. case_match; [|done]. by intros [= <- <- <-].
  - destruct (startswith_dir filename (data_dir p)) as [[]| |]; simpl;
      [|done..]. by intros [= <- <- <-].
  - destruct (startswith_dir filename (bin_dir p)) as [[]| |]; simpl;
      [|done..]. case_match; [|done]. by intros [= <- <- <-].
  - destruct (startswith_dir filename (build_bin_dir p)) as [[]| |]; simpl;
      [|done..]. destruct (access_x fs filename); [|done].
    destruct (EXECUTABLES p fs) as [executables| |]; simpl; [|done..].
    case_match; [|done]. intros [= <- <- <-]. repeat split; try done.
    by exists executables.
  - destruct (startswith_dir filename (build_mo_dir p)) as [[]| |]; simpl;
      [|done..]. destruct (Py.eqb _ _) eqn:E; [|done].
    apply eqb_true in E. by intros [= <- <- <-].
  - destruct (startswith_dir filename (build_dir p)) as [[]| |]; simpl;
      [|done..]. by intros [= <- <- <-].
  - destruct (bool_decide _) eqn:E; [|done].
    apply bool_decide_eq_true in E. simpl.
    case_match; [|done]. by intros [= <- <- <-].
  - destruct (startswith_dir filename (src_dir p)) as [[]| |]; simpl;
      [|done..]. by intros [= <- <- <-].
  - destruct (Py.in_tuple _ _) eqn:E; [|done].
    apply in_tuple_elem_of in E. by intros [= <- <- <-].
  - destruct (Py.in_tuple _ _) eqn:E; [|done].
    apply in_tuple_elem_of in E. by intros [= <- <- <-].
  - destruct (base_dir p) as [b|]; [|done].
    destruct (Py.eqb _ _) eqn:E; [|done]. apply eqb_true in E.
    intros [= <- <- <-]. repeat split; try done. by exists b.
  - case_match; [by intros [= <- <- <-]|].
    by intros [= <- <- <-]%vcs_walk_inv.
  - by intros [= <- <- <-].
Qed.

Lemma classify_inv filename c :
  classify p fs filename = Returns c →
  ∃ fn, declared p fn = true ∧ call p fs fn filename = Returns (Some c).
Proof.
  intros (before & fn & after & Hl & _ & Hfn)%classify_loop_inv.
  exists fn. split; [|done]. apply elem_of_classify_fn_list.
  unfold classify_fn_list in *. rewrite Hl.
  rewrite elem_of_app, elem_of_cons. tauto.
Qed.

(** Without a base directory there is no method for version control
    in the list, and the classifier returns on every path. *)
Lemma classify_flat_layout filename :
  truthy (base_dir p) = false →
  ∃ role base cls,
    classify p fs filename = Returns (role, base, cls)
    ∧ role ∉ [FileRole.legal; FileRole.docs; FileRole.manage_py;
              FileRole.vcs].
Proof.
  intros Hbase.
  destruct (classify p fs filename) as [[[role base] cls]|e|] eqn:E.
  - exists role, base, cls. split; [done|].
    apply classify_inv in E as (fn & Hd & Hfn). apply call_inv in Hfn.
    rewrite !not_elem_of_cons.
    destruct fn; destruct Hfn as (-> & _); simpl in Hd;
      try congruence; try (unfold exec_role; case_match);
      repeat split; done || apply not_elem_of_nil.
  - by apply classify_no_raise in E.
  - apply classify_loop_diverges in E as (fn & Hin & Hfn).
    apply call_no_diverge in Hfn as [-> _].
    apply elem_of_classify_fn_list in Hin. simpl in Hin. congruence.
Qed.

(** X1: the role that [classify] returns determines the plug-in class
    it returns with it (unit sources go to [UnitPlugIn2], legacy
    whitelists to [WhiteListPlugIn2], data, executables, catalogs,
    legal files and documents to [ProviderContentPlugIn], and files of
    the other roles to no plug-in), and the base it returns is one of
    the directory attributes of that role; the base of a translation
    catalog is the [build/bin] directory, not [build_mo_dir]. *)
Theorem classify_role_plugin_base filename role base cls :
  classify p fs filename = Returns (role, base, cls) →
  cls = plugin_cls_of_role role ∧ base ∈ base_dirs_of_role p role.
Proof.
  intros (fn & _ & Hfn)%classify_inv. apply call_inv in Hfn.
  destruct fn; destruct Hfn as (-> & -> & -> & Hrest);
    try (split; [done|repeat constructor]).
  - unfold exec_role. case_match; (split; [done|repeat constructor]).
  - unfold exec_role. case_match; (split; [done|repeat constructor]).
Qed.

(** X2: a file is classified as a script or as a binary only if it can
    be executed ([os.access] with [X_OK]), and then as a script exactly
    when its first two bytes are [#!]. *)
Theorem classify_executable filename role base cls :
  classify p fs filename = Returns (role, base, cls) →
  role = FileRole.script ∨ role = FileRole.binary →
  access_x fs filename = true
  ∧ (role = FileRole.script ↔ read2 fs filename = $"#!").
Proof.
  intros (fn & _ & Hfn)%classify_inv Hrole. apply call_inv in Hfn.
  destruct fn; destruct Hfn as (-> & -> & -> & Hrest);
    try (by destruct Hrole).
  - destruct Hrest as (_ & Hx). split; [done|]. unfold exec_role.
    destruct (Py.eqb _ _) eqn:E.
    + apply eqb_true in E. done.
    + apply eqb_false in E. done.
  - destruct Hrest as (_ & Hx & _). split; [done|]. unfold exec_role.
    destruct (Py.eqb _ _) eqn:E.
    + apply eqb_true in E. done.
    + apply eqb_false in E. done.
Qed.

(** X3: with a jobs directory declared, a file is classified as a unit
    source of that directory exactly when the name of the directory is
    a prefix of its name, as strings, and the last extension of the
    name is [.txt], [.in] or [.pxu]; so a file of a sibling directory
    whose name merely begins like the jobs directory is taken for a
    unit source as well. *)
Theorem classify_jobs_iff filename dir :
  jobs_dir p = Some dir → dir ≠ [] →
  classify p fs filename
  = Returns (FileRole.unit_source, Some dir, Some UnitPlugIn2)
  ↔ dir `prefix_of` filename
    ∧ (Py.splitext filename).2 ∈ [$".txt"; $".in"; $".pxu"].
Proof.
  intros Hjobs Hdir. split.
  - intros (fn & _ & Hfn)%classify_inv. apply call_inv in Hfn.
    destruct fn; destruct Hfn as (Hrole & Hbase & Hcls & Hrest);
      try done.
    + destruct Hrest as [Hin Hext]. rewrite Hjobs in Hin.
      injection Hin as Hin. apply startswith_prefix in Hin.
      by apply in_tuple_elem_of in Hext.
    + destruct Hrest as [Hin Hext]. rewrite <- Hbase in Hin.
      injection Hin as Hin. apply startswith_prefix in Hin.
      split; [done|]. apply in_tuple_elem_of in Hext.
      rewrite !elem_of_cons in Hext. rewrite !elem_of_cons.
      destruct Hext as [?|[E|[?|E]]]; [tauto| |tauto|].
      * by apply splitext_never_txt_in in E.
      * by apply elem_of_nil in E.
  - intros [Hin Hext]. unfold classify, classify_fn_list,
      _get_classify_fn_list, when.
    replace (truthy (jobs_dir p)) with true
      by (rewrite Hjobs; by destruct dir).
    apply (classify_loop_first p fs [] pxu_jobs); [done|].
    unfold call, _classify_pxu_jobs, startswith_dir. rewrite Hjobs.
    apply startswith_prefix in Hin. apply in_tuple_elem_of in Hext.
    simpl. rewrite Hin. simpl in *. by rewrite Hext.
Qed.

End classifier_more.

(** ** Paths: the last slash *)

Section paths_more.
Implicit Types (s t a : str) (c d : ascii).
#[local] Arguments Ascii.eqb : simpl never.

(** [rstrip] stops at a character other than the one it strips. *)
Lemma rstrip_char_app_keep c s d t :
  d ≠ c →
  Py.rstrip_char c (s ++ d :: t) = s ++ d :: Py.rstrip_char c t.
Proof.
  intros Hd. induction s as [|e s IH]; simpl.
  - destruct (Py.rstrip_char c t); [|done].
    apply ascii_eqb_false in Hd. by rewrite Hd.
  - rewrite IH. by destruct s.
Qed.

Lemma rstrip_char_all c s :
  forallb (Ascii.eqb c) s = true → Py.rstrip_char c s = [].
Proof.
  induction s as [|d s IH]; simpl; [done|].
  intros [Hd Hs]%andb_true_iff. rewrite IH by done.
  rewrite Ascii.eqb_sym in Hd. by rewrite Hd.
Qed.

(** What [rstrip] removes is a run of the stripped character. *)
Lemma rstrip_char_spec c s :
  ∃ t, s = Py.rstrip_char c s ++ t ∧ forallb (Ascii.eqb c) t = true.
Proof.
  induction s as [|d s (t & Hs & Ht)]; simpl; [by exists []|].
  destruct (Py.rstrip_char c s) as [|e r] eqn:E.
  - simpl in Hs. subst t. destruct (Ascii.eqb d c) eqn:Hd.
    + exists (d :: s). split; [done|]. simpl.
      rewrite Ascii.eqb_sym in Hd. by rewrite Hd.
    + exists s. done.
  - exists t. split; [|done]. simpl. by rewrite Hs at 1.
Qed.

Lemma all_sep_app s t : Py.all_sep (s ++ t) = Py.all_sep s && Py.all_sep t.
Proof. apply forallb_app. Qed.

Lemma last_occurrence c s :
  c ∈ s → ∃ a t, s = a ++ c :: t ∧ c ∉ t.
Proof.
  intros Hin. pose proof (rfind1_spec c s) as H.
  destruct (Py.rfind1 c s); [done|].
  destruct H as (a & t & -> & _ & Ht). by exists a, t.
Qed.

(** [os.path.split] on a path without a slash, and at its last slash. *)
Lemma path_split_no_sep t : Py.sep ∉ t → Py.path_split t = ([], t).
Proof.
  intros Ht. unfold Py.path_split. by rewrite rfind1_not_in.
Qed.

Lemma path_split_last a t :
  Py.sep ∉ t →
  Py.path_split (a ++ Py.sep :: t)
  = (if Py.all_sep a then a ++ [Py.sep] else Py.rstrip_char Py.sep a, t).
Proof.
  intros Ht. unfold Py.path_split. rewrite rfind1_app by done.
  rewrite (cons_middle Py.sep a t), app_assoc.
  replace (S (length a)) with (length (a ++ [Py.sep]))
    by (rewrite length_app; simpl; lia).
  rewrite take_app_length, drop_app_length, all_sep_app. simpl.
  rewrite andb_true_r.
  replace (Py.eqb (a ++ [Py.sep]) []) with false
    by (symmetry; apply eqb_false; by destruct a).
  simpl. destruct (Py.all_sep a); [done|]. by rewrite rstrip_char_snoc.
Qed.

Lemma dirname_path_split s : Py.dirname s = (Py.path_split s).1.
Proof. reflexivity. Qed.

Lemma rfind1_dir_prefix s t :
  dir_prefix s → Py.sep ∉ t → Py.rfind1 Py.sep (s ++ t) = length s.
Proof.
  intros [->|[a ->]] Ht.
  - by rewrite rfind1_not_in.
  - rewrite <- app_assoc. simpl. rewrite rfind1_app by done.
    rewrite length_app. simpl. lia.
Qed.

Lemma basename_dir_prefix s t :
  dir_prefix s → Py.sep ∉ t → Py.basename (s ++ t) = t.
Proof.
  intros Hs Ht. unfold Py.basename.
  by rewrite rfind1_dir_prefix, drop_app_length.
Qed.

Lemma startswith_nil_sep t :
  Py.sep ∉ t → Py.startswith t [Py.sep] = false.
Proof.
  destruct t as [|c t]; [done|]. intros Hc%not_elem_of_cons.
  simpl. rewrite andb_true_r. apply ascii_eqb_false. by destruct Hc.
Qed.

(** One step of [os.path.join] keeps the first path as a prefix unless
    the second one is absolute. *)
Lemma join2_prefix s t :
  Py.startswith t [Py.sep] = false →
  s `prefix_of` Py.join2 s t ∧ (s ≠ [] → Py.join2 s t ≠ []).
Proof.
  intros Ht. unfold Py.join2. rewrite Ht.
  destruct (_ || _); (split; [by eexists | by destruct s]).
Qed.

Lemma path_join_prefix s (l : list str) :
  Forall (λ t, Py.startswith t [Py.sep] = false) l →
  s `prefix_of` Py.path_join s l ∧ (s ≠ [] → Py.path_join s l ≠ []).
Proof.
  unfold Py.path_join. intros Hl. revert s.
  induction Hl as [|t l Ht _ IH]; intros s; simpl; [done|].
  destruct (join2_prefix s t Ht) as [Hp Hne].
  destruct (IH (Py.join2 s t)) as [Hp' Hne'].
  split; [by etrans | auto].
Qed.

(** [os.path.basename] undoes [os.path.join] with a name that holds
    no slash. *)
Lemma basename_join2 s t :
  Py.sep ∉ t → Py.basename (Py.join2 s t) = t.
Proof.
  intros Ht. unfold Py.join2. rewrite startswith_nil_sep by done.
  destruct (_ || _) eqn:E.
  - apply basename_dir_prefix; [|done].
    apply orb_true_iff in E as [E|E].
    + left. by apply eqb_true.
    + right. apply endswith_suffix in E as [a ->]. by exists a.
  - rewrite (cons_middle Py.sep s t), app_assoc.
    apply basename_dir_prefix; [right; by eexists|done].
Qed.

End paths_more.

(** ** The classifier: files of a version control system *)

Section vcs_facts.
Context (p : Provider1) (fs : FileSystem).
Implicit Types (filename head rest : str) (fn : classify_fn).
#[local] Arguments Ascii.eqb : simpl never.

(** The loop of [_classify_vcs] below a directory [pre ++ [x]] whose
    name is [.git] or [.bzr]: every head it visits has that directory
    as a prefix, until the directory itself is split. *)
Lemma vcs_walk_below (pre : str) (x : ascii) n :
  x ≠ Py.sep →
  (∀ b, base_dir p = Some b → length b ≤ length pre) →
  Py.in_tuple (Py.path_split (pre ++ [x])).2 [$".git"; $".bzr"] = true →
  ∀ rest fuel,
    length rest ≤ n → n < fuel →
    rest = [] ∨ (∃ r, rest = Py.sep :: r) →
    vcs_walk p fuel ((pre ++ [x]) ++ rest)
    = Returns (Some (FileRole.vcs, base_dir p, None)).
Proof.
  intros Hx Hbase Hvcs.
  assert (∀ rest,
    negb (bool_decide (Some ((pre ++ [x]) ++ rest) = base_dir p))
    && negb (Py.eqb ((pre ++ [x]) ++ rest) [])
    && negb (Py.eqb ((pre ++ [x]) ++ rest) [Py.sep]) = true) as Hcond.
  { intros rest. rewrite !andb_true_iff, !negb_true_iff. repeat split.
    - apply bool_decide_eq_false. intros Hb. symmetry in Hb.
      apply Hbase in Hb. rewrite !length_app in Hb. simpl in Hb. lia.
    - apply eqb_false. by destruct pre.
    - apply eqb_false. destruct pre as [|c [|c' pre]]; simpl; congruence. }
  induction n as [|n IH]; intros rest fuel Hlen Hfuel Hrest;
    (destruct fuel as [|fuel]; [lia|]); rewrite vcs_walk_S, Hcond.
  - destruct rest; [|simpl in Hlen; lia]. rewrite app_nil_r.
    by rewrite Hvcs.
  - destruct Hrest as [->|[r ->]].
    { rewrite app_nil_r. by rewrite Hvcs. }
    destruct (last_occurrence Py.sep (Py.sep :: r)) as (a & t & Heq & Ht);
      [by left|].
    rewrite Heq, app_assoc, (path_split_last _ t Ht).
    replace (Py.all_sep ((pre ++ [x]) ++ a)) with false.
    2:{ symmetry. rewrite !all_sep_app. simpl.
        apply ascii_eqb_false in Hx. rewrite Ascii.eqb_sym in Hx.
        rewrite Hx. by rewrite andb_false_r. }
    cbn [fst snd]. destruct (Py.in_tuple t _); [done|].
    rewrite <- (app_assoc pre [x] a). simpl.
    rewrite (rstrip_char_app_keep Py.sep pre x a Hx).
    pose proof (rstrip_char_prefix Py.sep a) as Hpre.
    pose proof (prefix_length _ _ Hpre) as Hle.
    assert (length a < length (Py.sep :: r)) as Hshort.
    { rewrite Heq, length_app. simpl. lia. }
    replace (Py.eqb _ _) with false.
    2:{ symmetry. apply eqb_false. intros E.
        apply (f_equal length) in E. rewrite !length_app in E.
        simpl in E. rewrite ?length_app in E. simpl in E. lia. }
    rewrite (cons_middle x pre), app_assoc. apply IH.
    + simpl in *. lia.
    + lia.
    + destruct (Py.rstrip_char Py.sep a) as [|c r'] eqn:E; [by left|].
      right. exists r'. f_equal.
      destruct a as [|c' a']; [by apply prefix_nil_inv in Hpre|].
      apply prefix_cons_inv_1 in Hpre. subst c'.
      by injection Heq as <- _.
Qed.

Lemma call_returns fn filename :
  declared p fn = true → fn ≠ vcs → ∃ r, call p fs fn filename = Returns r.
Proof.
  intros Hd Hfn. destruct (call p fs fn filename) as [r|e|] eqn:E.
  - by exists r.
  - by apply call_no_raise in E.
  - by apply call_no_diverge in E as [? _].
Qed.

(** The loop of [classify] gets as far as a method that matches when
    the methods before it return; the result is that of a method up to
    and including that one. *)
Lemma classify_loop_upto (Q : classify_fn → Prop) before fn after filename c :
  Forall (λ g, (∃ r, call p fs g filename = Returns r) ∧ Q g) before →
  call p fs fn filename = Returns (Some c) → Q fn →
  ∃ c' g,
    classify_loop p fs (before ++ fn :: after) filename = Returns c'
    ∧ Q g ∧ call p fs g filename = Returns (Some c').
Proof.
  intros Hbefore Hfn HQ.
  induction Hbefore as [|g before [[r Hg] HQg] _ IH]; simpl.
  - exists c, fn. by rewrite Hfn.
  - rewrite Hg. simpl. destruct r as [c'|]; [|done].
    by exists c', g.
Qed.

Lemma Forall_when (P : classify_fn → Prop) d fns :
  (truthy d = true → Forall P fns) → Forall P (when d fns).
Proof. unfold when. destruct (truthy d); [auto|by constructor]. Qed.

(** X4: below the base directory, a file inside a directory named
    [.git] or [.bzr], at any depth, is a version control file for
    [_classify_vcs], whose loop exits there; so [classify] returns on
    it, also when the path begins with two slashes, and never with the
    role [unknown]. *)
Theorem classify_vcs_inside b mid v rest :
  base_dir p = Some b →
  v ∈ [$".git"; $".bzr"] →
  rest = [] ∨ (∃ r, rest = Py.sep :: r) →
  _classify_vcs p (b ++ mid ++ Py.sep :: v ++ rest)
  = Returns (Some (FileRole.vcs, Some b, None))
  ∧ (b ≠ [] →
     ∃ role base cls,
       classify p fs (b ++ mid ++ Py.sep :: v ++ rest)
       = Returns (role, base, cls)
       ∧ role ≠ FileRole.unknown).
Proof.
  intros Hb Hv Hrest.
  assert (_classify_vcs p (b ++ mid ++ Py.sep :: v ++ rest)
          = Returns (Some (FileRole.vcs, Some b, None))) as Hvcs.
  { unfold _classify_vcs. rewrite Hb. case_match; [done|]. rewrite <- Hb.
    assert (∃ pre x, v = pre ++ [x] ∧ x ≠ Py.sep ∧ Py.sep ∉ v)
      as (pre & x & Hpre & Hx & Hsep).
    { rewrite !elem_of_cons, elem_of_nil in Hv.
      destruct Hv as [->|[->|[]]].
      - exists $".gi", "t"%char. repeat split; [done|].
        apply (bool_decide_eq_false_1 (_ ∈ _)). by_vm.
      - exists $".bz", "r"%char. repeat split; [done|].
        apply (bool_decide_eq_false_1 (_ ∈ _)). by_vm. }
    replace (b ++ mid ++ Py.sep :: v ++ rest)
      with (((b ++ mid ++ Py.sep :: pre) ++ [x]) ++ rest).
    2:{ by rewrite Hpre, <- !app_assoc. }
    apply (vcs_walk_below _ x (length rest)); try done.
    - intros b' Hb'. rewrite Hb in Hb'. injection Hb' as <-.
      rewrite length_app. lia.
    - replace ((b ++ mid ++ Py.sep :: pre) ++ [x])
        with ((b ++ mid) ++ Py.sep :: v).
      2:{ by rewrite Hpre, <- !app_assoc. }
      rewrite (path_split_last _ v Hsep). cbn [snd].
      by apply in_tuple_elem_of.
    - rewrite !length_app. simpl. lia. }
  split; [done|]. intros Hne.
  assert (truthy (base_dir p) = true) as Htruthy.
  { rewrite Hb. by destruct b. }
  set (filename := b ++ mid ++ Py.sep :: v ++ rest) in *.
  assert (∃ before,
    classify_fn_list p = before ++ vcs :: [unknown]
    ∧ Forall (λ g, (∃ r, call p fs g filename = Returns r) ∧ g ≠ unknown)
        before) as (before & Hlist & Hbefore).
  { pose proof (eq_refl (classify_fn_list p)) as Hlist.
    unfold classify_fn_list at 2, _get_classify_fn_list in Hlist.
    unfold when at 11 in Hlist. rewrite Htruthy in Hlist.
    change [legal; docs; manage_py; vcs]
      with ([legal; docs; manage_py] ++ [vcs]) in Hlist.
    rewrite !app_assoc in Hlist.
    rewrite <- (app_assoc _ [vcs] [unknown]) in Hlist.
    eexists. split; [exact Hlist|].
    rewrite !Forall_app. repeat split;
      try (apply Forall_when; intros Hd);
      repeat (constructor; [split; [by apply call_returns|done]|]);
      constructor. }
  destruct (classify_loop_upto (λ g, g ≠ unknown) before vcs [unknown]
              filename (FileRole.vcs, Some b, None : option PlugInCls))
    as (c' & g & Hc' & Hg & Hcall); [done..|].
  destruct c' as [[role base] cls]. exists role, base, cls.
  unfold classify. rewrite Hlist. split; [done|].
  intros ->. apply call_inv in Hcall.
  destruct g; destruct Hcall as (Hrole & _); try done.
  - unfold exec_role in Hrole. by case_match.
  - unfold exec_role in Hrole. by case_match.
Qed.

End vcs_facts.

(** ** Defining the units of a file *)

Section plugins_more.
Context (env : Env) (fs : FileSystem).
Implicit Types (kw : PlugInKwargs env) (record : rfc822.RFC822Record).

(** X5: the loop over the records of a file returns the units of all
    records, one for each and in their order, exactly when every record
    can be defined; it raises exactly the exception of the first record
    that cannot be defined, whatever the records after it are. *)
Theorem define_units_first_failure provider v vk c ctx
    (records : list rfc822.RFC822Record) :
  let define := define_unit env provider v vk c ctx in
  (∀ units,
     define_units env provider v vk c ctx records = Returns units
     ↔ Forall2 (λ record unit, define record = Returns unit) records units)
  ∧ (∀ e,
       define_units env provider v vk c ctx records = Raises e
       ↔ ∃ before record after,
           records = before ++ record :: after
           ∧ Forall (λ r, ∃ unit, define r = Returns unit) before
           ∧ define record = Raises e).
Proof.
  intros define. subst define. split.
  - induction records as [|r records IH]; intros units; simpl.
    + split; [intros [= <-]; constructor | by intros ->%Forall2_nil_inv_l].
    + destruct (define_unit env provider v vk c ctx r) as [u|e|] eqn:E;
        simpl.
      * destruct (define_units env provider v vk c ctx records)
          as [us|e|] eqn:E'; simpl.
        -- split.
           ++ intros [= <-]. constructor; [done|]. by apply IH.
           ++ intros (u' & us' & Hu & Hus & ->)%Forall2_cons_inv_l.
              apply IH in Hus. congruence.
        -- split; [done|].
           intros (u' & us' & Hu & Hus & ->)%Forall2_cons_inv_l.
           by apply IH in Hus.
        -- split; [done|].
           intros (u' & us' & Hu & Hus & ->)%Forall2_cons_inv_l.
           by apply IH in Hus.
      * split; [done|].
        intros (u' & us' & Hu & Hus & ->)%Forall2_cons_inv_l. congruence.
      * split; [done|].
        intros (u' & us' & Hu & Hus & ->)%Forall2_cons_inv_l. congruence.
  - induction records as [|r records IH]; intros e; simpl.
    + split; [done|]. intros (before & record & after & H & _).
      by destruct before.
    + destruct (define_unit env provider v vk c ctx r) as [u|e'|] eqn:E;
        simpl.
      * destruct (define_units env provider v vk c ctx records)
          as [us|e'|] eqn:E'; simpl.
        -- split; [done|].
           intros (before & record & after & Hl & Hb & Hr).
           destruct before as [|r' before]; simplify_eq/=.
           { congruence. }
           apply Forall_cons in Hb as [_ Hb].
           assert (Returns us = Raises e) as H; [|done].
           apply IH. by exists before, record, after.
        -- rewrite IH. split.
           ++ intros (before & record & after & -> & Hb & Hr).
              exists (r :: before), record, after.
              split; [done|]. split; [|done]. constructor; [by eexists|done].
           ++ intros (before & record & after & Hl & Hb & Hr).
              destruct before as [|r' before]; simplify_eq/=.
              { congruence. }
              apply Forall_cons in Hb as [_ Hb].
              by exists before, record, after.
        -- by destruct (define_units_no_diverge env provider v vk c ctx
                          records).
      * split.
        -- intros [= <-]. by exists [], r, records.
        -- intros (before & record & after & Hl & Hb & Hr).
           destruct before as [|r' before]; simplify_eq/=.
           { congruence. }
           apply Forall_cons in Hb as [[u Hu] _]. congruence.
      * by destruct (define_unit_no_diverge env provider v vk c ctx r).
Qed.

Lemma find_error_None (issues : list Issue) :
  find (λ issue, is_error (severity issue)) issues = None
  ↔ Forall (λ issue, severity issue ≠ error) issues.
Proof.
  induction issues as [|i issues IH]; simpl; [by split; [constructor|]|].
  rewrite Forall_cons, <- IH.
  destruct i as [[] msg]; simpl; split; try done; try tauto.
Qed.

Lemma find_error_first (before after : list Issue) issue :
  Forall (λ i, severity i ≠ error) before → severity issue = error →
  find (λ issue, is_error (severity issue)) (before ++ issue :: after)
  = Some issue.
Proof.
  intros Hbefore Hissue. induction Hbefore as [|i before Hi _ IH]; simpl.
  - by rewrite Hissue.
  - destruct (severity i); done.
Qed.

(** X6: once the class of a record has built its unit, checking comes
    before validation: with [check] on, the first issue of severity
    [error] is the problem that is raised, issues of other severities
    before it are passed over and validation is not reached; without
    such an issue and with [validate] on, a validation error is the
    problem; and the unit is returned exactly when neither happens. *)
Theorem define_unit_check_then_validate provider v vk c ctx record
    from_rfc822_record unit :
  all_units env !! default $"job" (rfc822.data record !! $"unit")
  = Some from_rfc822_record →
  from_rfc822_record record provider = inr unit →
  let define := define_unit env provider v vk c ctx record in
  (∀ before issue after,
     c = true →
     unit_check env unit ctx = before ++ issue :: after →
     Forall (λ i, severity i ≠ error) before →
     severity issue = error →
     define = Raises (PlugInError (ProblemInUnitDefinition issue)))
  ∧ (∀ exc,
       (c = true →
        Forall (λ i, severity i ≠ error) (unit_check env unit ctx)) →
       v = true → unit_validate env unit vk = Some exc →
       define
       = Raises (PlugInError (ProblemInField (field exc) (problem exc))))
  ∧ (define = Returns unit
     ↔ (c = true →
        Forall (λ i, severity i ≠ error) (unit_check env unit ctx))
       ∧ (v = true → unit_validate env unit vk = None)).
Proof.
  intros Hkind Hctor define. subst define.
  unfold define_unit, _get_unit_cls. rewrite Hkind, Hctor.
  split; [|split].
  - intros before issue after -> -> Hbefore Hissue.
    by rewrite find_error_first.
  - intros exc Hcheck -> Hexc.
    replace (if c then _ else _) with (@None Issue).
    2:{ destruct c; [|done]. symmetry. by apply find_error_None, Hcheck. }
    by rewrite Hexc.
  - destruct c, v; simpl.
    + destruct (find _ _) eqn:E.
      * split; [done|]. intros [H _]. specialize (H eq_refl).
        apply find_error_None in H. congruence.
      * apply find_error_None in E.
        destruct (unit_validate env unit vk) eqn:E'.
        -- split; [done|]. intros [_ H]. by specialize (H eq_refl).
        -- done.
    + destruct (find _ _) eqn:E.
      * split; [done|]. intros [H _]. specialize (H eq_refl).
        apply find_error_None in H. congruence.
      * apply find_error_None in E. done.
    + destruct (unit_validate env unit vk) eqn:E'.
      * split; [done|]. intros [_ H]. by specialize (H eq_refl).
      * done.
    + done.
Qed.

(** X7: on a file that the provider classifies, [UnitPlugIn] and
    [UnitPlugIn2] agree: when the legacy plug-in loads, so does the
    other, with the same units in front of its file unit and with the
    white lists of the test plans among them; a [PlugInError] of the
    legacy plug-in is the [PlugInError] of the other, and any other
    exception of the legacy plug-in is wrapped by the other into
    [Cannot load]. *)
Theorem unit_plugins_agree p filename text kw (c : classification) :
  classify p fs filename = Returns c →
  match UnitPlugIn.init env filename text (Some p) kw with
  | Returns legacy =>
      ∃ units file_unit,
        UnitPlugIn._unit_list legacy
        = units ++ [UnitPlugIn._make_file_unit filename (Some p)]
        ∧ ContentPlugIn.make_file_unit fs filename (Some p) None None
          = Returns file_unit
        ∧ ContentPlugIn.init env fs UnitPlugIn2 filename (inr text) (Some p)
            kw
          = Returns
              (ContentPlugIn.mk UnitPlugIn2 filename units
                 (units ++ [file_unit])
                 (map (whitelist_of_test_plan env)
                    (filter is_test_plan units)))
  | Raises (PlugInError msg) =>
      ContentPlugIn.init env fs UnitPlugIn2 filename (inr text) (Some p) kw
      = Raises (PlugInError msg)
  | Raises e =>
      ContentPlugIn.init env fs UnitPlugIn2 filename (inr text) (Some p) kw
      = Raises (PlugInError (CannotLoad filename e))
  | Diverges => False
  end.
Proof.
  intros Hc. unfold UnitPlugIn.init, ContentPlugIn.init. simpl.
  destruct (load_records filename text) as [records|e|] eqn:Hload; simpl.
  - pose proof (define_units_no_diverge env (Some p) (validate kw)
                  (default ∅ (validation_kwargs kw)) (check kw) (context kw)
                  records) as Hnd.
    destruct (define_units env (Some p) (validate kw)
                (default ∅ (validation_kwargs kw)) (check kw) (context kw)
                records) as [units|e|] eqn:Hunits; simpl; [| |done].
    + unfold ContentPlugIn.make_file_unit, ContentPlugIn.provider_classify.
      rewrite Hc. simpl. eexists units, _. done.
    + by destruct e.
  - by destruct e.
  - unfold load_records in Hload. by case_match.
Qed.

End plugins_more.

(** ** The content loader: what a file contributes *)

Section loader_more.
Import ProviderContentLoader.
Context (env : Env) (fs : FileSystem).
Implicit Types (self : t env) (kw : PlugInKwargs env) (file : str * LazyText).

(** X8: a file that the classifier sends to [ProviderContentPlugIn]
    (data, executables, catalogs, legal files, documents) contributes
    exactly its virtual file unit, with the role and the base of the
    classification, no white list and never a problem; its text is not
    read, so it does not matter whether it can be. *)
Theorem content_plugin_never_reads_text p kw filename (text : LazyText)
    role base :
  classify p fs filename = Returns (role, base, Some ProviderContentPlugIn) →
  units_of env fs p kw (filename, text)
  = [file_unit_of filename (Some p) role base]
  ∧ whitelists_of env fs p kw (filename, text) = []
  ∧ problem_of env fs p kw (filename, text) = None.
Proof.
  intros Hc. unfold units_of, whitelists_of, problem_of, plugin_of. simpl.
  rewrite Hc. unfold ContentPlugIn.init. simpl.
  unfold ContentPlugIn.make_file_unit, ContentPlugIn.provider_classify.
  rewrite Hc. done.
Qed.

(** X9: a unit source or a whitelist whose text cannot be read is a
    problem of the load, not an exception of it: the exception of the
    read, wrapped into [Cannot load] unless it is a [PlugInError]
    already, is the problem of the file, which contributes no unit and
    no white list. *)
Theorem unreadable_text_is_a_problem p kw filename role base cls e :
  classify p fs filename = Returns (role, base, Some cls) →
  cls ≠ ProviderContentPlugIn →
  problem_of env fs p kw (filename, inl e)
  = Some (match e with
          | PlugInError msg => PlugInError msg
          | _ => PlugInError (CannotLoad filename e)
          end)
  ∧ units_of env fs p kw (filename, inl e) = []
  ∧ whitelists_of env fs p kw (filename, inl e) = [].
Proof.
  intros Hc Hcls. unfold units_of, whitelists_of, problem_of, plugin_of.
  simpl. rewrite Hc. unfold ContentPlugIn.init.
  destruct cls; [| |done]; simpl; by destruct e.
Qed.

(** X10: every file that is loaded without a problem is represented
    among its units by one virtual file unit that carries the role and
    the base of its classification: the last unit of a unit source, the
    first unit of a whitelist or of any other file. *)
Theorem loaded_file_has_file_unit p kw filename (text : LazyText)
    role base cls :
  classify p fs filename = Returns (role, base, Some cls) →
  problem_of env fs p kw (filename, text) = None →
  ∃ units,
    units_of env fs p kw (filename, text)
    = match cls with
      | UnitPlugIn2 => units ++ [file_unit_of filename (Some p) role base]
      | WhiteListPlugIn2 | ProviderContentPlugIn =>
          file_unit_of filename (Some p) role base :: units
      end.
Proof.
  intros Hc. unfold problem_of, units_of, plugin_of. simpl. rewrite Hc.
  destruct (init_outcome env fs p cls filename text kw _ Hc)
    as [[plugin Hinit]|[msg Hinit]]; rewrite Hinit; [|done]. intros _.
  unfold ContentPlugIn.init in Hinit.
  destruct (ContentPlugIn.inspect env cls filename text (Some p) kw)
    as [r|e|] eqn:E; [|by destruct e|done].
  destruct cls; simpl in Hinit;
    unfold ContentPlugIn.make_file_unit, ContentPlugIn.provider_classify
      in Hinit.
  - rewrite Hc in Hinit. simpl in Hinit. injection Hinit as <-.
    by exists r.
  - apply classify_inv in Hc as (fn & _ & Hfn). apply call_inv in Hfn.
    destruct fn; destruct Hfn as (-> & -> & Hcls & Hrest); try done.
    destruct Hrest as [(d & Hd & _)%startswith_dir_true _].
    rewrite Hd in Hinit |- *. simpl in Hinit.
    destruct text as [e|text]; [done|]. injection Hinit as <-.
    by eexists.
  - rewrite Hc in Hinit. simpl in Hinit. injection Hinit as <-.
    by exists [].
Qed.

(** The two indexes after the units of a file have been added. *)
Lemma index_units_lookup (units : list Unit)
    (id_map path_map : gmap (option str) (list Unit)) key :
  let maps := foldl (index_unit env) (id_map, path_map) units in
  default [] (maps.1 !! key)
  = default [] (id_map !! key)
    ++ filter (λ u, has_field env u $"id" = true ∧ unit_id env u = key) units
  ∧ default [] (maps.2 !! key)
    = default [] (path_map !! key)
      ++ filter (λ u, has_field env u $"path" = true ∧ unit_path env u = key)
           units.
Proof.
  revert id_map path_map.
  induction units as [|u units IH]; intros id_map path_map; cbv zeta.
  { cbn [foldl fst snd]. rewrite !filter_nil. by rewrite !app_nil_r. }
  cbn [foldl]. change (index_unit env (id_map, path_map) u)
    with (if has_field env u $"id"
          then dd_append (unit_id env u) u id_map else id_map,
          if has_field env u $"path"
          then dd_append (unit_path env u) u path_map else path_map).
  rewrite !filter_cons.
  destruct (IH (if has_field env u $"id"
                then dd_append (unit_id env u) u id_map else id_map)
               (if has_field env u $"path"
                then dd_append (unit_path env u) u path_map else path_map))
    as [Hid Hpath].
  cbv zeta in Hid, Hpath. rewrite Hid, Hpath. split.
  - destruct (has_field env u $"id"); unfold dd_append.
    + destruct (decide (unit_id env u = key)) as [->|Hne].
      * rewrite lookup_insert_eq. simpl.
        rewrite decide_True by done. by rewrite <- app_assoc.
      * rewrite lookup_insert_ne by done.
        rewrite decide_False by tauto. done.
    + rewrite decide_False by (intros [? _]; done). done.
  - destruct (has_field env u $"path"); unfold dd_append.
    + destruct (decide (unit_path env u = key)) as [->|Hne].
      * rewrite lookup_insert_eq. simpl.
        rewrite decide_True by done. by rewrite <- app_assoc.
      * rewrite lookup_insert_ne by done.
        rewrite decide_False by tauto. done.
    + rewrite decide_False by (intros [? _]; done). done.
Qed.

Lemma load_file_maps self filename text kw c :
  classify (provider self) fs filename = Returns c →
  ∃ self',
    _load_file env fs self filename text kw = Returns self'
    ∧ (id_map self', path_map self')
      = foldl (index_unit env) (id_map self, path_map self)
          (units_of env fs (provider self) kw (filename, text)).
Proof.
  intros Hc. unfold _load_file, units_of, plugin_of. simpl. rewrite Hc.
  simpl. destruct c as [[role base] [cls|]]; [|by exists self].
  destruct (init_outcome env fs (provider self) cls filename text kw _ Hc)
    as [[plugin ->]|[msg ->]].
  - eexists. split; [done|]. simpl.
    by destruct (foldl _ _ _).
  - eexists. split; [done|]. done.
Qed.

Lemma load_files_maps self content kw self' :
  load_files env fs self content kw = Returns self' →
  (id_map self', path_map self')
  = foldl (index_unit env) (id_map self, path_map self)
      (concat (units_of env fs (provider self) kw <$> content)).
Proof.
  revert self. induction content as [|[filename text] content IH];
    intros self; simpl.
  { by intros [= <-]. }
  destruct (classify (provider self) fs filename) as [c|e|] eqn:Hc.
  - destruct (load_file_maps self filename text kw c Hc)
      as (self1 & Hload & Hmaps).
    destruct (load_file_spec env fs self filename text kw c Hc)
      as (self1' & Hload' & Hp & _).
    rewrite Hload in Hload'. injection Hload' as <-.
    rewrite Hload. simpl. intros H%IH.
    by rewrite H, Hmaps, Hp, foldl_app.
  - by apply classify_no_raise in Hc.
  - unfold _load_file. by rewrite Hc.
Qed.

(** X11: a load appends to the entry of every identifier in [id_map]
    the loaded units that have an [id] field and that identifier, in
    the order in which they were loaded, and likewise to the entry of
    every path in [path_map]; nothing is removed or reordered.  So if
    the two indexes list, key by key, the units of [unit_list] before
    the load, as they do in a fresh loader, they do so after it. *)
Theorem load_indexes_units self content content_problems kw self' :
  load env fs self content content_problems kw = Returns self' →
  let with_id key := λ u,
    has_field env u $"id" = true ∧ unit_id env u = key in
  let with_path key := λ u,
    has_field env u $"path" = true ∧ unit_path env u = key in
  let loaded := concat (units_of env fs (provider self) kw <$> content) in
  (∀ key,
     default [] (id_map self' !! key)
     = default [] (id_map self !! key) ++ filter (with_id key) loaded
     ∧ default [] (path_map self' !! key)
       = default [] (path_map self !! key) ++ filter (with_path key) loaded)
  ∧ ((∀ key,
        default [] (id_map self !! key)
        = filter (with_id key) (unit_list self)
        ∧ default [] (path_map self !! key)
          = filter (with_path key) (unit_list self)) →
     ∀ key,
       default [] (id_map self' !! key)
       = filter (with_id key) (unit_list self')
       ∧ default [] (path_map self' !! key)
         = filter (with_path key) (unit_list self')).
Proof.
  intros Hload with_id with_path loaded.
  assert (∀ key,
     default [] (id_map self' !! key)
     = default [] (id_map self !! key) ++ filter (with_id key) loaded
     ∧ default [] (path_map self' !! key)
       = default [] (path_map self !! key) ++ filter (with_path key) loaded)
    as Hmaps.
  { intros key. unfold load in Hload.
    destruct (load_files env fs self content kw) as [self1| |] eqn:E;
      [|done..].
    apply load_files_maps in E. simpl in Hload. injection Hload as <-.
    simpl. pose proof (index_units_lookup loaded (id_map self)
                         (path_map self) key) as H.
    cbv zeta in H. fold loaded in E. rewrite <- E in H. exact H. }
  split; [done|]. intros Hinv key.
  apply load_returns in Hload as (_ & _ & Hunits & _).
  destruct (Hmaps key) as [-> ->]. destruct (Hinv key) as [-> ->].
  fold loaded in Hunits. by rewrite Hunits, !filter_app.
Qed.

(** X12: [load] does not start from empty lists: a second load of the
    same content appends the units, the white lists and the problems of
    the content once more, so that each of them is there twice. *)
Theorem load_twice_duplicates self content content_problems kw self1 self2 :
  load env fs self content content_problems kw = Returns self1 →
  load env fs self1 content content_problems kw = Returns self2 →
  let units := concat (units_of env fs (provider self) kw <$> content) in
  let whitelists :=
    concat (whitelists_of env fs (provider self) kw <$> content) in
  let problems :=
    omap (problem_of env fs (provider self) kw) content
    ++ content_problems in
  unit_list self2 = unit_list self ++ units ++ units
  ∧ whitelist_list self2 = whitelist_list self ++ whitelists ++ whitelists
  ∧ problem_list self2 = problem_list self ++ problems ++ problems.
Proof.
  intros (Hp & _ & Hu & Hw & Hpr)%load_returns
         (_ & _ & Hu2 & Hw2 & Hpr2)%load_returns units whitelists problems.
  subst units whitelists problems.
  rewrite Hp in Hu2, Hw2, Hpr2. rewrite Hu2, Hw2, Hpr2, Hu, Hw, Hpr.
  by rewrite <- !app_assoc.
Qed.

(** X13: under a provider without a base directory the classifier has
    no method for version control files, whose loop is the only code
    that may fail to return: every path is classified, with a role
    other than the root-level ones, and the load of any content
    returns, also when paths begin with two slashes. *)
Theorem load_without_base_dir self content content_problems kw :
  truthy (base_dir (provider self)) = false →
  (∀ filename,
     ∃ role base cls,
       classify (provider self) fs filename = Returns (role, base, cls)
       ∧ role ∉ [FileRole.legal; FileRole.docs; FileRole.manage_py;
                 FileRole.vcs])
  ∧ ∃ self', load env fs self content content_problems kw = Returns self'.
Proof.
  intros Hbase. split.
  { intros filename. by apply classify_flat_layout. }
  destruct (load env fs self content content_problems kw)
    as [self'|e|] eqn:E; [by eexists|..].
  - by apply load_no_raise in E.
  - apply load_diverges in E. apply Exists_exists in E as (file & _ & Hd & _).
    destruct (classify_flat_layout (provider self) fs file.1 Hbase)
      as (role & base & cls & Hc & _). congruence.
Qed.

End loader_more.

(** ** Names: test plans, namespaces and secure providers *)

Section names.
Implicit Types (s t pre stem ext filename : str) (c : ascii) (p : Provider1).
#[local] Arguments Ascii.eqb : simpl never.

Lemma splitext_scan_stem stem t :
  Py.splitext_scan (length stem) (stem ++ t)
  = negb (forallb (Ascii.eqb Py.extsep) stem).
Proof.
  induction stem as [|c stem IH]; simpl; [done|].
  rewrite (Ascii.eqb_sym Py.extsep c).
  destruct (Ascii.eqb c Py.extsep); [apply IH|done].
Qed.

(** [splitext] on a name whose last component is [stem.ext]: there is
    no extension when the stem consists of dots only. *)
Lemma splitext_stem pre stem ext :
  dir_prefix pre → Py.sep ∉ stem → Py.sep ∉ ext → Py.extsep ∉ ext →
  Py.splitext (pre ++ stem ++ Py.extsep :: ext)
  = if forallb (Ascii.eqb Py.extsep) stem
    then (pre ++ stem ++ Py.extsep :: ext, [])
    else (pre ++ stem, Py.extsep :: ext).
Proof.
  intros Hpre Hstem Hext Hdot. unfold Py.splitext.
  rewrite rfind1_dir_prefix; [|done|].
  2:{ rewrite elem_of_app, elem_of_cons. intros [?|[?|?]]; done. }
  rewrite (app_assoc pre stem), rfind1_app by done.
  rewrite <- (app_assoc pre stem), drop_app_length.
  replace (S (length (pre ++ stem)) - 1 - length pre) with (length stem)
    by (rewrite length_app; lia).
  rewrite splitext_scan_stem.
  replace (length pre <? S (length (pre ++ stem))) with true
    by (symmetry; apply Nat.ltb_lt; rewrite length_app; lia).
  simpl. destruct (forallb _ _); simpl; [done|].
  rewrite Nat.sub_0_r, (app_assoc pre stem).
  by rewrite take_app_length, drop_app_length.
Qed.

(** X14: the test plan that stands for a whitelist file
    [stem.whitelist] has the stem as its [id] and as its [name],
    whatever the directory of the file; but when the stem is empty or
    consists of dots only, [splitext] finds no extension and the whole
    file name, [.whitelist] included, is the [id]. *)
Theorem test_plan_id_of_filename pre stem text provider :
  dir_prefix pre → Py.sep ∉ stem →
  let unit :=
    make_test_plan_unit (pre ++ stem ++ $".whitelist") text provider in
  let name :=
    if forallb (Ascii.eqb Py.extsep) stem
    then stem ++ $".whitelist" else stem in
  unit_data unit !! $"id" = Some (VStr name)
  ∧ unit_data unit !! $"name" = Some (VStr name).
Proof.
  intros Hpre Hstem unit name.
  assert (Py.basename (Py.splitext (pre ++ stem ++ $".whitelist")).1 = name)
    as Hname.
  { subst name. change $".whitelist" with (Py.extsep :: $"whitelist").
    rewrite splitext_stem; [|done|done|..].
    2,3: apply (bool_decide_eq_false_1 (_ ∈ _)); by_vm.
    destruct (forallb _ _); cbn [fst]; rewrite basename_dir_prefix; try done.
    rewrite elem_of_app, elem_of_cons. intros [?|[?|Hin]]; [done..|].
    revert Hin. apply (bool_decide_eq_false_1 (_ ∈ _)). by_vm. }
  subst unit. unfold make_test_plan_unit, new_unit. cbn [unit_data].
  rewrite Hname. split.
  - rewrite lookup_insert_ne by done. by rewrite lookup_insert_eq.
  - rewrite lookup_insert_ne by done. rewrite lookup_insert_ne by done.
    by rewrite lookup_insert_eq.
Qed.

Lemma split_once_spec c s :
  match Py.split_once c s with
  | Some (a, rest) => s = a ++ c :: rest ∧ c ∉ a
  | None => c ∉ s
  end.
Proof.
  induction s as [|d s IH]; simpl; [apply not_elem_of_nil|].
  destruct (Ascii.eqb d c) eqn:E.
  - apply ascii_eqb_true in E. subst d. split; [done|apply not_elem_of_nil].
  - apply ascii_eqb_false in E.
    destruct (Py.split_once c s) as [[a rest]|].
    + destruct IH as [-> Ha]. split; [done|].
      rewrite not_elem_of_cons. split; [congruence|done].
    + rewrite not_elem_of_cons. split; [congruence|done].
Qed.

(** X15: the namespace of a provider holds no colon and is the part of
    the name before its first colon, the whole name when the name has
    no colon. *)
Theorem namespace_spec p :
  (":"%char ∉ namespace p)
  ∧ (name p = namespace p ∨ ∃ rest, name p = namespace p ++ ":"%char :: rest)
  ∧ (∀ ns rest,
       name p = ns ++ ":"%char :: rest → ":"%char ∉ ns → namespace p = ns).
Proof.
  unfold namespace. pose proof (split_once_spec rfc822.colon (name p)) as H.
  split; [|split].
  - destruct (Py.split_once _ _) as [[a rest]|]; [by destruct H|done].
  - destruct (Py.split_once _ _) as [[a rest]|]; [|by left].
    destruct H as [H _]. right. by exists rest.
  - intros ns rest Hname Hns. rewrite Hname.
    change ":"%char with rfc822.colon in *.
    by rewrite (split_once_app rfc822.colon ns rest Hns).
Qed.

Lemma all_sep_secure s :
  s ∈ get_secure_PROVIDERPATH_list →
  ∃ pre c, s = pre ++ [c] ∧ c ≠ Py.sep ∧ (∀ t, Py.all_sep (s ++ t) = false).
Proof.
  unfold get_secure_PROVIDERPATH_list.
  rewrite !elem_of_cons, elem_of_nil. intros [->|[->|[]]].
  - exists $"/usr/local/share/plainbox-providers-", "1"%char. done.
  - exists $"/usr/share/plainbox-providers-", "1"%char. done.
Qed.

(** X16: a provider definition is marked secure exactly when its file
    lies directly inside one of the two system-wide directories: its
    name is one of them, one or more slashes, and a name without a
    slash.  A file in a subdirectory of them, or named by a relative
    path, is not secure. *)
Theorem secure_iff filename :
  Provider1PlugIn.secure filename = true
  ↔ ∃ d slashes name,
      d ∈ get_secure_PROVIDERPATH_list
      ∧ slashes ≠ [] ∧ Py.all_sep slashes = true ∧ (Py.sep ∉ name)
      ∧ filename = d ++ slashes ++ name.
Proof.
  unfold Provider1PlugIn.secure. rewrite in_tuple_elem_of. split.
  - intros Hd. rewrite dirname_path_split in Hd.
    destruct (decide (Py.sep ∈ filename)) as [Hin|Hnot].
    2:{ rewrite path_split_no_sep in Hd by done. simpl in Hd.
        unfold get_secure_PROVIDERPATH_list in Hd.
        rewrite !elem_of_cons, elem_of_nil in Hd.
        by destruct Hd as [?|[?|[]]]. }
    apply last_occurrence in Hin as (a & name & -> & Hname).
    rewrite path_split_last in Hd by done. cbn [fst] in Hd.
    destruct (all_sep_secure _ Hd) as (pre & x & _ & _ & Hall).
    destruct (Py.all_sep a) eqn:Ha.
    { specialize (Hall []). rewrite app_nil_r in Hall.
      unfold Py.all_sep in *. rewrite forallb_app in Hall. simpl in Hall.
      rewrite Ha in Hall. done. }
    destruct (rstrip_char_spec Py.sep a) as (t & Hat & Ht).
    exists (Py.rstrip_char Py.sep a), (t ++ [Py.sep]), name.
    split; [done|]. split; [by destruct t|]. split.
    + unfold Py.all_sep. rewrite forallb_app, Ht. done.
    + split; [done|]. rewrite <- !app_assoc. simpl.
      rewrite app_assoc, <- Hat. done.
  - intros (d & slashes & name & Hd & Hne & Hall & Hname & ->).
    rewrite dirname_path_split.
    destruct (all_sep_secure _ Hd) as (pre & x & Hpre & Hx & Hnot).
    assert (∃ t, slashes = t ++ [Py.sep] ∧ Py.all_sep t = true)
      as (t & -> & Ht).
    { destruct (exists_last Hne) as (t & c & ->). exists t.
      unfold Py.all_sep in *. rewrite forallb_app in Hall.
      apply andb_true_iff in Hall as [Ht Hc]. simpl in Hc.
      rewrite andb_true_r in Hc. apply ascii_eqb_true in Hc. by subst c. }
    replace (d ++ (t ++ [Py.sep]) ++ name) with ((d ++ t) ++ Py.sep :: name)
      by (by rewrite <- !app_assoc).
    rewrite path_split_last by done. rewrite Hnot. cbn [fst].
    rewrite Hpre, <- app_assoc. simpl.
    rewrite rstrip_char_app_keep by done.
    by rewrite rstrip_char_all, <- Hpre.
Qed.

End names.

(** ** The directories of a provider *)

Section directories.
Implicit Types (p : Provider1).

Lemma append_if_not_nil (d : option str) :
  Forall (λ s, s ≠ []) (ProviderContentEnumerator.append_if d).
Proof. destruct d as [[|c s]|]; simpl; by repeat constructor. Qed.

Lemma append_if_truthy (d : option str) s :
  d = Some s → s ≠ [] → ProviderContentEnumerator.append_if d = [s].
Proof. intros -> Hs. by destruct s. Qed.

Lemma elem_of_append_if (d : option str) s :
  s ∈ ProviderContentEnumerator.append_if d → s ≠ [] ∧ Some s = d.
Proof.
  destruct d as [[|c t]|]; simpl; rewrite ?elem_of_nil; try done.
  by intros ->%list_elem_of_singleton.
Qed.

(** X17: the directories that the enumerator hands to the collection
    are never empty strings.  Under a provider with a base directory
    they are the base directory followed by its [src] and [build/bin]
    directories, which always count and lie below it, and by
    [build_mo_dir] when there is one; without a base directory they are
    among the six separate directories. *)
Theorem dir_list_spec p :
  Forall (λ d, d ≠ []) (ProviderContentEnumerator.dir_list p)
  ∧ (∀ b, base_dir p = Some b → b ≠ [] →
       ∃ src_path build_bin_path,
         src_dir p = Some src_path ∧ build_bin_dir p = Some build_bin_path
         ∧ ProviderContentEnumerator.dir_list p
           = [b; src_path; build_bin_path]
             ++ ProviderContentEnumerator.append_if (build_mo_dir p)
         ∧ b `prefix_of` src_path ∧ b `prefix_of` build_bin_path)
  ∧ (truthy (base_dir p) = false →
     ∀ d, d ∈ ProviderContentEnumerator.dir_list p →
          d ≠ [] ∧ Some d ∈ [units_dir p; jobs_dir p; data_dir p; bin_dir p;
                             locale_dir p; whitelists_dir p]).
Proof.
  split; [|split].
  - unfold ProviderContentEnumerator.dir_list.
    destruct (base_dir p) as [[|c s]|]; rewrite !Forall_app;
      repeat split; try apply append_if_not_nil.
    by repeat constructor.
  - intros b Hb Hne. unfold ProviderContentEnumerator.dir_list, src_dir,
      build_bin_dir. rewrite Hb.
    destruct (path_join_prefix b [$"src"]) as [Hp1 Hn1];
      [by repeat constructor|].
    destruct (path_join_prefix b [$"build"; $"bin"]) as [Hp2 Hn2];
      [by repeat constructor|].
    eexists _, _. split; [done|]. split; [done|].
    rewrite (append_if_truthy _ _ eq_refl), (append_if_truthy _ _ eq_refl)
      by auto.
    by destruct b.
  - intros Hbase d. unfold ProviderContentEnumerator.dir_list.
    destruct (base_dir p) as [[|c s]|]; [|done|];
      rewrite !elem_of_app, !elem_of_cons;
      intros [?%elem_of_append_if|[?%elem_of_append_if|[?%elem_of_append_if|
             [?%elem_of_append_if|[?%elem_of_append_if|?%elem_of_append_if]]]]];
      tauto.
Qed.

Section definition.
Import Provider1Definition.
Context (isdir : str → bool) (self : Provider1Definition.t).

Lemma if_isdir_implicit sub d :
  Forall (λ s, Py.startswith s [Py.sep] = false) sub →
  if_isdir isdir (implicit self sub) = Some d →
  isdir d = true
  ∧ ∃ l, location self = Value l ∧ d = Py.path_join l sub
         ∧ l `prefix_of` d.
Proof.
  intros Hsub. unfold if_isdir, implicit.
  destruct (location self) as [|l]; [done|].
  destruct (isdir _) eqn:E; [|done]. intros [= <-]. split; [done|].
  exists l. split; [done|]. split; [done|].
  by apply path_join_prefix.
Qed.

(** X18: the effective value of each directory of a provider
    definition is the value of its variable when that is set;
    otherwise it is either none or an existing directory below the
    location.  With the location unset, a directory that is unset has
    no effective value.  The effective locale directory falls back on
    [build/mo] only when [locale] under the location is not a
    directory. *)
Theorem effective_dirs_spec :
  Forall (λ '(explicit, effective),
            match explicit, effective with
            | Value v, _ => effective = Some v
            | Unset, Some d =>
                isdir d = true
                ∧ ∃ l, location self = Value l ∧ l `prefix_of` d
            | Unset, None => True
            end)
         (effective_dirs isdir self)
  ∧ (location self = Unset →
     Forall (λ '(explicit, effective),
               effective = match explicit with
                           | Value v => Some v
                           | Unset => None
                           end)
            (effective_dirs isdir self))
  ∧ (locale_dir self = Unset →
     ∀ l, location self = Value l →
          effective_locale_dir isdir self
          = if isdir (Py.path_join l [$"locale"])
            then Some (Py.path_join l [$"locale"])
            else if isdir (Py.path_join l [$"build"; $"mo"])
                 then Some (Py.path_join l [$"build"; $"mo"])
                 else None).
Proof.
  split; [|split].
  - unfold effective_dirs, effective_units_dir, effective_jobs_dir,
      effective_whitelists_dir, effective_data_dir, effective_bin_dir,
      effective_locale_dir, implicit_units_dir, implicit_jobs_dir,
      implicit_whitelists_dir, implicit_data_dir, implicit_bin_dir,
      implicit_locale_dir, implicit_build_locale_dir.
    repeat constructor.
    + destruct (units_dir self); [|done].
      destruct (if_isdir _ _) eqn:E; [|done].
      apply if_isdir_implicit in E as (? & ? & ? & _ & ?);
        [eauto | by repeat constructor].
    + destruct (jobs_dir self); [|done].
      destruct (if_isdir _ _) eqn:E; [|done].
      apply if_isdir_implicit in E as (? & ? & ? & _ & ?);
        [eauto | by repeat constructor].
    + destruct (whitelists_dir self); [|done].
      destruct (if_isdir _ _) eqn:E; [|done].
      apply if_isdir_implicit in E as (? & ? & ? & _ & ?);
        [eauto | by repeat constructor].
    + destruct (data_dir self); [|done].
      destruct (if_isdir _ _) eqn:E; [|done].
      apply if_isdir_implicit in E as (? & ? & ? & _ & ?);
        [eauto | by repeat constructor].
    + destruct (bin_dir self); [|done].
      destruct (if_isdir _ _) eqn:E; [|done].
      apply if_isdir_implicit in E as (? & ? & ? & _ & ?);
        [eauto | by repeat constructor].
    + destruct (locale_dir self); [|done].
      destruct (if_isdir _ (implicit self [$"locale"])) eqn:E.
      * apply if_isdir_implicit in E as (? & ? & ? & _ & ?);
          [eauto | by repeat constructor].
      * destruct (if_isdir _ (implicit self [$"build"; $"mo"])) eqn:E';
          [|done].
        apply if_isdir_implicit in E' as (? & ? & ? & _ & ?);
          [eauto | by repeat constructor].
  - intros Hloc.
    unfold effective_dirs, effective_units_dir, effective_jobs_dir,
      effective_whitelists_dir, effective_data_dir, effective_bin_dir,
      effective_locale_dir, implicit_units_dir, implicit_jobs_dir,
      implicit_whitelists_dir, implicit_data_dir, implicit_bin_dir,
      implicit_locale_dir, implicit_build_locale_dir, implicit.
    rewrite Hloc. simpl. repeat constructor.
  - intros Hlocale l Hloc.
    unfold effective_locale_dir, implicit_locale_dir,
      implicit_build_locale_dir, implicit, if_isdir.
    rewrite Hlocale, Hloc. cbv beta iota.
    destruct (isdir (Py.path_join l [$"locale"])); [done|].
    by destruct (isdir _).
Qed.

End definition.

End directories.

(** ** The executables of a provider and the classifier *)

Section executables_facts.
Context (fs : FileSystem) (listdir : str → (nat * str) + list str).
Implicit Types (p : Provider1) (name filename : str).

(** X19: when [src/EXECUTABLES] exists, the executables of [build/bin]
    that the provider lists are the names on the lines of that file
    that are not blank, each joined to [build/bin]; and every one of
    them whose name holds no slash, once it is there and can be
    executed, is an executable of [build/bin] for the classifier as
    well. *)
Theorem executables_hint_file p b :
  base_dir p = Some b →
  isfile fs (Py.path_join (Py.path_join b [$"src"]) [$"EXECUTABLES"]) = true →
  let build_bin := Py.path_join b [$"build"; $"bin"] in
  let names :=
    filter (λ name, name ≠ [])
      (map Py.strip
         (read_lines fs
            (Py.path_join (Py.path_join b [$"src"]) [$"EXECUTABLES"]))) in
  _get_build_bin_executable_list fs listdir p
  = Returns (map (λ name, Py.path_join build_bin [name]) names)
  ∧ ∀ name,
      name ∈ names → Py.sep ∉ name →
      access_x fs (Py.path_join build_bin [name]) = true →
      _classify_built_exec p fs (Py.path_join build_bin [name])
      = Returns (Some (exec_role fs (Py.path_join build_bin [name]),
                       Some build_bin, Some ProviderContentPlugIn)).
Proof.
  intros Hb Hfile build_bin names. split.
  - unfold _get_build_bin_executable_list, src_dir, build_bin_dir.
    rewrite Hb, Hfile. fold names. by destruct names.
  - intros name Hin Hsep Hx.
    unfold _classify_built_exec, EXECUTABLES, _get_EXECUTABLES,
      build_bin_dir, src_dir, startswith_dir.
    rewrite Hb, Hfile. fold build_bin. rewrite bind_Returns, Hx.
    change (Py.path_join build_bin [name]) with (Py.join2 build_bin name).
    destruct (join2_prefix build_bin name) as [Hpre _];
      [by apply startswith_nil_sep|].
    apply startswith_prefix in Hpre. rewrite Hpre. cbn [andb].
    rewrite bind_Returns, basename_join2 by done.
    replace (Py.in_tuple name _) with true; [done|].
    symmetry. apply in_tuple_elem_of.
    subst names. apply list_elem_of_filter in Hin as [_ Hin]. done.
Qed.

(** X20: when there is no [src/EXECUTABLES], the classifier takes no
    file at all for an executable of [build/bin], while the provider
    lists every file of [build/bin] that can be executed; a [build/bin]
    that does not exist gives the empty list, and any other error of
    the listing is raised. *)
Theorem built_exec_without_hint_file p b :
  base_dir p = Some b →
  isfile fs (Py.path_join (Py.path_join b [$"src"]) [$"EXECUTABLES"]) = false →
  let build_bin := Py.path_join b [$"build"; $"bin"] in
  (∀ filename, _classify_built_exec p fs filename = Returns None)
  ∧ _get_build_bin_executable_list fs listdir p
    = _get_executables fs listdir (Some build_bin)
  ∧ (∀ items,
       listdir build_bin = inr items →
       _get_build_bin_executable_list fs listdir p
       = Returns (filter (λ filename, access_x fs filename = true)
                    (map (λ name, Py.path_join build_bin [name]) items)))
  ∧ (∀ msg,
       listdir build_bin = inl (ENOENT, msg) →
       _get_build_bin_executable_list fs listdir p = Returns [])
  ∧ (∀ errno msg,
       listdir build_bin = inl (errno, msg) → errno ≠ ENOENT →
       _get_build_bin_executable_list fs listdir p = Raises (IOError msg)).
Proof.
  intros Hb Hfile build_bin.
  assert (_get_build_bin_executable_list fs listdir p
          = _get_executables fs listdir (Some build_bin)) as Hlist.
  { unfold _get_build_bin_executable_list, src_dir, build_bin_dir.
    by rewrite Hb, Hfile. }
  split; [|split; [done|split; [|split]]].
  - intros filename.
    unfold _classify_built_exec, EXECUTABLES, _get_EXECUTABLES,
      build_bin_dir, src_dir, startswith_dir.
    rewrite Hb, Hfile, bind_Returns. by destruct (_ && _).
  - intros items Hitems. rewrite Hlist. unfold _get_executables.
    by rewrite Hitems.
  - intros msg Hmsg. rewrite Hlist. unfold _get_executables.
    by rewrite Hmsg.
  - intros errno msg Hmsg Herrno. rewrite Hlist. unfold _get_executables.
    rewrite Hmsg. apply Nat.eqb_neq in Herrno. by rewrite Herrno.
Qed.

End executables_facts.

(** ** Instances of the facts above in the example provider *)

(** A translation catalog of the example provider goes to
    [ProviderContentPlugIn] with the base [/p/build/bin]. *)
Lemma classify_role_plugin_base_witness :
  Some ProviderContentPlugIn = plugin_cls_of_role FileRole.i18n
  ∧ Some $"/p/build/bin" ∈ base_dirs_of_role example_provider FileRole.i18n.
Proof.
  apply (classify_role_plugin_base example_provider example_fs
           $"/p/build/mo/pl/LC_MESSAGES/example.mo"). by_vm.
Defined.

(** [/p/bin/tool] is a script. *)
Lemma classify_executable_witness :
  access_x example_fs $"/p/bin/tool" = true
  ∧ (FileRole.script = FileRole.script
     ↔ read2 example_fs $"/p/bin/tool" = $"#!").
Proof.
  apply (classify_executable example_provider example_fs $"/p/bin/tool"
           FileRole.script (Some $"/p/bin") (Some ProviderContentPlugIn)).
  - by_vm.
  - by left.
Defined.

(** A file of the directory [/p/jobs-old] is a unit source of the jobs
    directory [/p/jobs]. *)
Lemma classify_jobs_iff_witness :
  classify example_provider example_fs $"/p/jobs-old/notes.in"
  = Returns (FileRole.unit_source, Some $"/p/jobs", Some UnitPlugIn2).
Proof.
  apply (classify_jobs_iff example_provider example_fs
           $"/p/jobs-old/notes.in" $"/p/jobs"); [done..|].
  split.
  - by exists $"-old/notes.in".
  - apply (bool_decide_eq_true_1 (_ ∈ _)). by_vm.
Defined.

(** A hook of the git repository of the example provider. *)
Lemma classify_vcs_inside_witness :
  _classify_vcs example_provider $"/p/.git/hooks/pre-commit"
  = Returns (Some (FileRole.vcs, Some $"/p", None))
  ∧ ($"/p" ≠ [] →
     ∃ role base cls,
       classify example_provider example_fs $"/p/.git/hooks/pre-commit"
       = Returns (role, base, cls)
       ∧ role ≠ FileRole.unknown).
Proof.
  apply (classify_vcs_inside example_provider example_fs $"/p" [] $".git"
           $"/hooks/pre-commit").
  - reflexivity.
  - apply (bool_decide_eq_true_1 (_ ∈ _)). by_vm.
  - right. by eexists.
Defined.

(** With a check that reports a warning and then two errors, the
    first error is the problem of a category without a name, which
    would not validate either. *)
Lemma define_unit_check_then_validate_witness :
  define_unit checking_env (Some example_provider) true ∅ true None
    (rfc822.mkRecord (<[ $"unit" := $"category" ]> {[ $"id" := $"c" ]})
       (mkOrigin UnknownTextSource (Some 1) (Some 2)))
  = Raises (PlugInError
              (ProblemInUnitDefinition (mkIssue error $"no plugin"))).
Proof.
  refine (proj1 (define_unit_check_then_validate checking_env
                   (Some example_provider) true ∅ true None
                   (rfc822.mkRecord
                      (<[ $"unit" := $"category" ]> {[ $"id" := $"c" ]})
                      (mkOrigin UnknownTextSource (Some 1) (Some 2)))
                   (example_from_record $"category")
                   (new_unit (RegisteredUnit $"category")
                      (VStr <$> <[ $"unit" := $"category" ]>
                                  {[ $"id" := $"c" ]})
                      (mkOrigin UnknownTextSource (Some 1) (Some 2))
                      (Some example_provider) None None) _ _)
            [mkIssue warning $"no summary"] (mkIssue error $"no plugin")
            [mkIssue error $"no command"] eq_refl eq_refl _ eq_refl).
  - by_vm.
  - by_vm.
  - by repeat constructor.
Defined.

(** The two plug-ins on the unit source [/p/jobs/a.txt]. *)
Lemma unit_plugins_agree_witness :
  match UnitPlugIn.init example_env $"/p/jobs/a.txt"
          (text_of_lines [$"id: a"]) (Some example_provider) default_kwargs
  with
  | Returns legacy =>
      ∃ units file_unit,
        UnitPlugIn._unit_list legacy
        = units ++ [UnitPlugIn._make_file_unit $"/p/jobs/a.txt"
                      (Some example_provider)]
        ∧ ContentPlugIn.make_file_unit example_fs $"/p/jobs/a.txt"
            (Some example_provider) None None
          = Returns file_unit
        ∧ ContentPlugIn.init example_env example_fs UnitPlugIn2
            $"/p/jobs/a.txt" (inr (text_of_lines [$"id: a"]))
            (Some example_provider) default_kwargs
          = Returns
              (ContentPlugIn.mk (env := example_env) UnitPlugIn2
                 $"/p/jobs/a.txt" units (units ++ [file_unit])
                 (map (whitelist_of_test_plan example_env)
                    (filter is_test_plan units)))
  | Raises (PlugInError msg) =>
      ContentPlugIn.init example_env example_fs UnitPlugIn2 $"/p/jobs/a.txt"
        (inr (text_of_lines [$"id: a"])) (Some example_provider)
        default_kwargs
      = Raises (PlugInError msg)
  | Raises e =>
      ContentPlugIn.init example_env example_fs UnitPlugIn2 $"/p/jobs/a.txt"
        (inr (text_of_lines [$"id: a"])) (Some example_provider)
        default_kwargs
      = Raises (PlugInError (CannotLoad $"/p/jobs/a.txt" e))
  | Diverges => False
  end.
Proof.
  apply (unit_plugins_agree example_env example_fs example_provider
           $"/p/jobs/a.txt" (text_of_lines [$"id: a"]) default_kwargs
           (FileRole.unit_source, Some $"/p/jobs", Some UnitPlugIn2)).
  by_vm.
Defined.

(** The data file whose text cannot be read. *)
Lemma content_plugin_never_reads_text_witness :
  ProviderContentLoader.units_of example_env example_fs example_provider
    default_kwargs data_file
  = [file_unit_of $"/p/data/blob" (Some example_provider) FileRole.data
       (Some $"/p/data")]
  ∧ ProviderContentLoader.whitelists_of example_env example_fs
      example_provider default_kwargs data_file = []
  ∧ ProviderContentLoader.problem_of example_env example_fs example_provider
      default_kwargs data_file = None.
Proof.
  apply (content_plugin_never_reads_text example_env example_fs
           example_provider default_kwargs $"/p/data/blob"
           (inl (IOError $"cannot decode"))).
  by_vm.
Defined.

(** A unit source whose text cannot be read. *)
Lemma unreadable_text_is_a_problem_witness :
  ProviderContentLoader.problem_of example_env example_fs example_provider
    default_kwargs ($"/p/jobs/a.txt", inl (IOError $"cannot decode"))
  = Some (PlugInError
            (CannotLoad $"/p/jobs/a.txt" (IOError $"cannot decode")))
  ∧ ProviderContentLoader.units_of example_env example_fs example_provider
      default_kwargs ($"/p/jobs/a.txt", inl (IOError $"cannot decode")) = []
  ∧ ProviderContentLoader.whitelists_of example_env example_fs
      example_provider default_kwargs
      ($"/p/jobs/a.txt", inl (IOError $"cannot decode")) = [].
Proof.
  apply (unreadable_text_is_a_problem example_env example_fs example_provider
           default_kwargs $"/p/jobs/a.txt" FileRole.unit_source
           (Some $"/p/jobs") UnitPlugIn2 (IOError $"cannot decode")).
  - by_vm.
  - done.
Defined.

(** The file unit of the unit source [/p/jobs/a.txt]. *)
Lemma loaded_file_has_file_unit_witness :
  ∃ units,
    ProviderContentLoader.units_of example_env example_fs example_provider
      default_kwargs good_file
    = units ++ [file_unit_of $"/p/jobs/a.txt" (Some example_provider)
                  FileRole.unit_source (Some $"/p/jobs")].
Proof.
  apply (loaded_file_has_file_unit example_env example_fs example_provider
           default_kwargs $"/p/jobs/a.txt" (inr (text_of_lines [$"id: a"]))
           FileRole.unit_source (Some $"/p/jobs") UnitPlugIn2); by_vm.
Defined.

(** After one load of the three example files, the entry of the
    identifier [a] lists the units of [unit_list] with that
    identifier. *)
Lemma load_indexes_units_witness :
  ProviderContentLoader.id_map loaded_once !! Some $"a"
  = Some (filter (λ u, has_field example_env u $"id" = true
                       ∧ unit_id example_env u = Some $"a")
            (ProviderContentLoader.unit_list loaded_once)).
Proof.
  pose proof (load_indexes_units example_env example_fs example_loader
                [good_file; bad_file; data_file] [] default_kwargs
                loaded_once) as H.
  destruct H as [_ H]; [by_vm|].
  destruct (H (λ key, conj eq_refl eq_refl) (Some $"a")) as [<- _].
  by_vm.
Defined.

(** Three units and one problem after one load of the three example
    files, six units and two problems after a second one. *)
Lemma load_twice_duplicates_witness :
  length (ProviderContentLoader.unit_list loaded_once) = 3
  ∧ length (ProviderContentLoader.unit_list loaded_twice) = 6
  ∧ length (ProviderContentLoader.problem_list loaded_twice) = 2.
Proof.
  destruct (load_twice_duplicates example_env example_fs example_loader
              [good_file; bad_file; data_file] [] default_kwargs
              loaded_once loaded_twice) as (-> & _ & ->); [by_vm..|].
  repeat split; by_vm.
Defined.

(** The provider that only declares a units directory loads a file
    whose path begins with two slashes. *)
Lemma load_without_base_dir_witness :
  ∃ self',
    ProviderContentLoader.load example_env example_fs units_only_loader
      [($"//p/units/a.txt", inr (text_of_lines [$"id: a"]))] []
      default_kwargs
    = Returns self'.
Proof.
  apply (load_without_base_dir example_env example_fs units_only_loader).
  reflexivity.
Defined.

(** The test plan of [/p/whitelists/smoke.whitelist] is [smoke]. *)
Lemma test_plan_id_of_filename_witness :
  unit_data (make_test_plan_unit $"/p/whitelists/smoke.whitelist" $"a"
               (Some example_provider)) !! $"id"
  = Some (VStr $"smoke")
  ∧ unit_data (make_test_plan_unit $"/p/whitelists/smoke.whitelist" $"a"
                 (Some example_provider)) !! $"name"
    = Some (VStr $"smoke").
Proof.
  apply (test_plan_id_of_filename $"/p/whitelists/" $"smoke" $"a"
           (Some example_provider)).
  - right. by exists $"/p/whitelists".
  - apply (bool_decide_eq_false_1 (_ ∈ _)). by_vm.
Defined.

(** The namespace of the example provider. *)
Lemma namespace_spec_witness :
  namespace example_provider = $"2013.com.canonical".
Proof.
  apply (proj2 (proj2 (namespace_spec example_provider))
           $"2013.com.canonical" $"example").
  - reflexivity.
  - apply (bool_decide_eq_false_1 (_ ∈ _)). by_vm.
Defined.

(** A definition file directly inside [/usr/share/plainbox-providers-1]
    is secure. *)
Lemma secure_iff_witness :
  Provider1PlugIn.secure $"/usr/share/plainbox-providers-1/example.provider"
  = true.
Proof.
  apply (proj2 (secure_iff
                  $"/usr/share/plainbox-providers-1/example.provider")).
  exists $"/usr/share/plainbox-providers-1", $"/", $"example.provider".
  split; [|split; [done|split; [done|split; [|done]]]].
  - apply (bool_decide_eq_true_1 (_ ∈ _)). by_vm.
  - apply (bool_decide_eq_false_1 (_ ∈ _)). by_vm.
Defined.

(** The directories enumerated for the example provider. *)
Lemma dir_list_spec_witness :
  ∃ src_path build_bin_path,
    src_dir example_provider = Some src_path
    ∧ build_bin_dir example_provider = Some build_bin_path
    ∧ ProviderContentEnumerator.dir_list example_provider
      = [$"/p"; src_path; build_bin_path]
        ++ ProviderContentEnumerator.append_if (build_mo_dir example_provider)
    ∧ $"/p" `prefix_of` src_path ∧ $"/p" `prefix_of` build_bin_path.
Proof.
  by apply (proj1 (proj2 (dir_list_spec example_provider)) $"/p").
Defined.

(** In the example definition the locale directory is [/p/build/mo]. *)
Lemma effective_dirs_spec_witness :
  Provider1Definition.effective_locale_dir example_isdir example_definition
  = if example_isdir (Py.path_join $"/p" [$"locale"])
    then Some (Py.path_join $"/p" [$"locale"])
    else if example_isdir (Py.path_join $"/p" [$"build"; $"mo"])
         then Some (Py.path_join $"/p" [$"build"; $"mo"])
         else None.
Proof.
  by apply (proj2 (proj2 (effective_dirs_spec example_isdir
                            example_definition))).
Defined.

(** With [tool] in [/p/src/EXECUTABLES], [/p/build/bin/tool] is listed
    by the provider and is a script for the classifier. *)
Lemma executables_hint_file_witness :
  _get_build_bin_executable_list hint_fs example_listdir example_provider
  = Returns [$"/p/build/bin/tool"]
  ∧ _classify_built_exec example_provider hint_fs $"/p/build/bin/tool"
    = Returns (Some (FileRole.script, Some $"/p/build/bin",
                     Some ProviderContentPlugIn)).
Proof.
  pose proof (executables_hint_file hint_fs example_listdir example_provider
                $"/p" eq_refl eq_refl) as [Hlist Hrule].
  split.
  - etrans; [exact Hlist|]. by_vm.
  - etrans; [apply (Hrule $"tool")|]; [| |done|by_vm].
    + apply (bool_decide_eq_true_1 (_ ∈ _)). by_vm.
    + apply (bool_decide_eq_false_1 (_ ∈ _)). by_vm.
Defined.

(** Without [/p/src/EXECUTABLES], and without [/p/build/bin]. *)
Lemma built_exec_without_hint_file_witness :
  _classify_built_exec example_provider example_fs $"/p/build/bin/tool"
  = Returns None
  ∧ _get_build_bin_executable_list example_fs example_listdir
      example_provider = Returns [].
Proof.
  pose proof (built_exec_without_hint_file example_fs example_listdir
                example_provider $"/p" eq_refl eq_refl)
    as (Hrule & _ & _ & Hmissing & _).
  split; [apply Hrule|]. by apply (Hmissing $"No such file or directory").
Defined.
